(** * phenopype: the pype engine ([Pype._iterate]) and its container

    A shallow embedding of the parts of [phenopype/main.py],
    [phenopype/utils.py] and [phenopype/settings.py] that decide how one
    pass over a pype configuration resolves method names, assigns
    annotation ids and edit policies, isolates failures, reacts to the
    restart flag and rewrites the configuration file, and of what stands
    around the pass: the container's [run], [reset] and [select_canvas],
    the loading of the configuration and the loop of [Pype.__init__].

    Layout: Python values and their [==] ([Py]), the tables of
    [settings.py] ([Settings]), the container of [utils.py] ([Utils]),
    the pass of [main.py] ([Main]), the session around it ([Session]),
    then the theorems. *)

From Stdlib Require Import ZArith String Ascii List Bool Lia.
From stdpp Require Import gmap strings list fin_maps.

Set Implicit Arguments.
Set Default Proof Using "Type".

(* ===================================================================== *)
(** * Python values *)
(* ===================================================================== *)

Module Py.

(** What [ruamel.yaml] loads from a configuration file.  A mapping keeps
    its insertion order (the code reads "the first key"), so it is an
    association list; Python keeps the keys of a mapping distinct
    ([wf_value] below).  Floats are not modelled, and a document is a
    tree: YAML anchors, which would make two places share one object,
    are outside the model. *)
Unset Elimination Schemes.
Inductive value : Type :=
| VNone
| VBool (b : bool)
| VInt (n : Z)
| VStr (s : string)
| VSeq (xs : list value)
| VMap (kvs : list (string * value)).
Set Elimination Schemes.

(** An exception object: its class name and its message. Only classes
    derived from [Exception] are modelled. *)
Record exn : Type := Exn { exn_class : string; exn_msg : string }.

(** A computation that returns or raises. *)
Inductive res (A : Type) : Type :=
| Ok (a : A)
| Err (e : exn).
Arguments Ok {A} a.
Arguments Err {A} e.

Definition bind {A B} (r : res A) (k : A -> res B) : res B :=
  match r with
  | Ok a => k a
  | Err e => Err e
  end.

(** ** Dictionaries: insertion-ordered, one entry per key *)

Section Dict.
Context {V : Type}.

Fixpoint get (k : string) (d : list (string * V)) : option V :=
  match d with
  | [] => None
  | (k', v) :: r => if String.eqb k k' then Some v else get k r
  end.

(** [k in d] *)
Definition mem (k : string) (d : list (string * V)) : bool :=
  match get k d with Some _ => true | None => false end.

(** [d[k] = v]: an existing key keeps its place, a new one goes last. *)
Fixpoint set_item (k : string) (v : V) (d : list (string * V))
  : list (string * V) :=
  match d with
  | [] => [(k, v)]
  | (k', v') :: r =>
      if String.eqb k k' then (k, v) :: r else (k', v') :: set_item k v r
  end.

(** [del d[k]] (the caller has checked [k in d]): no entry with the key
    is left. *)
Fixpoint del_item (k : string) (d : list (string * V))
  : list (string * V) :=
  match d with
  | [] => []
  | (k', v') :: r =>
      if String.eqb k k' then del_item k r else (k', v') :: del_item k r
  end.

(** [d.update(e)] *)
Definition update (d e : list (string * V)) : list (string * V) :=
  fold_left (fun acc kv => set_item (fst kv) (snd kv) acc) e d.

Definition keys (d : list (string * V)) : list string := map fst d.
End Dict.

(** Keys are distinct at every mapping of the value. *)
Fixpoint wf_value (v : value) : bool :=
  match v with
  | VSeq xs => forallb wf_value xs
  | VMap kvs =>
      bool_decide (NoDup (keys kvs))
      && (fix go (l : list (string * value)) : bool :=
            match l with
            | [] => true
            | kv :: r => wf_value (snd kv) && go r
            end) kvs
  | _ => true
  end.

(** ** [==]

    Sequences compare element by element, in order.  Mappings compare as
    [dict]s: same keys, equal values, whatever the order of the keys
    (the entries that [_iterate] writes into the updated configuration
    are plain [dict]s, and a [CommentedMap] compares itself as
    [dict(self) == other]).  [True == 1] and [False == 0] as in
    Python. *)
Fixpoint py_eq (a b : value) {struct a} : bool :=
  match a, b with
  | VNone, VNone => true
  | VBool x, VBool y => Bool.eqb x y
  | VBool x, VInt n | VInt n, VBool x => Z.eqb n (if x then 1 else 0)
  | VInt n, VInt m => Z.eqb n m
  | VStr s, VStr t => String.eqb s t
  | VSeq xs, VSeq ys =>
      (fix go (l : list value) (r : list value) : bool :=
         match l, r with
         | [], [] => true
         | x :: l', y :: r' => py_eq x y && go l' r'
         | _, _ => false
         end) xs ys
  | VMap kvs, VMap kvs' =>
      Nat.eqb (length kvs) (length kvs')
      && (fix go (l : list (string * value)) : bool :=
            match l with
            | [] => true
            | kv :: r =>
                match get (fst kv) kvs' with
                | Some v' => py_eq (snd kv) v'
                | None => false
                end && go r
            end) kvs
  | _, _ => false
  end.

(** ** Statements: a state, and a result or a raised exception

    A Python statement runs on a state and either finishes with a value
    or raises; in both cases the mutations made so far stay. *)
Inductive outcome (S A : Type) : Type :=
| Returns (a : A) (s : S)
| Raises (e : exn) (s : S).
Arguments Returns {S A} a s.
Arguments Raises {S A} e s.

Definition M (S A : Type) : Type := S -> outcome S A.

Definition ret {S A} (a : A) : M S A := fun s => Returns a s.

Definition raise {S A} (e : exn) : M S A := fun s => Raises e s.

Definition mbind {S A B} (m : M S A) (k : A -> M S B) : M S B :=
  fun s =>
    match m s with
    | Returns a s' => k a s'
    | Raises e s' => Raises e s'
    end.

Definition gets {S A} (f : S -> A) : M S A := fun s => Returns (f s) s.

Definition modify {S} (f : S -> S) : M S unit := fun s => Returns tt (f s).

(** The value of an expression that may raise. *)
Definition eval {S A} (r : res A) : M S A :=
  match r with
  | Ok a => ret a
  | Err e => raise e
  end.

(** [if b: body] *)
Definition when {S} (b : bool) (body : M S unit) : M S unit :=
  if b then body else ret tt.

(** The state a statement leaves, whichever way it ends. *)
Definition final {S A} (o : outcome S A) : S :=
  match o with
  | Returns _ s => s
  | Raises _ s => s
  end.

(** A statement that leaves a part of the state as it found it, however
    it ends. *)
Definition keeps {S X A} (part : S -> X) (m : M S A) : Prop :=
  forall s, part (final (m s)) = part s.

(** A statement that only appends to a list held in the state, however
    it ends. *)
Definition extends {S X A} (part : S -> list X) (m : M S A) : Prop :=
  forall s, exists l, part (final (m s)) = part s ++ l.

Declare Scope py_scope.
Delimit Scope py_scope with py.
Notation "x <- m ;; k" := (mbind m (fun x => k))
  (at level 100, m at next level, right associativity) : py_scope.
Notation "m ;;; k" := (mbind m (fun _ => k))
  (at level 100, right associativity) : py_scope.

End Py.

(* ===================================================================== *)
(** * settings.py *)
(* ===================================================================== *)

Module Settings.
Import Py.

Definition _comment_type : string := "comment".
Definition _contour_type : string := "contour".
Definition _drawing_type : string := "drawing".
Definition _landmark_type : string := "landmark".
Definition _line_type : string := "line".
Definition _mask_type : string := "mask".
Definition _reference_type : string := "reference".
Definition _shape_feature_type : string := "shape_features".
Definition _texture_feature_type : string := "texture_features".

(** Name of an annotation-producing function -> type of its annotation. *)
Definition _annotation_functions : list (string * string) :=
  [ ("write_comment", _comment_type);
    ("detect_QRcode", _comment_type);
    ("detect_contour", _contour_type);
    ("edit_contour", _drawing_type);
    ("set_landmark", _landmark_type);
    ("detect_landmark", _landmark_type);
    ("set_polyline", _line_type);
    ("detect_skeleton", _line_type);
    ("contour_to_mask", _mask_type);
    ("create_mask", _mask_type);
    ("detect_mask", _mask_type);
    ("create_reference", _reference_type);
    ("detect_reference", _reference_type);
    ("compute_shape_features", _shape_feature_type);
    ("compute_texture_features", _texture_feature_type) ].

(** [list(set(_annotation_functions.values()))]: the nine types; the
    order of a Python set is not fixed, and nothing below reads it. *)
Definition _annotation_types : list string :=
  [ _comment_type; _contour_type; _drawing_type; _landmark_type;
    _line_type; _mask_type; _reference_type; _shape_feature_type;
    _texture_feature_type ].

(** Per step, deprecated function name -> current name. *)
Definition _legacy_names : list (string * list (string * string)) :=
  [ ("preprocessing",
      [ ("enter_data", "write_comment");
        ("comment", "write_comment");
        ("detect_shape", "detect_mask") ]);
    ("segmentation",
      [ ("detect_contours", "detect_contour");
        ("edit_contours", "edit_contour") ]);
    ("measurement",
      [ ("set_landmark", "set_landmark");
        ("set_landmarks", "set_landmark");
        ("landmark", "set_landmark");
        ("landmarks", "set_landmark");
        ("shape_features", "compute_shape_features");
        ("texture_features", "compute_texture_features") ]);
    ("visualization",
      [ ("draw_landmarks", "draw_landmark");
        ("draw_contours", "draw_contour") ]);
    ("export", []) ].

(** [string.ascii_lowercase] and Python's indexing of a string: a
    negative index counts from the end, an index out of range raises
    [IndexError]. *)
Definition ascii_lowercase : string := "abcdefghijklmnopqrstuvwxyz".

Definition str_index (s : string) (i : Z) : res string :=
  let n := Z.of_nat (String.length s) in
  let j := if (i <? 0)%Z then (i + n)%Z else i in
  if ((0 <=? j) && (j <? n))%Z
  then match String.get (Z.to_nat j) s with
       | Some c => Ok (String c EmptyString)
       | None => Err (Exn "IndexError" "string index out of range")
       end
  else Err (Exn "IndexError" "string index out of range").

End Settings.

(* ===================================================================== *)
(** * utils.py: the container *)
(* ===================================================================== *)

Module Utils.
Import Py.

Section Container.
(** Arrays ([ndarray]), annotations and data frames are opaque here:
    the container stores and hands them over, the functions of
    [phenopype.core] make them. *)
Context {Image Annotation DataFrame : Type}.

(** The annotations of one kind, by id; [annotation_id] defaults to
    [None], which is a key like any other. *)
Local Abbreviation ids := (gmap (option string) Annotation).

(** A keyword argument: a value from the configuration, or what [run]
    adds ([previous_annotation], [masks]). *)
Inductive arg : Type :=
| AVal (v : value)
| AAnn (a : Annotation)
| AMasks (m : ids).

Record Container : Type := mkContainer {
  image : Image;
  image_copy : Image;
  image_bin : option Image;
  image_gray : option Image;
  canvas : option Image;
  dirpath : option string;
  save_suffix : option string;
  annotations : gmap string ids;
  (* attributes that exist only once something has set them *)
  reference_manual_mode : option bool;
  df_contours : option DataFrame;
  reference_template_px_mm_ratio : option value;
  reference_template_image : option Image
}.

Definition set_image (x : Image) (c : Container) : Container :=
  mkContainer x (image_copy c) (image_bin c) (image_gray c) (canvas c)
    (dirpath c) (save_suffix c) (annotations c) (reference_manual_mode c)
    (df_contours c) (reference_template_px_mm_ratio c)
    (reference_template_image c).

Definition set_image_bin (x : option Image) (c : Container) : Container :=
  mkContainer (image c) (image_copy c) x (image_gray c) (canvas c)
    (dirpath c) (save_suffix c) (annotations c) (reference_manual_mode c)
    (df_contours c) (reference_template_px_mm_ratio c)
    (reference_template_image c).

Definition set_canvas (x : option Image) (c : Container) : Container :=
  mkContainer (image c) (image_copy c) (image_bin c) (image_gray c) x
    (dirpath c) (save_suffix c) (annotations c) (reference_manual_mode c)
    (df_contours c) (reference_template_px_mm_ratio c)
    (reference_template_image c).

Definition set_annotations (x : gmap string ids) (c : Container)
  : Container :=
  mkContainer (image c) (image_copy c) (image_bin c) (image_gray c)
    (canvas c) (dirpath c) (save_suffix c) x (reference_manual_mode c)
    (df_contours c) (reference_template_px_mm_ratio c)
    (reference_template_image c).

(** [Container.reset]; [copy.deepcopy] of an array is the same array
    value. *)
Definition reset (c : Container) : Container :=
  mkContainer
    (image_copy c)            (* self.image = copy.deepcopy(self.image_copy) *)
    (image_copy c)
    None                      (* self.image_bin = None *)
    None                      (* self.image_gray = None *)
    None                      (* self.canvas = None *)
    (dirpath c) (save_suffix c)
    (annotations c)
    (Some false)              (* self.reference_manual_mode = False *)
    None                      (* del self.df_contours, if it is there *)
    (reference_template_px_mm_ratio c)
    (reference_template_image c).

(** The functions of [phenopype.core] that [Container.run] calls.
    They are not part of these sources; each is taken as a function of
    the arguments it is called with, which returns or raises. *)
Record Core : Type := mkCore {
  preprocessing_blur : Image -> list (string * arg) -> res Image;
  preprocessing_create_mask :
    Image -> list (string * arg) -> res Annotation;
  preprocessing_detect_mask :
    Image -> list (string * arg) -> res Annotation;
  preprocessing_enter_data :
    Image -> list (string * arg) -> res Annotation;
  (* returns one annotation, or the tuple (reference, mask) *)
  preprocessing_detect_reference :
    Image -> Image -> value -> list (string * arg)
    -> res (Annotation + Annotation * Annotation);
  preprocessing_select_channel :
    Image -> list (string * arg) -> res Image;
  segmentation_threshold : Image -> list (string * arg) -> res Image;
  segmentation_watershed :
    Image -> option Image -> list (string * arg) -> res Image;
  segmentation_morphology : Image -> list (string * arg) -> res Image;
  segmentation_detect_contours :
    Image -> list (string * arg) -> res Annotation
}.

(** What [run] works on: the container and the [kwargs] dictionary it
    was given, which it updates in place (the caller sees it). *)
Record Frame : Type := mkFrame {
  self : Container;
  kwargs : list (string * arg)
}.

Definition on_self (f : Container -> Container) : M Frame unit :=
  modify (fun fr => mkFrame (f (self fr)) (kwargs fr)).

(** [kwargs.update({k: a})] *)
Definition kwargs_update (k : string) (a : arg) : M Frame unit :=
  modify (fun fr => mkFrame (self fr) (set_item k a (kwargs fr))).

(** [self.annotations[kind]] *)
Definition annotations_get (kind : string) : M Frame ids :=
  (store <- gets (fun fr => annotations (self fr)) ;;
   match store !! kind with
   | Some m => ret m
   | None => raise (Exn "KeyError" kind)
   end)%py.

(** [self.annotations[kind][annotation_id] = a] *)
Definition annotations_set (kind : string) (annotation_id : option string)
    (a : Annotation) : M Frame unit :=
  (m <- annotations_get kind ;;
   on_self (fun c =>
     set_annotations (<[kind := <[annotation_id := a]> m]> (annotations c)) c))%py.

Variable core : Core.

(** [Container.run(self, fun, annotation_id=None, kwargs={})] *)
Definition run (fun_ : string) (annotation_id : option string)
  : M Frame unit :=
  (masks <- annotations_get "masks" ;;
   match masks !! annotation_id with
   | Some prev => kwargs_update "previous_annotation" (AAnn prev)
   | None => ret tt
   end ;;;
   (* preprocessing *)
   when (String.eqb fun_ "blur")
     (img <- gets (fun fr => image (self fr)) ;;
      kw <- gets kwargs ;;
      r <- eval (preprocessing_blur core img kw) ;;
      on_self (set_image r)) ;;;
   when (String.eqb fun_ "create_mask")
     (img <- gets (fun fr => image (self fr)) ;;
      kw <- gets kwargs ;;
      annotation <- eval (preprocessing_create_mask core img kw) ;;
      annotations_set "masks" annotation_id annotation) ;;;
   when (String.eqb fun_ "detect_mask")
     (img <- gets (fun fr => image (self fr)) ;;
      kw <- gets kwargs ;;
      annotation <- eval (preprocessing_detect_mask core img kw) ;;
      annotations_set "masks" annotation_id annotation) ;;;
   when (String.eqb fun_ "enter_data")
     (img <- gets (fun fr => image (self fr)) ;;
      kw <- gets kwargs ;;
      annotation <- eval (preprocessing_enter_data core img kw) ;;
      annotations_set "comments" annotation_id annotation) ;;;
   when (String.eqb fun_ "detect_reference")
     (ratio <- gets (fun fr => reference_template_px_mm_ratio (self fr)) ;;
      template <- gets (fun fr => reference_template_image (self fr)) ;;
      match ratio, template with
      | Some ratio, Some template =>
          img <- gets (fun fr => image (self fr)) ;;
          kw <- gets kwargs ;;
          annotation <-
            eval (preprocessing_detect_reference core img template ratio kw) ;;
          match annotation with
          | inr (reference, mask) =>
              (* the tuple itself is stored first, then replaced *)
              annotations_set "masks" annotation_id mask ;;;
              annotations_set "references" annotation_id reference
          | inl a =>
              annotations_set "masks" annotation_id a ;;;
              annotations_set "references" annotation_id a
          end
      | _, _ => ret tt (* print: missing project level reference *)
      end) ;;;
   when (String.eqb fun_ "select_channel")
     (img <- gets (fun fr => image (self fr)) ;;
      kw <- gets kwargs ;;
      r <- eval (preprocessing_select_channel core img kw) ;;
      on_self (set_image r)) ;;;
   (* segmentation *)
   when (String.eqb fun_ "threshold")
     (masks <- annotations_get "masks" ;;
      when (0 <? size masks)%nat (kwargs_update "masks" (AMasks masks)) ;;;
      img <- gets (fun fr => image (self fr)) ;;
      kw <- gets kwargs ;;
      r <- eval (segmentation_threshold core img kw) ;;
      on_self (set_image r) ;;;
      on_self (fun c => set_image_bin (Some (image c)) c)) ;;;
   when (String.eqb fun_ "watershed")
     (orig <- gets (fun fr => image_copy (self fr)) ;;
      bin <- gets (fun fr => image_bin (self fr)) ;;
      kw <- gets kwargs ;;
      r <- eval (segmentation_watershed core orig bin kw) ;;
      on_self (set_image r)) ;;;
   when (String.eqb fun_ "morphology")
     (img <- gets (fun fr => image (self fr)) ;;
      kw <- gets kwargs ;;
      r <- eval (segmentation_morphology core img kw) ;;
      on_self (set_image r)) ;;;
   when (String.eqb fun_ "detect_contours")
     (img <- gets (fun fr => image (self fr)) ;;
      kw <- gets kwargs ;;
      r <- eval (segmentation_detect_contours core img kw) ;;
      annotations_set "contours" annotation_id r))%py.

End Container.

Arguments Container : clear implicits.
Arguments Core : clear implicits.
Arguments Frame : clear implicits.
Arguments arg : clear implicits.

Section Canvas.
Context {Image Annotation DataFrame : Type}.

(** What [select_canvas] asks of [cv2] and [numpy]: the two colour
    conversions, [image[:, :, k]], and [len(image.shape)]. *)
Record Cv : Type := mkCv {
  cvtColor_BGR2GRAY : Image -> res Image;
  cvtColor_GRAY2BGR : Image -> res Image;
  channel : Image -> nat -> res Image;
  ndim : Image -> nat
}.

(** The container and what [select_canvas] has printed. *)
Record View : Type := mkView {
  shown : Container Image Annotation DataFrame;
  lines : list string
}.

Definition set_shown_canvas (x : option Image) : M View unit :=
  modify (fun v => mkView (set_canvas x (shown v)) (lines v)).

Definition say (line : string) : M View unit :=
  modify (fun v => mkView (shown v) (lines v ++ [line])).

Variable cv : Cv.

(** [Container.select_canvas(self, canvas="mod", multi=True)] *)
Definition select_canvas (canvas_ : string) (multi : bool) : M View unit :=
  ((if String.eqb canvas_ "mod" then
      img <- gets (fun v => image (shown v)) ;;
      set_shown_canvas (Some img) ;;;
      say "- modifed image"
    else if String.eqb canvas_ "raw" then
      img <- gets (fun v => image_copy (shown v)) ;;
      set_shown_canvas (Some img) ;;;
      say "- raw image"
    else if String.eqb canvas_ "bin" then
      bin <- gets (fun v => image_bin (shown v)) ;;
      set_shown_canvas bin ;;;
      say "- binary image"
    else if String.eqb canvas_ "gray" then
      img <- gets (fun v => image (shown v)) ;;
      r <- eval (cvtColor_BGR2GRAY cv img) ;;
      set_shown_canvas (Some r) ;;;
      say "- grayscale image"
    else if String.eqb canvas_ "green" then
      img <- gets (fun v => image (shown v)) ;;
      r <- eval (channel cv img 0) ;;
      set_shown_canvas (Some r) ;;;
      say "- green channel"
    else if String.eqb canvas_ "red" then
      img <- gets (fun v => image (shown v)) ;;
      r <- eval (channel cv img 1) ;;
      set_shown_canvas (Some r) ;;;
      say "- red channel"
    else if String.eqb canvas_ "blue" then
      img <- gets (fun v => image (shown v)) ;;
      r <- eval (channel cv img 2) ;;
      set_shown_canvas (Some r) ;;;
      say "- blue channel"
    else
      say "- invalid selection - defaulting to raw image" ;;;
      img <- gets (fun v => image_copy (shown v)) ;;
      set_shown_canvas (Some img)) ;;;
   (* check if colour *)
   when multi
     (c <- gets (fun v => canvas (shown v)) ;;
      match c with
      | None =>
          raise (Exn "AttributeError"
                   "'NoneType' object has no attribute 'shape'")
      | Some a =>
          when (ndim cv a <? 3)%nat
            (r <- eval (cvtColor_GRAY2BGR cv a) ;;
             set_shown_canvas (Some r))
      end))%py.

End Canvas.

Arguments Cv : clear implicits.
Arguments View : clear implicits.

End Utils.

(* ===================================================================== *)
(** * main.py: one pass of the pype *)
(* ===================================================================== *)

Module Main.
Import Py Settings.

(** ** Reading a configuration *)

Definition nl : string := String (ascii_of_nat 10) EmptyString.

(** [str.upper], on ASCII letters. *)
Definition upper_ascii (c : ascii) : ascii :=
  let n := nat_of_ascii c in
  if (97 <=? n)%nat && (n <=? 122)%nat then ascii_of_nat (n - 32) else c.

Fixpoint upper (s : string) : string :=
  match s with
  | EmptyString => EmptyString
  | String c r => String (upper_ascii c) (upper r)
  end.

(** [x.__class__.__name__ == "str"] *)
Definition is_str (v : value) : bool :=
  match v with VStr _ => true | _ => false end.

(** [x.__class__.__name__ in ["dict", "ordereddict", "CommentedMap"]] *)
Definition is_map (v : value) : bool :=
  match v with VMap _ => true | _ => false end.

(** [x.__class__.__name__ == "NoneType"] *)
Definition is_none (v : value) : bool :=
  match v with VNone => true | _ => false end.

(** The characters of a string, each a string of its own. *)
Definition chars (s : string) : list value :=
  map (fun c => VStr (String c EmptyString)) (list_ascii_of_string s).

(** [for x in v], [list(v)]: a sequence gives its elements, a mapping
    its keys, a string its characters; nothing else that a configuration
    holds is iterable. *)
Definition py_iter (v : value) : res (list value) :=
  match v with
  | VSeq xs => Ok xs
  | VMap kvs => Ok (map VStr (keys kvs))
  | VStr s => Ok (chars s)
  | _ => Err (Exn "TypeError" "object is not iterable")
  end.

(** One element of the sequence that [dict] is given: an iterable of two
    elements, the key and its value.  The keys of [value] are strings: a
    key that is hashable and not a string ([None], a bool, an int) has no
    place in it, and the model stops there with [NotModelled], where
    Python goes on. *)
Definition dict_item (x : value) : res (string * value) :=
  match py_iter x with
  | Ok [VStr k; v] => Ok (k, v)
  | Ok [VSeq _; _] | Ok [VMap _; _] =>
      Err (Exn "TypeError" "unhashable type")
  | Ok [_; _] => Err (Exn "NotModelled" "a key that is not a string")
  | Ok _ =>
      Err (Exn "ValueError"
             "dictionary update sequence element has length other than 2")
  | Err _ =>
      Err (Exn "TypeError"
             "cannot convert dictionary update sequence element to a sequence")
  end.

Fixpoint dict_items (xs : list value) (d : list (string * value))
  : res (list (string * value)) :=
  match xs with
  | [] => Ok d
  | x :: rest =>
      bind (dict_item x) (fun kv =>
      dict_items rest (set_item (fst kv) (snd kv) d))
  end.

(** [dict(v)]: a mapping is copied; a sequence, or a string (whose
    elements are its characters), gives one entry for each of its
    elements, a later one replacing an earlier one with the same key;
    nothing else is iterable. *)
Definition py_dict (v : value) : res (list (string * value)) :=
  match v with
  | VMap kvs => Ok kvs
  | VSeq xs => dict_items xs []
  | VStr s => dict_items (chars s) []
  | _ => Err (Exn "TypeError" "object is not iterable")
  end.

(** [list(d.keys())[0]] and [list(d.values())[0]] *)
Definition first_key (d : list (string * value)) : res string :=
  match d with
  | (k, _) :: _ => Ok k
  | [] => Err (Exn "IndexError" "list index out of range")
  end.

Definition first_value (d : list (string * value)) : res value :=
  match d with
  | (_, v) :: _ => Ok v
  | [] => Err (Exn "IndexError" "list index out of range")
  end.

(** [d[k]] *)
Definition getitem (k : string) (v : value) : res value :=
  match v with
  | VMap kvs =>
      match get k kvs with
      | Some x => Ok x
      | None => Err (Exn "KeyError" k)
      end
  | _ => Err (Exn "TypeError" "object is not subscriptable")
  end.

(** [l[i]] for an index that [enumerate] produced *)
Definition getindex (i : nat) (v : value) : res value :=
  match v with
  | VSeq xs =>
      match xs !! i with
      | Some x => Ok x
      | None => Err (Exn "IndexError" "list index out of range")
      end
  | _ => Err (Exn "TypeError" "object is not subscriptable")
  end.

(** [cfg["processing_steps"][step_idx][step_name][method_idx] = entry].
    The assignment is to an element of a list.  Where the methods of the
    step are a mapping, Python adds the key [method_idx], an int, which
    has no place in [value]: the model stops there with [NotModelled],
    where Python goes on. *)
Definition set_method (step_idx : nat) (step_name : string)
    (method_idx : nat) (entry : value) (cfg : value) : res value :=
  match cfg with
  | VMap top =>
      match get "processing_steps" top with
      | Some (VSeq steps) =>
          match steps !! step_idx with
          | Some (VMap step) =>
              match get step_name step with
              | Some (VSeq methods) =>
                  if (method_idx <? length methods)%nat
                  then Ok (VMap (set_item "processing_steps"
                             (VSeq (<[step_idx :=
                                VMap (set_item step_name
                                  (VSeq (<[method_idx := entry]> methods))
                                  step)]> steps))
                             top))
                  else Err (Exn "IndexError"
                              "list assignment index out of range")
              | Some (VMap _) =>
                  Err (Exn "NotModelled" "a key that is not a string")
              | Some _ =>
                  Err (Exn "TypeError"
                         "object does not support item assignment")
              | None => Err (Exn "KeyError" step_name)
              end
          | Some (VSeq _) =>
              Err (Exn "TypeError" "list indices must be integers or slices")
          | Some (VStr _) =>
              Err (Exn "TypeError" "string indices must be integers")
          | Some _ => Err (Exn "TypeError" "object is not subscriptable")
          | None => Err (Exn "IndexError" "list index out of range")
          end
      | Some (VMap _) => Err (Exn "KeyError" "step_idx")
      | Some (VStr steps) =>
          if (step_idx <? String.length steps)%nat
          then Err (Exn "TypeError" "string indices must be integers")
          else Err (Exn "IndexError" "string index out of range")
      | Some _ => Err (Exn "TypeError" "object is not subscriptable")
      | None => Err (Exn "KeyError" "processing_steps")
      end
  | VSeq _ => Err (Exn "TypeError" "list indices must be integers or slices")
  | VStr _ => Err (Exn "TypeError" "string indices must be integers")
  | _ => Err (Exn "TypeError" "object is not subscriptable")
  end.

(** Modelled from the spec: [utils_lowlevel._yaml_flow_style] is not in
    these sources.  Section 4.2 (step 4) has the annotation-control
    block written back into the arguments of the method as it stands;
    the flow style that the function asks the YAML writer for is
    formatting, which a value does not record. *)
Definition _yaml_flow_style (d : list (string * value)) : value := VMap d.

(** The names for which a missing [edit] defaults to ["overwrite"]. *)
Definition overwrite_by_default : list string :=
  [ "detect_contour"; "detect_shape"; "compute_shape_features";
    "compute_texture_features"; "skeletonize" ].

Definition in_list (s : string) (l : list string) : bool :=
  existsb (String.eqb s) l.

Section Pype.
Context {Image Annotation DataFrame : Type}.

Local Abbreviation Container := (Utils.Container Image Annotation DataFrame).

(** [self.flags], except [terminate], which a pass writes. *)
Record Flags : Type := mkFlags {
  debug : bool;
  autosave : bool;
  autoload : bool;
  feedback : bool;
  fix_names : bool;
  skip : bool;
  visualize : bool;
  dry_run : bool
}.

(** A place in [config_updated] that holds the very dictionary the
    local [method_args] is bound to: step index, step name, method
    index, and the key under which it sits. *)
Definition place : Type := (nat * string * nat * string)%type.

(** Everything a pass reads or writes. *)
Record State : Type := mkState {
  (* self *)
  terminate : bool;                       (* self.flags.terminate *)
  container : Container;
  config : value;
  config_updated : value;
  config_parsed_flattened : list (string * list string);
  log : list exn;
  (* the module _config *)
  pype_restart : bool;
  last_print_msg : string;
  (* outside the process *)
  stdout : list string;                   (* what print wrote *)
  saved : list (string * value);          (* what _save_yaml wrote *)
  (* locals of _iterate; a name may not be bound yet *)
  annotation_counter : gmap string Z;
  method_name : option string;
  method_args : option (list (string * value));
  aliases : list place
}.

Definition set_terminate (x : bool) (s : State) : State :=
  mkState x (container s) (config s) (config_updated s)
    (config_parsed_flattened s) (log s) (pype_restart s) (last_print_msg s)
    (stdout s) (saved s) (annotation_counter s) (method_name s)
    (method_args s) (aliases s).

Definition set_container (x : Container) (s : State) : State :=
  mkState (terminate s) x (config s) (config_updated s)
    (config_parsed_flattened s) (log s) (pype_restart s) (last_print_msg s)
    (stdout s) (saved s) (annotation_counter s) (method_name s)
    (method_args s) (aliases s).

Definition set_config_updated (x : value) (s : State) : State :=
  mkState (terminate s) (container s) (config s) x
    (config_parsed_flattened s) (log s) (pype_restart s) (last_print_msg s)
    (stdout s) (saved s) (annotation_counter s) (method_name s)
    (method_args s) (aliases s).

Definition set_config_parsed_flattened (x : list (string * list string))
    (s : State) : State :=
  mkState (terminate s) (container s) (config s) (config_updated s)
    x (log s) (pype_restart s) (last_print_msg s)
    (stdout s) (saved s) (annotation_counter s) (method_name s)
    (method_args s) (aliases s).

Definition set_log (x : list exn) (s : State) : State :=
  mkState (terminate s) (container s) (config s) (config_updated s)
    (config_parsed_flattened s) x (pype_restart s) (last_print_msg s)
    (stdout s) (saved s) (annotation_counter s) (method_name s)
    (method_args s) (aliases s).

Definition set_pype_restart (x : bool) (s : State) : State :=
  mkState (terminate s) (container s) (config s) (config_updated s)
    (config_parsed_flattened s) (log s) x (last_print_msg s)
    (stdout s) (saved s) (annotation_counter s) (method_name s)
    (method_args s) (aliases s).

Definition set_last_print_msg (x : string) (s : State) : State :=
  mkState (terminate s) (container s) (config s) (config_updated s)
    (config_parsed_flattened s) (log s) (pype_restart s) x
    (stdout s) (saved s) (annotation_counter s) (method_name s)
    (method_args s) (aliases s).

Definition set_stdout (x : list string) (s : State) : State :=
  mkState (terminate s) (container s) (config s) (config_updated s)
    (config_parsed_flattened s) (log s) (pype_restart s) (last_print_msg s)
    x (saved s) (annotation_counter s) (method_name s)
    (method_args s) (aliases s).

Definition set_saved (x : list (string * value)) (s : State) : State :=
  mkState (terminate s) (container s) (config s) (config_updated s)
    (config_parsed_flattened s) (log s) (pype_restart s) (last_print_msg s)
    (stdout s) x (annotation_counter s) (method_name s)
    (method_args s) (aliases s).

Definition set_annotation_counter (x : gmap string Z) (s : State) : State :=
  mkState (terminate s) (container s) (config s) (config_updated s)
    (config_parsed_flattened s) (log s) (pype_restart s) (last_print_msg s)
    (stdout s) (saved s) x (method_name s)
    (method_args s) (aliases s).

Definition set_method_name (x : option string) (s : State) : State :=
  mkState (terminate s) (container s) (config s) (config_updated s)
    (config_parsed_flattened s) (log s) (pype_restart s) (last_print_msg s)
    (stdout s) (saved s) (annotation_counter s) x
    (method_args s) (aliases s).

Definition set_method_args (x : option (list (string * value)))
    (s : State) : State :=
  mkState (terminate s) (container s) (config s) (config_updated s)
    (config_parsed_flattened s) (log s) (pype_restart s) (last_print_msg s)
    (stdout s) (saved s) (annotation_counter s) (method_name s)
    x (aliases s).

Definition set_aliases (x : list place) (s : State) : State :=
  mkState (terminate s) (container s) (config s) (config_updated s)
    (config_parsed_flattened s) (log s) (pype_restart s) (last_print_msg s)
    (stdout s) (saved s) (annotation_counter s) (method_name s)
    (method_args s) x.

(** ** Control flow *)

(** How the body of a [for] loop ends: it goes on with the next element
    ([continue], or the end of the body), or the function returns. *)
Inductive ctl : Type :=
| Continue
| Return.

(** [for i, x in enumerate(xs): body] *)
Fixpoint for_each {St A : Type} (body : nat -> A -> M St ctl) (i : nat)
    (xs : list A) : M St ctl :=
  match xs with
  | [] => ret Continue
  | x :: rest =>
      (c <- body i x ;;
       match c with
       | Continue => for_each body (S i) rest
       | Return => ret Return
       end)%py
  end.

(** [try: body / except Exception as ex: handler] *)
Definition try_except {St A : Type} (body : M St A)
    (handler : exn -> M St A) : M St A :=
  fun s =>
    match body s with
    | Returns a s' => Returns a s'
    | Raises ex s' => handler ex s'
    end.

(** ** The collaborators of a pass *)

(** What a call of [self.container.run] can reach: the container and
    the restart flag of the module [_config]. *)
Record Env : Type := mkEnv {
  env_container : Container;
  env_restart : bool
}.

(** The parameters of the [Pype] object and of the call. *)
Variable flags : Flags.
Variable config_path : string.

(** [hasattr(eval(step_name), method_name)]: what the name of a step
    evaluates to (the modules of [phenopype.core] for the five step
    names), as the set of its attributes; [eval] may raise. *)
Variable namespace : string -> res (string -> bool).

(** [self.container.run(fun=..., fun_kwargs=..., annotation_kwargs=...,
    annotation_counter=...)], with [None] for an argument that the call
    leaves out.  The method with this signature is not part of these
    sources; it is taken as any statement over [Env] that leaves the
    dictionaries it is given as they are. *)
Variable container_run :
  string -> option (list (string * value)) -> option value
  -> option (gmap string Z) -> M Env unit.

(** [utils_lowlevel._GUI(canvas).flags.end_pype]: the verdict of the
    window, or the exception that opening it raises. *)
Variable gui : option Image -> res bool.

(** [datetime.today().strftime(settings.strftime_format)] *)
Variable now : string.

Definition call_run (f : string) (fun_kwargs : option (list (string * value)))
    (annotation_kwargs : option value)
    (counter : option (gmap string Z)) : M State unit :=
  fun s =>
    let back (e : Env) :=
      set_pype_restart (env_restart e) (set_container (env_container e) s) in
    match container_run f fun_kwargs annotation_kwargs counter
            (mkEnv (container s) (pype_restart s)) with
    | Returns _ e => Returns tt (back e)
    | Raises ex e => Raises ex (back e)
    end.

Definition print (line : string) : M State unit :=
  modify (fun s => set_stdout (stdout s ++ [line]) s).

(** ** Locals *)

Definition unbound (name : string) : exn :=
  Exn "UnboundLocalError" name.

Definition the_method_name : M State string :=
  (n <- gets method_name ;;
   match n with
   | Some n => ret n
   | None => raise (unbound "method_name")
   end)%py.

Definition the_method_args : M State (list (string * value)) :=
  (a <- gets method_args ;;
   match a with
   | Some a => ret a
   | None => raise (unbound "method_args")
   end)%py.

(** [method_args = d]: the name is bound to a new dictionary, which
    nothing else holds. *)
Definition rebind_method_args (d : list (string * value)) : M State unit :=
  modify (fun s => set_aliases [] (set_method_args (Some d) s)).

Definition same_slot (p q : place) : bool :=
  match p, q with
  | (i, n, j, _), (i', n', j', _) =>
      Nat.eqb i i' && String.eqb n n' && Nat.eqb j j'
  end.

(** [self.config_updated["processing_steps"][step_idx][step_name][method_idx]
    = entry]; what was stored there before is no longer part of
    [config_updated]. *)
Definition assign_method (step_idx : nat) (step_name : string)
    (method_idx : nat) (entry : value) : M State unit :=
  (cfg <- gets config_updated ;;
   cfg' <- eval (set_method step_idx step_name method_idx entry cfg) ;;
   modify (fun s =>
     set_aliases
       (List.filter (fun p => negb (same_slot p (step_idx, step_name, method_idx, EmptyString)))
          (aliases s))
       (set_config_updated cfg' s)))%py.

Fixpoint write_aliases (d : list (string * value)) (ps : list place)
    (cfg : value) : res value :=
  match ps with
  | [] => Ok cfg
  | (i, n, j, key) :: rest =>
      bind (set_method i n j (VMap [(key, VMap d)]) cfg) (write_aliases d rest)
  end.

(** A change of the dictionary [method_args] in place: every place of
    [config_updated] that holds this dictionary shows the change. *)
Definition mutate_method_args
    (f : list (string * value) -> list (string * value)) : M State unit :=
  (args <- the_method_args ;;
   modify (set_method_args (Some (f args))) ;;;
   ps <- gets aliases ;;
   cfg <- gets config_updated ;;
   cfg' <- eval (write_aliases (f args) ps cfg) ;;
   modify (set_config_updated cfg'))%py.

(** The dictionary [method_args] already has [passive] set, as far as
    [config_updated] can tell: in execute mode without feedback, setting
    it once more leaves [config_updated] as it is. *)
Definition settled (execute feedback_ : bool) (s : State) : Prop :=
  execute && negb feedback_ = true ->
  forall args cfg',
    method_args s = Some args ->
    write_aliases (set_item "passive" (VBool true) args) (aliases s)
      (config_updated s) = Ok cfg' ->
    cfg' = config_updated s.

(** ** The body of the method loop *)

(** METHOD / EXTRACTION AND CHECK: "format method name and arguments".
    A method that is neither a mapping nor a string binds nothing: the
    names keep what the method before it left. *)
Definition bind_method (method : value) : M State unit :=
  match method with
  | VMap kvs =>
      (name <- eval (first_key kvs) ;;
       modify (set_method_name (Some name)) ;;;
       v <- eval (first_value kvs) ;;
       if is_none v then rebind_method_args []
       else (args <- eval (py_dict v) ;; rebind_method_args args))%py
  | VStr name =>
      (modify (set_method_name (Some name)) ;;;
       rebind_method_args [])%py
  | _ => ret tt
  end.

Definition no_function_msg (step_name name : string) : string :=
  "phenopype." +:+ step_name +:+ " has no function called " +:+ name
  +:+ " - will attempt to look for similarly named functions - fix the config file!".

(** "check if method exists" *)
Definition check_method_exists (step_idx : nat) (step_name : string)
    (method_idx : nat) : M State unit :=
  (name <- the_method_name ;;
   ns <- eval (namespace step_name) ;;
   if ns name then
     modify (fun s =>
       set_config_parsed_flattened
         (match get step_name (config_parsed_flattened s) with
          | Some names =>
              set_item step_name (names ++ [name]) (config_parsed_flattened s)
          | None => config_parsed_flattened s
          end) s)
   else if fix_names flags then
     legacy <- eval (match get step_name _legacy_names with
                     | Some table => Ok table
                     | None => Err (Exn "KeyError" step_name)
                     end) ;;
     match get name legacy with
     | Some method_name_updated =>
         args <- the_method_args ;;
         assign_method step_idx step_name method_idx
           (VMap [(method_name_updated, VMap args)]) ;;;
         modify (fun s =>
           set_aliases
             ((step_idx, step_name, method_idx, method_name_updated)
                :: aliases s) s) ;;;
         modify (set_method_name (Some method_name_updated)) ;;;
         print "Fixed method name"
     | None => ret tt
     end
   else print (no_function_msg step_name name))%py.

Definition counter_get (ty : string) : M State Z :=
  (counter <- gets annotation_counter ;;
   match counter !! ty with
   | Some c => ret c
   | None => raise (Exn "KeyError" ty)
   end)%py.

(** METHOD / ANNOTATION: "annotation params"; the value of
    [annotation_args] at the end of the block. *)
Definition annotation_params (step_idx : nat) (step_name : string)
    (method_idx : nat) : M State value :=
  (name <- the_method_name ;;
   match get name _annotation_functions with
   | Some ty =>
       c <- counter_get ty ;;
       modify (fun s =>
         set_annotation_counter (<[ty := (c + 1)%Z]> (annotation_counter s)) s) ;;;
       args <- the_method_args ;;
       a0 <- match get "ANNOTATION" args with
             | Some block =>
                 a <- eval (py_dict block) ;;
                 mutate_method_args (del_item "ANNOTATION") ;;;
                 ret a
             | None =>
                 rebind_method_args args ;;;
                 ret []
             end ;;
       let a1 := if mem "type" a0 then a0
                 else update a0 [("type", VStr ty)] in
       a2 <- (if mem "id" a1 then ret a1
              else (c <- counter_get ty ;;
                    letter <- eval (str_index ascii_lowercase c) ;;
                    ret (update a1 [("id", VStr letter)]))) ;;
       let a3 := if mem "edit" a2 then a2
                 else update a2
                        [("edit", if in_list name overwrite_by_default
                                  then VStr "overwrite" else VBool false)] in
       let annotation_args := _yaml_flow_style a3 in
       args <- the_method_args ;;
       let method_args_updated :=
         update [("ANNOTATION", annotation_args)] args in
       assign_method step_idx step_name method_idx
         (VMap [(name, VMap method_args_updated)]) ;;;
       ret annotation_args
   | None => ret (VMap [])
   end)%py.

Definition location (step_name name : string) (ex : exn) : string :=
  step_name +:+ "." +:+ name +:+ ": " +:+ exn_class ex.

(** METHOD / EXECUTE: the [try] statement of "run method with error
    handling", then "check for pype-restart after config change". *)
Definition run_method (step_name : string) (annotation_args : value)
  : M State ctl :=
  (try_except
     (name <- the_method_name ;;
      args <- the_method_args ;;
      counter <- gets annotation_counter ;;
      call_run name (Some args) (Some annotation_args) (Some counter) ;;;
      modify (set_last_print_msg EmptyString))
     (fun ex =>
        if debug flags then raise ex
        else
          (modify (fun s => set_log (log s ++ [ex]) s) ;;;
           name <- the_method_name ;;
           print (location step_name name ex +:+ " - " +:+ exn_msg ex))) ;;;
   restart <- gets pype_restart ;;
   if restart then (print "BREAK" ;;; ret Return) else ret Continue)%py.

(** METHOD / EXECUTE, all of it: [if flags.execute:] *)
Definition execute_method (execute feedback_ : bool) (step_name : string)
    (annotation_args : value) : M State ctl :=
  if execute then
    (when (negb feedback_)
       (mutate_method_args (set_item "passive" (VBool true))) ;;;
     run_method step_name annotation_args)%py
  else ret Continue.

Definition do_method (execute feedback_ : bool) (step_idx : nat)
    (step_name : string) (method_idx : nat) (method : value) : M State ctl :=
  (bind_method method ;;;
   when execute (name <- the_method_name ;; print name) ;;;
   check_method_exists step_idx step_name method_idx ;;;
   annotation_args <- annotation_params step_idx step_name method_idx ;;
   execute_method execute feedback_ step_name annotation_args)%py.

(** ** The body of the step loop *)

(** [[list(dict(i).keys())[0] if not isinstance(i, str) else i
      for i in method_list]] *)
Fixpoint vis_list (methods : list value) : res (list string) :=
  match methods with
  | [] => Ok []
  | VStr name :: rest => bind (vis_list rest) (fun l => Ok (name :: l))
  | i :: rest =>
      bind (py_dict i) (fun d =>
      bind (first_key d) (fun name =>
      bind (vis_list rest) (fun l => Ok (name :: l))))
  end.

(** "check if canvas is selected, and otherwise execute with default
    values" *)
Definition autoselect_canvas (method_list : value) : M State unit :=
  (methods <- eval (py_iter method_list) ;;
   names <- eval (vis_list methods) ;;
   cv <- gets (fun s => Utils.canvas (container s)) ;;
   when (match cv with None => true | Some _ => false end
         && negb (in_list "select_canvas" names))
     (print "select_canvas (autoselect)" ;;;
      call_run "select_canvas" None None None))%py.

Definition do_step (execute feedback_ : bool) (step_idx : nat) (step : value)
  : M State ctl :=
  if is_str step then ret Continue
  else
    (d <- eval (py_dict step) ;;
     step_name <- eval (first_key d) ;;
     method_list <- eval (first_value d) ;;
     modify (fun s =>
       set_config_parsed_flattened
         (set_item step_name [] (config_parsed_flattened s)) s) ;;;
     if is_none method_list then ret Continue
     else
       (when execute (print nl ;;; print (upper step_name)) ;;;
        when (String.eqb step_name "visualization" && execute)
          (autoselect_canvas method_list) ;;;
        methods <- eval (py_iter method_list) ;;
        for_each (do_method execute feedback_ step_idx step_name) 0 methods))%py.

(** ** The pass *)

Definition banner_new : string :=
  nl +:+ nl +:+ "------------+++ new pype iteration " +:+ now
  +:+ " +++--------------" +:+ nl +:+ nl.

Definition banner_finished : string :=
  nl +:+ nl +:+ "------------+++ finished pype iteration +++--------------"
  +:+ nl +:+ "-------(End with Ctrl+Enter or re-run with Enter)--------"
  +:+ nl +:+ nl.

(** [dict.fromkeys(settings._annotation_types, -1)] *)
Definition fresh_counter : gmap string Z :=
  list_to_map (map (fun ty => (ty, (-1)%Z)) _annotation_types).

(** CONFIG-UPDATE: the updated configuration is written to the file of
    the configuration when [==] tells it from the configuration. *)
Definition update_config : M State unit :=
  (cfg <- gets config ;;
   updated <- gets config_updated ;;
   when (negb (py_eq updated cfg))
     (modify (fun s => set_saved (saved s ++ [(config_path, updated)]) s) ;;;
      print "updating pype config file"))%py.

(** FEEDBACK; FINAL VISUALIZATION *)
Definition final_visualization (execute visualize_ feedback_ : bool)
  : M State unit :=
  (when execute (print banner_finished) ;;;
   if visualize_ && feedback_ then
     try_except
       (print "AUTOSHOW" ;;;
        cv <- gets (fun s => Utils.canvas (container s)) ;;
        when (match cv with None => true | Some _ => false end)
          (call_run "select_canvas" None None None ;;;
           print "- autoselect canvas") ;;;
        cv <- gets (fun s => Utils.canvas (container s)) ;;
        end_pype <- eval (gui cv) ;;
        modify (set_terminate end_pype))
       (fun ex =>
          print ("visualisation: " +:+ exn_class ex +:+ " - " +:+ exn_msg ex))
   else when execute (modify (set_terminate true)))%py.

(** What follows the step loop. *)
Definition finish (execute visualize_ feedback_ : bool) : M State unit :=
  (update_config ;;; final_visualization execute visualize_ feedback_)%py.

(** "reset values", then "apply pype: loop through steps and contained
    methods": the pass up to the end of the step loop.  [Return] says
    that the pass has left the loop by [return]. *)
Definition run_steps (execute feedback_ : bool) : M State ctl :=
  (modify (fun s =>
     set_aliases [] (set_method_args None (set_method_name None s))) ;;;
   when execute (print banner_new) ;;;
   when (negb (dry_run flags))
     (modify (fun s => set_container (Utils.reset (container s)) s)) ;;;
   modify (set_annotation_counter fresh_counter) ;;;
   cfg <- gets config ;;
   step_list <- eval (getitem "processing_steps" cfg) ;;
   modify (set_config_updated cfg) ;;;
   modify (set_config_parsed_flattened []) ;;;
   steps <- eval (py_iter step_list) ;;
   for_each (do_step execute feedback_) 0 steps)%py.

(** [Pype._iterate(self, config, annotations, execute, visualize,
    feedback)].  The parameters [config] and [annotations] are not read:
    the pass works on [self.config] and [self.container].  The function
    returns [None] on every path. *)
Definition _iterate (execute visualize_ feedback_ : bool) : M State unit :=
  (c <- run_steps execute feedback_ ;;
   match c with
   | Return => ret tt
   | Continue => finish execute visualize_ feedback_
   end)%py.

(** ** The pass, cut at a method

    The statements of [_iterate] once more, in the pieces in which a
    pass comes to a method and leaves it: what stands before the step
    loop, a step up to its method loop, a turn of the method loop up to
    the call of [run], and what is left of the pass after the turn.  The
    lemmas [run_steps_open], [do_step_open] and [do_method_call] show
    that the pieces put together are [run_steps], [do_step] and
    [do_method]. *)

(** "reset values", up to the step loop: gives the steps that the loop
    goes through. *)
Definition open_pass (execute : bool) : M State (list value) :=
  (modify (fun s =>
     set_aliases [] (set_method_args None (set_method_name None s))) ;;;
   when execute (print banner_new) ;;;
   when (negb (dry_run flags))
     (modify (fun s => set_container (Utils.reset (container s)) s)) ;;;
   modify (set_annotation_counter fresh_counter) ;;;
   cfg <- gets config ;;
   step_list <- eval (getitem "processing_steps" cfg) ;;
   modify (set_config_updated cfg) ;;;
   modify (set_config_parsed_flattened []) ;;;
   eval (py_iter step_list))%py.

(** The body of the step loop up to the method loop: gives the name of
    the step and its methods, or [None] for a step that the loop passes
    over. *)
Definition open_step (execute : bool) (step : value)
  : M State (option (string * list value)) :=
  if is_str step then ret None
  else
    (d <- eval (py_dict step) ;;
     step_name <- eval (first_key d) ;;
     method_list <- eval (first_value d) ;;
     modify (fun s =>
       set_config_parsed_flattened
         (set_item step_name [] (config_parsed_flattened s)) s) ;;;
     if is_none method_list then ret None
     else
       (when execute (print nl ;;; print (upper step_name)) ;;;
        when (String.eqb step_name "visualization" && execute)
          (autoselect_canvas method_list) ;;;
        methods <- eval (py_iter method_list) ;;
        ret (Some (step_name, methods))))%py.

(** A turn of the method loop in execute mode, up to the [try]
    statement: gives [annotation_args]. *)
Definition before_call (feedback_ : bool) (step_idx : nat)
    (step_name : string) (method_idx : nat) (method : value)
  : M State value :=
  (bind_method method ;;;
   (name <- the_method_name ;; print name) ;;;
   check_method_exists step_idx step_name method_idx ;;;
   annotation_args <- annotation_params step_idx step_name method_idx ;;
   when (negb feedback_)
     (mutate_method_args (set_item "passive" (VBool true))) ;;;
   ret annotation_args)%py.

(** What is left of the pass after a turn of the method loop that goes
    on: the methods [after] it in the step, the steps [later] than the
    step, and what follows the step loop. *)
Definition rest_of_pass (execute visualize_ feedback_ : bool)
    (step_idx : nat) (step_name : string) (method_idx : nat)
    (after later : list value) : M State unit :=
  (c <- for_each (do_method execute feedback_ step_idx step_name)
          (S method_idx) after ;;
   match c with
   | Return => ret tt
   | Continue =>
       c <- for_each (do_step execute feedback_) (S step_idx) later ;;
       match c with
       | Return => ret tt
       | Continue => finish execute visualize_ feedback_
       end
   end)%py.

(** The pass from [s] comes to the method [method], the one at
    [method_idx] in the step at [step_idx], in the state [at_method]:
    the step is a mapping whose first entry is the name of the step with
    the sequence of its methods, and the steps before the step and the
    methods before the method have gone on to the next. *)
Definition arrives (execute feedback_ : bool) (s : State)
    (step_idx : nat) (step_name : string) (method_idx : nat)
    (method : value) (after later : list value) (at_method : State)
  : Prop :=
  exists earlier more before s0 s1 s2,
    let step :=
      VMap ((step_name, VSeq (before ++ method :: after)) :: more) in
    open_pass execute s = Returns (earlier ++ step :: later) s0
    /\ step_idx = length earlier
    /\ for_each (do_step execute feedback_) 0 earlier s0
       = Returns Continue s1
    /\ open_step execute step s1
       = Returns (Some (step_name, before ++ method :: after)) s2
    /\ method_idx = length before
    /\ for_each (do_method execute feedback_ step_idx step_name) 0 before s2
       = Returns Continue at_method.

(** A statement that ends the pass by [return] only with the restart
    flag up. *)
Definition return_with_restart (m : M State ctl) : Prop :=
  forall s s', m s = Returns Return s' -> pype_restart s' = true.

End Pype.
End Main.

(* ===================================================================== *)
(** * What a pass writes, read off the loop body *)
(* ===================================================================== *)

(** The loop body of [_iterate] touches [config_updated] and
    [annotation_counter] in a way that depends only on the method at
    hand, the name of its step and the counter.  The functions below
    describe that dependence without the state; the lemmas further down
    show that a pass computes exactly them. *)
Module Outline.
Import Py Settings Main.

Definition processing_steps (cfg : value) : option (list value) :=
  match cfg with
  | VMap top =>
      match get "processing_steps" top with
      | Some (VSeq steps) => Some steps
      | _ => None
      end
  | _ => None
  end.

(** The methods of step [step_idx], read as [set_method] reads them. *)
Definition get_methods (step_idx : nat) (step_name : string) (cfg : value)
  : option (list value) :=
  match processing_steps cfg with
  | Some steps =>
      match steps !! step_idx with
      | Some (VMap step) =>
          match get step_name step with
          | Some (VSeq methods) => Some methods
          | _ => None
          end
      | _ => None
      end
  | None => None
  end.

Definition put_methods (step_idx : nat) (step_name : string)
    (methods : list value) (cfg : value) : value :=
  match cfg with
  | VMap top =>
      match processing_steps cfg with
      | Some steps =>
          match steps !! step_idx with
          | Some (VMap step) =>
              VMap (set_item "processing_steps"
                      (VSeq (<[step_idx :=
                                 VMap (set_item step_name (VSeq methods) step)]>
                               steps))
                      top)
          | _ => cfg
          end
      | None => cfg
      end
  | _ => cfg
  end.

Definition put_steps (steps : list value) (cfg : value) : value :=
  match cfg with
  | VMap top => VMap (set_item "processing_steps" (VSeq steps) top)
  | _ => cfg
  end.

(** A method is a string or a mapping. *)
Definition is_named (m : value) : bool :=
  match m with
  | VStr _ | VMap _ => true
  | _ => false
  end.

(** Name and arguments of a method, when the loop body can bind them:
    a string is the name; of a mapping the first key is the name, and
    what [dict] makes of its value, unless that is [None], are the
    arguments. *)
Definition method_parts (m : value)
  : option (string * list (string * value)) :=
  match m with
  | VStr name => Some (name, [])
  | VMap ((name, v) :: _) =>
      if is_none v then Some (name, [])
      else match py_dict v with
           | Ok args => Some (name, args)
           | Err _ => None
           end
  | _ => None
  end.

(** The annotation-control block of the arguments, when there is one
    and [dict] takes it. *)
Definition control_block (args : list (string * value))
  : option (list (string * value)) :=
  match get "ANNOTATION" args with
  | None => Some []
  | Some block =>
      match py_dict block with
      | Ok a0 => Some a0
      | Err _ => None
      end
  end.

(** A field that the configuration gives in the block. *)
Definition explicit (field : string) (args : list (string * value))
  : option value :=
  match get "ANNOTATION" args with
  | Some block =>
      match py_dict block with
      | Ok a0 => get field a0
      | Err _ => None
      end
  | None => None
  end.

Definition default_edit (name : string) : value :=
  if in_list name overwrite_by_default then VStr "overwrite" else VBool false.

(** The block with its three defaults, for a counter that stands at
    [c]. *)
Definition completed_block (name ty : string) (c : Z)
    (a0 : list (string * value)) : option (list (string * value)) :=
  let a1 := if mem "type" a0 then a0 else update a0 [("type", VStr ty)] in
  let a2 :=
    if mem "id" a1 then Some a1
    else match str_index ascii_lowercase c with
         | Ok letter => Some (update a1 [("id", VStr letter)])
         | Err _ => None
         end in
  match a2 with
  | Some a2 =>
      Some (if mem "edit" a2 then a2
            else update a2 [("edit", default_edit name)])
  | None => None
  end.

Section Resolution.
Variable flags : Flags.
Variable namespace : string -> res (string -> bool).

(** The name a method runs under, and whether it came from the table of
    legacy names. *)
Definition resolve (step_name name : string) : option (string * bool) :=
  match namespace step_name with
  | Ok ns =>
      if ns name then Some (name, false)
      else if fix_names flags then
        match get step_name _legacy_names with
        | Some table =>
            match get name table with
            | Some current => Some (current, true)
            | None => Some (name, false)
            end
        | None => None
        end
      else Some (name, false)
  | Err _ => None
  end.

(** The annotation type of a method of the configuration: that of the
    name it runs under. *)
Definition kind_of (step_name : string) (m : value) : option string :=
  match method_parts m with
  | Some (name, _) =>
      match resolve step_name name with
      | Some (current, _) => get current _annotation_functions
      | None => None
      end
  | None => None
  end.

(** What the loop body leaves at the place of method [m], and the
    counter after it. *)
Definition entry_out (execute feedback_ : bool) (step_name : string)
    (m : value) (c : gmap string Z) : option (value * gmap string Z) :=
  match method_parts m with
  | Some (name, args) =>
      match resolve step_name name with
      | Some (current, fixed) =>
          match get current _annotation_functions with
          | Some ty =>
              match c !! ty, control_block args with
              | Some n, Some a0 =>
                  match completed_block current ty (n + 1) a0 with
                  | Some a3 =>
                      Some (VMap [(current,
                              VMap (update [("ANNOTATION", VMap a3)]
                                      (del_item "ANNOTATION" args)))],
                            <[ty := (n + 1)%Z]> c)
                  | None => None
                  end
              | _, _ => None
              end
          | None =>
              Some (if fixed
                    then VMap [(current,
                            VMap (if execute && negb feedback_
                                  then set_item "passive" (VBool true) args
                                  else args))]
                    else m,
                    c)
          end
      | None => None
      end
  | None => None
  end.

(** The same for the methods of a step, one after the other; [None]
    when the loop body raises at one of them. *)
Fixpoint entries_out (execute feedback_ : bool) (step_name : string)
    (ms : list value) (c : gmap string Z)
  : option (list value * gmap string Z) :=
  match ms with
  | [] => Some ([], c)
  | m :: rest =>
      match entry_out execute feedback_ step_name m c with
      | Some (out, c') =>
          match entries_out execute feedback_ step_name rest c' with
          | Some (outs, c'') => Some (out :: outs, c'')
          | None => None
          end
      | None => None
      end
  end.

(** A step whose methods are run: its name and its methods. *)
Definition step_methods (step : value) : option (string * list value) :=
  match step with
  | VMap ((step_name, VSeq ms) :: _) => Some (step_name, ms)
  | _ => None
  end.

Definition step_out (execute feedback_ : bool) (step : value)
    (c : gmap string Z) : option (value * gmap string Z) :=
  match step with
  | VMap ((step_name, VSeq ms) :: rest) =>
      match entries_out execute feedback_ step_name ms c with
      | Some (outs, c') => Some (VMap ((step_name, VSeq outs) :: rest), c')
      | None => None
      end
  | _ => Some (step, c)
  end.

Fixpoint steps_out (execute feedback_ : bool) (steps : list value)
    (c : gmap string Z) : option (list value * gmap string Z) :=
  match steps with
  | [] => Some ([], c)
  | step :: rest =>
      match step_out execute feedback_ step c with
      | Some (out, c') =>
          match steps_out execute feedback_ rest c' with
          | Some (outs, c'') => Some (out :: outs, c'')
          | None => None
          end
      | None => None
      end
  end.

(** The same for the methods of all steps in one list, each with the
    name of its step. *)
Fixpoint flat_out (execute feedback_ : bool) (tms : list (string * value))
    (c : gmap string Z) : option (list (string * value) * gmap string Z) :=
  match tms with
  | [] => Some ([], c)
  | (step_name, m) :: rest =>
      match entry_out execute feedback_ step_name m c with
      | Some (out, c') =>
          match flat_out execute feedback_ rest c' with
          | Some (outs, c'') => Some ((step_name, out) :: outs, c'')
          | None => None
          end
      | None => None
      end
  end.

(** A method of the configuration whose annotation is of type [ty]. *)
Definition has_kind (ty : string) (p : string * value) : bool :=
  match kind_of (fst p) (snd p) with
  | Some t => String.eqb t ty
  | None => false
  end.

(** A configuration that a pass has nothing to add to: every method is
    a name, or one name with its arguments; the step knows the name; an
    annotation-producing method comes with a control block that gives
    [type], [id] and [edit]; the keys of every mapping are distinct. *)
Definition full_block (args : list (string * value)) : bool :=
  match get "ANNOTATION" args with
  | Some (VMap block) => mem "type" block && mem "id" block && mem "edit" block
  | _ => false
  end.

Definition normalized_method (ns : string -> bool) (m : value) : bool :=
  match m with
  | VStr name => ns name && negb (mem name _annotation_functions)
  | VMap [(name, VNone)] => ns name && negb (mem name _annotation_functions)
  | VMap [(name, VMap args)] =>
      ns name && (negb (mem name _annotation_functions) || full_block args)
  | _ => false
  end.

Definition normalized_step (step : value) : bool :=
  match step with
  | VStr _ => true
  | VMap ((_, VNone) :: _) => true
  | VMap ((step_name, VSeq ms) :: _) =>
      match namespace step_name with
      | Ok ns => forallb (normalized_method ns) ms
      | Err _ => false
      end
  | _ => false
  end.

Definition normalized (cfg : value) : bool :=
  wf_value cfg
  && match processing_steps cfg with
     | Some steps => forallb normalized_step steps
     | None => false
     end.

(** How many of the methods have an annotation of type [ty]. *)
Definition count_kind (ty : string) (tms : list (string * value)) : nat :=
  length (List.filter (has_kind ty) tms).

End Resolution.

(** A configuration of the usual shape: the steps are a sequence; a
    step is a name, or a mapping whose first value is nothing or a
    sequence of methods; a method is a name, or a mapping whose first
    value is nothing or a mapping of arguments; and the entry
    [ANNOTATION] of the arguments, when there is one, is a mapping. *)
Definition plain_method (m : value) : bool :=
  match m with
  | VStr _ => true
  | VMap ((_, VNone) :: _) => true
  | VMap ((_, VMap args) :: _) =>
      match get "ANNOTATION" args with
      | Some (VMap _) | None => true
      | Some _ => false
      end
  | _ => false
  end.

Definition plain_step (step : value) : bool :=
  match step with
  | VStr _ => true
  | VMap ((_, VNone) :: _) => true
  | VMap ((_, VSeq ms) :: _) => forallb plain_method ms
  | _ => false
  end.

Definition plain_config (cfg : value) : bool :=
  match processing_steps cfg with
  | Some steps => forallb plain_step steps
  | None => false
  end.

(** Every method of the configuration is a string or a mapping. *)
Definition named_step (step : value) : bool :=
  match step_methods step with
  | Some (_, ms) => forallb is_named ms
  | None => true
  end.

Definition methods_named (cfg : value) : bool :=
  match processing_steps cfg with
  | Some steps => forallb named_step steps
  | None => true
  end.

(** The methods of a configuration in the order of execution, each with
    the name of its step. *)
Definition tagged (step : value) : list (string * value) :=
  match step_methods step with
  | Some (step_name, ms) => map (fun m => (step_name, m)) ms
  | None => []
  end.

Definition methods_of (cfg : value) : list (string * value) :=
  match processing_steps cfg with
  | Some steps => concat (map tagged steps)
  | None => []
  end.

(** The [k]-th lowercase letter, counting from 0. *)
Definition letter (k : nat) : string :=
  String (ascii_of_nat (97 + k)) EmptyString.

(** Type and id of an entry of the updated configuration. *)
Definition entry_kind (entry : value) : option string :=
  match entry with
  | VMap ((name, _) :: _) => get name _annotation_functions
  | _ => None
  end.

Definition entry_field (field : string) (entry : value) : option value :=
  match entry with
  | VMap ((_, VMap args) :: _) => explicit field args
  | _ => None
  end.

Definition entry_has_kind (ty : string) (entry : value) : bool :=
  match entry_kind entry with
  | Some t => String.eqb t ty
  | None => false
  end.

(** The ids of the annotations of type [ty] in a configuration, in the
    order of execution. *)
Definition assigned_ids (ty : string) (cfg : value) : list (option value) :=
  map (fun p => entry_field "id" (snd p))
    (List.filter (fun p => entry_has_kind ty (snd p)) (methods_of cfg)).

(** The first [n] letters. *)
Definition letters (n : nat) : list (option value) :=
  map (fun k => Some (VStr (letter k))) (seq 0 n).

End Outline.

(* ===================================================================== *)
(** * The pass on the container of utils.py *)
(* ===================================================================== *)

Module Glue.
Import Py Utils Main.

(** What Python raises for a keyword that the function called does not
    have. *)
Definition unexpected_keyword (keyword : string) : exn :=
  Exn "TypeError"
    ("run() got an unexpected keyword argument '" +:+ keyword +:+ "'").

Section Bound.
Context {Image Annotation DataFrame : Type}.
Variable core : Core Image Annotation.

(** What the default dictionary [kwargs={}] of [run] holds at a call
    that leaves [kwargs] out.  It is one dictionary for all such calls,
    and [run] writes [previous_annotation] into it when [None] is the id
    of a stored mask; what a call adds to it is not carried to the next
    call here. *)
Variable default_kwargs : list (string * arg Annotation).

(** [self.container.run(...)] as [_iterate] of [main.py] calls the [run]
    of [utils.py], whose parameters are [fun], [annotation_id] and
    [kwargs].  [run("select_canvas")] and [run(fun="select_canvas")]
    bind [fun] and leave the defaults.  The call of METHOD / EXECUTE
    names [fun_kwargs], [annotation_kwargs] and [annotation_counter],
    which [run] does not have: Python raises [TypeError] for the first
    of them before the body of [run] is entered. *)
Definition source_run (f : string)
    (fun_kwargs : option (list (string * value)))
    (annotation_kwargs : option value) (counter : option (gmap string Z))
  : M (Env (Image := Image) (Annotation := Annotation)
           (DataFrame := DataFrame)) unit :=
  fun env =>
    match fun_kwargs, annotation_kwargs, counter with
    | None, None, None =>
        match run core f None (mkFrame (env_container env) default_kwargs) with
        | Returns _ fr => Returns tt (mkEnv (self fr) (env_restart env))
        | Raises ex fr => Raises ex (mkEnv (self fr) (env_restart env))
        end
    | Some _, _, _ => Raises (unexpected_keyword "fun_kwargs") env
    | None, Some _, _ => Raises (unexpected_keyword "annotation_kwargs") env
    | None, None, Some _ =>
        Raises (unexpected_keyword "annotation_counter") env
    end.

End Bound.

(** The configuration of the scenario: one step, [segmentation], with
    one method, [threshold], whose [method] is [otsu]. *)
Definition threshold_config : value :=
  VMap [("processing_steps",
         VSeq [VMap [("segmentation",
                      VSeq [VMap [("threshold",
                                   VMap [("method", VStr "otsu")])]])]])].

End Glue.

(* ===================================================================== *)
(** * The session: loading the configuration, the loop of [Pype.__init__] *)
(* ===================================================================== *)

Module Session.
Import Py Settings Utils Main.

(** Python's truth value of what a YAML file holds. *)
Definition truthy (v : value) : bool :=
  match v with
  | VNone => false
  | VBool b => b
  | VInt n => negb (Z.eqb n 0)
  | VStr s => negb (String.eqb s EmptyString)
  | VSeq xs => negb (Nat.eqb (length xs) 0)
  | VMap kvs => negb (Nat.eqb (length kvs) 0)
  end.

(** Whether [t] occurs in [s] ([t in s] for two strings). *)
Fixpoint occurs (t s : string) : bool :=
  String.prefix t s
  || match s with
     | EmptyString => false
     | String _ r => occurs t r
     end.

(** [k in v] for a string [k]: a key of a mapping, an element of a
    sequence, a part of a string; the other values are not
    containers. *)
Definition py_in (k : string) (v : value) : res bool :=
  match v with
  | VMap kvs => Ok (mem k kvs)
  | VSeq xs => Ok (existsb (py_eq (VStr k)) xs)
  | VStr s => Ok (occurs k s)
  | _ => Err (Exn "TypeError" "argument is not iterable")
  end.

(** ** [Pype._load_pype_config] *)

Section LoadConfig.

(** The file system and [utils_lowlevel._load_yaml], as the function
    sees them. *)
Variable isfile isdir : string -> bool.
Variable basename dirname : string -> string.
(** [os.path.splitext(p)[0]] *)
Variable splitext_root : string -> string.
Variable join : string -> string -> string.
Variable _load_yaml : string -> res value.
(** [self.container.dir_path]: the attribute, or the [AttributeError]
    of a container that has none. *)
Variable dir_path : res string.

(** [self.config] and [self.config_path]; an attribute is [None] here
    as long as nothing has assigned it. *)
Record Loaded : Type := mkLoaded {
  loaded_config : option value;
  loaded_config_path : option string
}.

Definition not_found_msg (config_name dir : string) : string :=
  "Could not find config file " +:+ String (ascii_of_nat 34) config_name
  +:+ String (ascii_of_nat 34) " in image directory: "
  +:+ String (ascii_of_nat 34) dir
  +:+ String (ascii_of_nat 34) EmptyString.

Definition locked_msg : string :=
  "Attempting to load config from locked template - create config file using "
  +:+ String (ascii_of_nat 34) "load_template"
  +:+ String (ascii_of_nat 34) " first.".

(** A local variable that is read before any branch has assigned it. *)
Definition unbound (name : string) : exn :=
  Exn "UnboundLocalError"
    ("local variable '" +:+ name +:+ "' referenced before assignment").

(** [Pype._load_pype_config(self, image_path, tag, config_path)], for
    an [image_path] that is a string; [config_path] is [None] or a
    string.  The locals [config_name] and [config_path] after the first
    statement are the pair that the first bind gives; [config_name] is
    [None] while it is not bound. *)
Definition _load_pype_config (image_path tag : string)
    (config_path : option string) : M Loaded unit :=
  (locals <-
     match config_path with
     | None =>
         prepend <-
           (if isfile image_path
            then ret (splitext_root (basename image_path) +:+ "_")
            else if isdir image_path then ret EmptyString
            else raise (unbound "prepend")) ;;
         let config_name := prepend +:+ "pype_config_" +:+ tag +:+ ".yaml" in
         d <- eval dir_path ;;
         ret (Some config_name, join d config_name)
     | Some p => ret (None, p)
     end ;;
   let config_name : option string := fst locals in
   let config_path : string := snd locals in
   if isfile config_path then
     cfg <- eval (_load_yaml config_path) ;;
     modify (fun l => mkLoaded (Some cfg) (loaded_config_path l)) ;;;
     modify (fun l => mkLoaded (loaded_config l) (Some config_path)) ;;;
     locked <- eval (py_in "template_locked" cfg) ;;
     when locked
       (v <- eval (getitem "template_locked" cfg) ;;
        when (py_eq v (VBool true))
          (raise (Exn "AttributeError" locked_msg)))
   else
     match config_name with
     | Some name =>
         raise (Exn "FileNotFoundError"
                  (not_found_msg name (dirname image_path)))
     | None => raise (unbound "config_name")
     end)%py.

End LoadConfig.

(** ** The loop of [Pype.__init__] *)

Section PypeLoop.
Context {Image Annotation DataFrame : Type}.

Local Abbreviation St := (State (Image := Image) (Annotation := Annotation)
                            (DataFrame := DataFrame)).

Variable flags : Flags.
Variable config_path : string.
Variable namespace : string -> res (string -> bool).
Variable container_run :
  string -> option (list (string * value)) -> option value
  -> option (gmap string Z)
  -> M (Env (Image := Image) (Annotation := Annotation)
            (DataFrame := DataFrame)) unit.
Variable gui : option Image -> res bool.
Variable now : string.

(** [self.YFM.content] at the [n]-th time the loop reads it: the file
    monitor reloads the file on its own, between two readings the
    content may have changed. *)
Variable content : nat -> value.

(** The [Pype] object with what lies outside it: how often the content
    of the monitor has been read, the monitors started and stopped, and
    the export lists that [container.save] has been called with. *)
Record Session : Type := mkSession {
  pype : St;
  reads : nat;
  monitors_started : nat;
  monitors_stopped : nat;
  saves : list (list string)
}.

(** [self.config = x] *)
Definition set_config (x : value) (s : St) : St :=
  mkState (terminate s) (container s) x (config_updated s)
    (config_parsed_flattened s) (log s) (pype_restart s) (last_print_msg s)
    (stdout s) (saved s) (annotation_counter s) (method_name s)
    (method_args s) (aliases s).

Definition on_pype {A} (m : M St A) : M Session A :=
  fun ss =>
    match m (pype ss) with
    | Returns a p =>
        Returns a (mkSession p (reads ss) (monitors_started ss)
                     (monitors_stopped ss) (saves ss))
    | Raises e p =>
        Raises e (mkSession p (reads ss) (monitors_started ss)
                    (monitors_stopped ss) (saves ss))
    end.

Definition read_content : M Session value :=
  fun ss =>
    Returns (content (reads ss))
      (mkSession (pype ss) (S (reads ss)) (monitors_started ss)
         (monitors_stopped ss) (saves ss)).

(** [self._start_file_monitor(delay)] *)
Definition _start_file_monitor : M Session unit :=
  modify (fun ss =>
    mkSession (pype ss) (reads ss) (S (monitors_started ss))
      (monitors_stopped ss) (saves ss)).

(** [self.YFM._stop()] *)
Definition stop_monitor : M Session unit :=
  modify (fun ss =>
    mkSession (pype ss) (reads ss) (monitors_started ss)
      (S (monitors_stopped ss)) (saves ss)).

(** [self.container.save(export_list=export_list)] *)
Definition container_save (export_list : list string) : M Session unit :=
  modify (fun ss =>
    mkSession (pype ss) (reads ss) (monitors_started ss)
      (monitors_stopped ss) (saves ss ++ [export_list])).

(** How one turn of [while True] ends. *)
Inductive turn : Type := Again | Break.

(** The body of [while True]. *)
Definition loop_body : M Session turn :=
  ((* pype restart flag *)
   on_pype (modify (set_pype_restart false)) ;;;
   (* refresh config *)
   skip <-
     (if feedback flags && visualize flags then
        c <- read_content ;;
        if negb (truthy c) then
          on_pype (print "- STILL UPDATING CONFIG (no content)") ;;;
          stop_monitor ;;;
          _start_file_monitor ;;;
          ret true
        else
          c' <- read_content ;;
          on_pype (modify (set_config c')) ;;;
          if negb (truthy c') then
            on_pype (print "- STILL UPDATING CONFIG (no config)") ;;;
            ret true
          else ret false
      else ret false) ;;
   if skip : bool then ret Again
   else
     ((* run pype config in sequence *)
      on_pype (_iterate flags config_path namespace container_run gui now
                 true (visualize flags) (feedback flags)) ;;;
      (* terminate *)
      if visualize flags then
        t <- gets (fun ss => terminate (pype ss)) ;;
        if t : bool then
          started <- gets monitors_started ;;
          when (0 <? started)%nat stop_monitor ;;;
          on_pype (print (nl +:+ nl +:+ "TERMINATE")) ;;;
          ret Break
        else ret Again
      else ret Break))%py.

(** [while True], for at most [fuel] turns: [true] when the loop has
    been left by [break], [false] when the turns are used up. *)
Fixpoint pype_loop (fuel : nat) : M Session bool :=
  match fuel with
  | 0 => ret false
  | S fuel' =>
      (t <- loop_body ;;
       match t with
       | Break => ret true
       | Again => pype_loop fuel'
       end)%py
  end.

(** What follows the loop. *)
Definition autosave_results : M Session unit :=
  (t <- gets (fun ss => terminate (pype ss)) ;;
   when (autosave flags && t)
     (flat <- gets (fun ss => config_parsed_flattened (pype ss)) ;;
      container_save (match get "export" flat with
                      | Some export_list => export_list
                      | None => []
                      end)))%py.

(** [Pype.__init__] from "open config file with system viewer" on:
    [None] when the turns are used up before the loop is left.
    ([cv2.destroyWindow] and [time.sleep] leave no trace here.) *)
Definition pype_session (fuel : nat) : M Session (option unit) :=
  (when (feedback flags && visualize flags) _start_file_monitor ;;;
   (* start log *)
   on_pype (modify (set_log [])) ;;;
   left <- pype_loop fuel ;;
   if left : bool then (autosave_results ;;; ret (Some tt)) else ret None)%py.

End PypeLoop.

End Session.

(* ===================================================================== *)
(** * Concrete sessions, used to run the definitions *)
(* ===================================================================== *)

Module Demo.
Import Py Settings Utils Main.

(** Images are numbers, an annotation is its edit policy and a payload,
    a data frame is a unit. *)
Definition annotation : Type := (value * nat)%type.

Definition container0 (store : gmap string (gmap (option string) annotation))
  : Container nat annotation unit :=
  mkContainer 7 7 None None None None None store None None None None.

Definition no_annotations : gmap string (gmap (option string) annotation) :=
  list_to_map [("masks", ∅); ("comments", ∅); ("references", ∅);
               ("contours", ∅)].

(** A store with one mask ["a"] whose edit policy is [False]. *)
Definition one_mask : gmap string (gmap (option string) annotation) :=
  <["masks" := {[ Some "a" := (VBool false, 1%nat) ]}]> no_annotations.

(** Operations that always succeed: an image operation adds one to every
    pixel value, an annotating operation returns a new payload. *)
Definition core_ok : Core nat annotation :=
  mkCore
    (fun img _ => Ok (S img))
    (fun _ _ => Ok (VBool false, 2%nat))
    (fun _ _ => Ok (VBool false, 3%nat))
    (fun _ _ => Ok (VBool false, 4%nat))
    (fun _ _ _ _ => Ok (inl (VBool false, 5%nat)))
    (fun img _ => Ok (S img))
    (fun img _ => Ok (S img))
    (fun img _ _ => Ok (S img))
    (fun img _ => Ok (S img))
    (fun _ _ => Ok (VBool false, 6%nat)).

(** The flags of a [Pype] made with the default arguments. *)
Definition flags0 : Flags :=
  mkFlags false true true true true false true false.

Definition flags_dry_run : Flags :=
  mkFlags false true true true true false true true.


(** The attributes of the five modules of [phenopype.core], as far as
    the examples need them; any other step name is not a name that
    [eval] finds. *)
Definition namespace0 (step_name : string) : res (string -> bool) :=
  if String.eqb step_name "preprocessing" then
    Ok (fun n => in_list n ["blur"; "create_mask"; "detect_mask";
                            "write_comment"; "detect_reference"])
  else if String.eqb step_name "segmentation" then
    Ok (fun n => in_list n ["threshold"; "morphology"; "watershed";
                            "detect_contour"; "edit_contour"])
  else if String.eqb step_name "measurement" then
    Ok (fun n => in_list n ["set_landmark"; "detect_skeleton";
                            "compute_shape_features";
                            "compute_texture_features"])
  else if String.eqb step_name "visualization" then
    Ok (fun n => in_list n ["select_canvas"; "draw_contour";
                            "draw_landmark"; "draw_mask"])
  else if String.eqb step_name "export" then
    Ok (fun n => in_list n ["save_annotation"; "save_canvas"])
  else Err (Exn "NameError" step_name).

Definition env : Type := Env (Image := nat) (Annotation := annotation)
                             (DataFrame := unit).

(** A [run] that does nothing. *)
Definition run_nothing (f : string) (kw : option (list (string * value)))
    (ann : option value) (cnt : option (gmap string Z)) : M env unit :=
  ret tt.

(** A [run] that raises [ValueError] for the function [bad]. *)
Definition run_failing (bad : string) (f : string)
    (kw : option (list (string * value))) (ann : option value)
    (cnt : option (gmap string Z)) : M env unit :=
  if String.eqb f bad then raise (Exn "ValueError" "bad input") else ret tt.

(** A [run] that raises the restart flag for the function [stop]. *)
Definition run_restarting (stop : string) (f : string)
    (kw : option (list (string * value))) (ann : option value)
    (cnt : option (gmap string Z)) : M env unit :=
  if String.eqb f stop
  then modify (fun e => mkEnv (env_container e) true)
  else ret tt.

Definition gui_end (cv : option nat) : res bool := Ok true.

(** The state of a [Pype] whose configuration is [cfg], before a pass. *)
Definition state0 (c : Container nat annotation unit) (cfg : value)
  : State (Image := nat) (Annotation := annotation) (DataFrame := unit) :=
  mkState false c cfg cfg [] [] false EmptyString [] [] ∅ None None [].

(** A container on which steps have worked. *)
Definition container_used : Container nat annotation unit :=
  mkContainer 9 7 (Some 3%nat) None (Some 9%nat) None None one_mask None None
    None None.

Definition config_of (steps : list value) : value :=
  VMap [("processing_steps", VSeq steps)].

(** Configurations and sessions of the examples. *)

Definition config_path0 : string := "pype_config_v1.yaml".
Definition now0 : string := "2021-01-01 12:00:00".

(** [n] times the method [create_mask] in the step [preprocessing]. *)
Definition config_masks (n : nat) : value :=
  config_of [VMap [("preprocessing", VSeq (repeat (VStr "create_mask") n))]].

(** Two masks with a [blur] between them. *)
Definition config_two_masks : value :=
  config_of
    [VMap [("preprocessing",
            VSeq [VStr "create_mask";
                  VMap [("blur", VMap [("kernel_size", VInt 3)])];
                  VStr "create_mask"])]].

(** A mask that names its id, then one that does not. *)
Definition config_named_mask : value :=
  config_of
    [VMap [("preprocessing",
            VSeq [VMap [("create_mask",
                         VMap [("ANNOTATION", VMap [("id", VStr "z")])])];
                  VStr "create_mask"])]].

(** A method that no module of [phenopype.core] and no table of legacy
    names knows, then one that they know. *)
Definition config_unknown : value :=
  config_of
    [VMap [("segmentation", VSeq [VStr "frobnicate"; VStr "threshold"])]].

(** The same method in two places. *)
Definition config_blur_here : value :=
  config_of [VMap [("preprocessing", VSeq [VStr "blur"])]].

(** A complete control block that stands after the other arguments. *)
Definition config_block_last : value :=
  config_of
    [VMap [("preprocessing",
            VSeq [VMap [("create_mask",
                         VMap [("tool", VStr "polygon");
                               ("ANNOTATION",
                                VMap [("type", VStr "mask");
                                      ("id", VStr "a");
                                      ("edit", VBool false)])])]])]].

(** A session before its first pass. *)
Definition session (cfg : value)
  : State (Image := nat) (Annotation := annotation) (DataFrame := unit) :=
  state0 (container0 no_annotations) cfg.

(** A pass of a [Pype] with the flags [fl] whose [run] is [r]. *)
Definition pass (fl : Flags)
    (r : string -> option (list (string * value)) -> option value
         -> option (gmap string Z) -> M env unit)
    (execute feedback_ : bool) :=
  _iterate fl config_path0 namespace0 r gui_end now0 execute true feedback_.

Definition steps_pass (fl : Flags)
    (r : string -> option (list (string * value)) -> option value
         -> option (gmap string Z) -> M env unit)
    (execute feedback_ : bool) :=
  run_steps fl namespace0 r now0 execute feedback_.


(** A [run] that raises [ValueError] whatever the function. *)
Definition run_always_failing (f : string)
    (kw : option (list (string * value))) (ann : option value)
    (cnt : option (gmap string Z)) : M env unit :=
  raise (Exn "ValueError" "bad input").

(** Operations that always raise. *)
Definition core_failing : Core nat annotation :=
  mkCore
    (fun _ _ => Err (Exn "ValueError" "bad input"))
    (fun _ _ => Err (Exn "ValueError" "bad input"))
    (fun _ _ => Err (Exn "ValueError" "bad input"))
    (fun _ _ => Err (Exn "ValueError" "bad input"))
    (fun _ _ _ _ => Err (Exn "ValueError" "bad input"))
    (fun _ _ => Err (Exn "ValueError" "bad input"))
    (fun _ _ => Err (Exn "ValueError" "bad input"))
    (fun _ _ _ => Err (Exn "ValueError" "bad input"))
    (fun _ _ => Err (Exn "ValueError" "bad input"))
    (fun _ _ => Err (Exn "ValueError" "bad input")).

(** Conversions that succeed on images that all have three axes. *)
Definition cv_ok : Cv nat :=
  mkCv (fun img => Ok (img + 10)) (fun img => Ok (img + 20))
    (fun img k => Ok (img + k)) (fun _ => 3).

(** A container before [select_canvas], nothing printed yet. *)
Definition view0 : View nat annotation unit :=
  mkView (container0 no_annotations) [].

(** A legacy name of the step [preprocessing] that is in the list of
    the names that default to ["overwrite"]. *)
Definition config_legacy_shape : value :=
  config_of [VMap [("preprocessing", VSeq [VStr "detect_shape"])]].

(** A store without any kind. *)
Definition no_kinds : gmap string (gmap (option string) annotation) := ∅.

(** The flags of a [Pype] made with [feedback=False] and
    [visualize=False]. *)
Definition flags_batch : Flags :=
  mkFlags false true true false true false false false.

(** A configuration with a step [export]. *)
Definition config_export : value :=
  config_of
    [VMap [("segmentation", VSeq [VStr "threshold"])];
     VMap [("export", VSeq [VStr "save_canvas"])]].

(** A file monitor that has nothing yet. *)
Definition content_none (n : nat) : value := VNone.

(** The [Pype] object and its surroundings before the loop. *)
Definition pype0 (cfg : value)
  : Session.Session (Image := nat) (Annotation := annotation)
      (DataFrame := unit) :=
  Session.mkSession (session cfg) 0 0 0 [].

(** A directory [img] with the image [a.jpg] and the configuration
    [a_pype_config_v1.yaml], and a locked template beside it. *)
Definition isfile0 (p : string) : bool :=
  in_list p ["img/a.jpg"; "img/a_pype_config_v1.yaml"; "template.yaml"].

Definition isdir0 (p : string) : bool := String.eqb p "img".

Definition basename0 (p : string) : string := "a.jpg".
Definition dirname0 (p : string) : string := "img".
Definition splitext_root0 (p : string) : string := "a".
Definition join0 (d n : string) : string := d +:+ "/" +:+ n.

Definition load_yaml0 (p : string) : res value :=
  if String.eqb p "template.yaml"
  then Ok (VMap [("template_locked", VBool true);
                 ("processing_steps", VSeq [])])
  else Ok (config_masks 1).

Definition load0 :=
  Session._load_pype_config isfile0 isdir0 basename0 dirname0 splitext_root0
    join0 load_yaml0 (Ok "img").

Definition nothing_loaded : Session.Loaded := Session.mkLoaded None None.

(** [blur], then a mask. *)
Definition config_blur_mask : value :=
  config_of
    [VMap [("preprocessing", VSeq [VStr "blur"; VStr "create_mask"])]].

(** A stray entry, the number 5, between two masks. *)
Definition config_stray_entry : value :=
  config_of
    [VMap [("preprocessing",
            VSeq [VStr "create_mask"; VInt 5; VStr "create_mask"])]].

(** The legacy name [detect_shape], and [detect_skeleton]: the two
    names that the list of [main.py] has as [detect_shape] and
    [skeletonize]. *)
Definition config_shape_skeleton : value :=
  config_of
    [VMap [("preprocessing", VSeq [VStr "detect_shape"])];
     VMap [("measurement", VSeq [VStr "detect_skeleton"])]].

(** The first step of a configuration. *)
Definition first_step (cfg : value) : value :=
  match Outline.processing_steps cfg with
  | Some (step :: _) => step
  | _ => VNone
  end.

(** The states in which a pass in execute mode over [cfg] comes to the
    step loop, to the first method of the first step, and to the call
    of [run] for it. *)
Definition at_loop (fl : Flags) (cfg : value) :=
  final (open_pass fl now0 true (session cfg)).

Definition at_first_method (fl : Flags)
    (r : string -> option (list (string * value)) -> option value
         -> option (gmap string Z) -> M env unit)
    (cfg : value) :=
  final (open_step r true (first_step cfg) (at_loop fl cfg)).

Definition at_first_call (fl : Flags)
    (r : string -> option (list (string * value)) -> option value
         -> option (gmap string Z) -> M env unit)
    (feedback_ : bool) (cfg : value) (step_name : string) (method : value) :=
  final (before_call fl namespace0 feedback_ 0 step_name 0 method
           (at_first_method fl r cfg)).

(** What a call of [run] in the state [s] can reach. *)
Definition env_of
    (s : State (Image := nat) (Annotation := annotation) (DataFrame := unit))
  : env :=
  mkEnv (container s) (pype_restart s).

End Demo.

(* ===================================================================== *)
(** * The container: [reset] and [run] *)
(* ===================================================================== *)

Section ContainerFacts.
Import Py Utils.
Context {Image Annotation DataFrame : Type}.
Implicit Types c : Container Image Annotation DataFrame.

Lemma reset_buffers c :
  image (reset c) = image_copy c
  /\ image_copy (reset c) = image_copy c
  /\ image_bin (reset c) = None
  /\ image_gray (reset c) = None
  /\ canvas (reset c) = None.
Proof. unfold reset; simpl; auto. Qed.

Lemma reset_annotations c : annotations (reset c) = annotations c.
Proof. done. Qed.

Lemma reset_idempotent c : reset (reset c) = reset c.
Proof. done. Qed.

End ContainerFacts.

Section RunFacts.
Import Py Utils.
Context {Image Annotation DataFrame : Type}.
Variable core : Core Image Annotation.
Implicit Types c : Container Image Annotation DataFrame.

(** C6 (as amended). When a mask is stored under the id, [run] with
    [create_mask] or [detect_mask] and that id hands the stored
    annotation to the operation as [previous_annotation] and then stores
    whatever the operation returns under the id, without looking at any
    edit policy: the record is the one the operation returned (so it is
    the old one exactly when the operation returned the old one), the
    other ids are untouched, and nothing is stored when the operation
    raises. *)
Theorem run_mask_hands_over_previous_and_stores_result
    c kw id masks prev :
  annotations c !! "masks" = Some masks ->
  masks !! id = Some prev ->
  let kw' := set_item "previous_annotation" (AAnn prev) kw in
  let stored (a : Annotation) :=
    mkFrame
      (set_annotations (<["masks" := <[id := a]> masks]> (annotations c)) c)
      kw' in
  run core "create_mask" id (mkFrame c kw) =
    match preprocessing_create_mask core (image c) kw' with
    | Ok a => Returns tt (stored a)
    | Err e => Raises e (mkFrame c kw')
    end
  /\ run core "detect_mask" id (mkFrame c kw) =
    match preprocessing_detect_mask core (image c) kw' with
    | Ok a => Returns tt (stored a)
    | Err e => Raises e (mkFrame c kw')
    end
  /\ (forall a,
        annotations (self (stored a)) !! "masks" = Some (<[id := a]> masks)
        /\ (<[id := a]> masks !! id = Some prev <-> a = prev)
        /\ (forall id', id' <> id -> <[id := a]> masks !! id' = masks !! id')
        /\ (forall kind, kind <> "masks" ->
              annotations (self (stored a)) !! kind = annotations c !! kind)).
Proof.
  intros Hm Hp kw' stored. repeat split.
  - unfold run, mbind, annotations_get, gets, mbind. simpl.
    rewrite Hm. simpl. rewrite Hp. simpl.
    unfold kwargs_update, modify, when, eval, annotations_set,
      annotations_get, on_self, modify, gets, mbind, ret, raise. simpl.
    fold kw'.
    destruct (preprocessing_create_mask core (image c) kw') as [a|e]; simpl.
    + rewrite Hm. reflexivity.
    + reflexivity.
  - unfold run, mbind, annotations_get, gets, mbind. simpl.
    rewrite Hm. simpl. rewrite Hp. simpl.
    unfold kwargs_update, modify, when, eval, annotations_set,
      annotations_get, on_self, modify, gets, mbind, ret, raise. simpl.
    fold kw'.
    destruct (preprocessing_detect_mask core (image c) kw') as [a|e]; simpl.
    + rewrite Hm. reflexivity.
    + reflexivity.
  - simpl. apply lookup_insert_eq.
  - rewrite lookup_insert_eq. congruence.
  - intros ->. apply lookup_insert_eq.
  - intros id' Hne. apply lookup_insert_ne. congruence.
  - intros kind Hne. simpl. apply lookup_insert_ne. congruence.
Qed.

End RunFacts.

(** C6, an instance: a store that holds the mask ["a"], the operations
    of [Demo.core_ok]. *)
Lemma run_mask_hands_over_previous_and_stores_result_witness :
  Utils.run Demo.core_ok "create_mask" (Some "a")
    (Utils.mkFrame (Demo.container0 Demo.one_mask) [])
  = Py.Returns tt
      (Utils.mkFrame
         (Utils.set_annotations
            (<["masks" := <[Some "a" := (Py.VBool false, 2%nat)]>
                            {[ Some "a" := (Py.VBool false, 1%nat) ]}]>
               Demo.one_mask)
            (Demo.container0 Demo.one_mask))
         [("previous_annotation", Utils.AAnn (Py.VBool false, 1%nat))]).
Proof.
  pose proof (@run_mask_hands_over_previous_and_stores_result
                nat Demo.annotation unit Demo.core_ok
                (Demo.container0 Demo.one_mask) [] (Some "a")
                {[ Some "a" := (Py.VBool false, 1%nat) ]}
                (Py.VBool false, 1%nat)) as H.
  destruct H as [H _].
  - reflexivity.
  - reflexivity.
  - exact H.
Defined.

(** C6 as stated fails: the mask ["a"] is stored with the edit policy
    [False]; [create_mask] runs again with the same id; the operation
    returns another payload and [run] puts it in the place of the stored
    one.  And a stored comment is not handed to [enter_data] at all. *)
Lemma run_replaces_mask_whose_edit_is_false :
  (Demo.one_mask !! "masks") ≫= (fun m => m !! Some "a")
    = Some (Py.VBool false, 1%nat)
  /\ (exists fr,
        Utils.run Demo.core_ok "create_mask" (Some "a")
          (Utils.mkFrame (Demo.container0 Demo.one_mask) [])
        = Py.Returns tt fr
        /\ (Utils.annotations (Utils.self fr) !! "masks")
             ≫= (fun m => m !! Some "a")
           = Some (Py.VBool false, 2%nat))
  /\ (exists fr,
        Utils.run Demo.core_ok "enter_data" (Some "a")
          (Utils.mkFrame
             (Demo.container0
                (<["comments" := {[ Some "a" := (Py.VBool false, 1%nat) ]}]>
                   Demo.no_annotations)) [])
        = Py.Returns tt fr
        /\ Utils.kwargs fr = []).
Proof.
  split; [reflexivity|]. split.
  - eexists. split; [reflexivity|]. reflexivity.
  - eexists. split; [reflexivity|]. reflexivity.
Qed.

(* ===================================================================== *)
(** * Statements: how [mbind] and the loops come apart *)
(* ===================================================================== *)

Section MonadFacts.
Import Py Main.
Context {St A B : Type}.

Lemma mbind_returns (m : M St A) (k : A -> M St B) s b s' :
  mbind m k s = Returns b s' ->
  exists a s1, m s = Returns a s1 /\ k a s1 = Returns b s'.
Proof.
  unfold mbind. destruct (m s) as [a s1|e s1]; [eauto|discriminate].
Qed.

Lemma mbind_step (m : M St A) (k : A -> M St B) s a s1 :
  m s = Returns a s1 -> mbind m k s = k a s1.
Proof. unfold mbind. by intros ->. Qed.

End MonadFacts.


Section PassFacts.
Import Py Settings Utils Main.
Context {Image Annotation DataFrame : Type}.
Variable flags : Flags.
Variable config_path : string.
Variable namespace : string -> res (string -> bool).
Variable container_run :
  string -> option (list (string * value)) -> option value
  -> option (gmap string Z)
  -> M (Env (Image := Image) (Annotation := Annotation)
            (DataFrame := DataFrame)) unit.
Variable gui : option Image -> res bool.
Variable now : string.

Local Abbreviation St := (State (Image := Image) (Annotation := Annotation)
                            (DataFrame := DataFrame)).
Local Abbreviation iterate :=
  (_iterate flags config_path namespace container_run gui now).
Local Abbreviation steps_of := (run_steps flags namespace container_run now).

Lemma run_steps_resets execute feedback_ (s : St) :
  dry_run flags = false ->
  steps_of execute feedback_ s
  = steps_of execute feedback_ (set_container (reset (container s)) s).
Proof.
  intros Hd. unfold run_steps. rewrite Hd. destruct execute; reflexivity.
Qed.


Lemma run_method_raise step_name annotation_args (s : St) name args ex e :
  method_name s = Some name ->
  method_args s = Some args ->
  container_run name (Some args) (Some annotation_args)
    (Some (annotation_counter s)) (mkEnv (container s) (pype_restart s))
    = Raises ex e ->
  let s2 := set_pype_restart (env_restart e)
              (set_container (env_container e) s) in
  let s3 := set_stdout
              (stdout s2 ++ [location step_name name ex +:+ " - " +:+ exn_msg ex])
              (set_log (log s2 ++ [ex]) s2) in
  run_method flags container_run step_name annotation_args s
  = if debug flags then Raises ex s2
    else if env_restart e
         then Returns Return (set_stdout (stdout s3 ++ ["BREAK"]) s3)
         else Returns Continue s3.
Proof.
  intros Hn Ha Hr s2 s3.
  unfold run_method, try_except, mbind, the_method_name, the_method_args,
    gets, call_run, mbind.
  rewrite Hn. unfold ret. rewrite Ha. simpl. rewrite Hr.
  destruct (debug flags); [reflexivity|].
  unfold modify, print, modify, mbind, gets. simpl. rewrite Hn. simpl.
  destruct (env_restart e); reflexivity.
Qed.

Lemma run_method_return step_name annotation_args (s : St) name args e :
  method_name s = Some name ->
  method_args s = Some args ->
  container_run name (Some args) (Some annotation_args)
    (Some (annotation_counter s)) (mkEnv (container s) (pype_restart s))
    = Returns tt e ->
  let s2 := set_last_print_msg EmptyString
              (set_pype_restart (env_restart e)
                 (set_container (env_container e) s)) in
  run_method flags container_run step_name annotation_args s
  = if env_restart e
    then Returns Return (set_stdout (stdout s2 ++ ["BREAK"]) s2)
    else Returns Continue s2.
Proof.
  intros Hn Ha Hr s2.
  unfold run_method, try_except, mbind, the_method_name, the_method_args,
    gets, call_run, mbind.
  rewrite Hn. unfold ret. rewrite Ha. simpl. rewrite Hr.
  unfold modify, print, modify, mbind, gets. simpl.
  destruct (env_restart e); reflexivity.
Qed.

Lemma for_each_return_with_restart {X} (body : nat -> X -> M St ctl) :
  (forall i x, return_with_restart (body i x)) ->
  forall xs i, return_with_restart (for_each body i xs).
Proof.
  intros Hb xs. induction xs as [|x xs IH]; intros i s s' H.
  - discriminate.
  - simpl in H. apply mbind_returns in H as ([|] & s1 & H1 & H2).
    + by eapply IH.
    + injection H2 as <-. by eapply Hb.
Qed.

Lemma run_method_return_with_restart step_name ann :
  return_with_restart (run_method flags container_run step_name ann).
Proof.
  intros s s' H. unfold run_method in H.
  apply mbind_returns in H as (? & s2 & _ & H).
  apply mbind_returns in H as (r & s3 & H3 & H).
  unfold gets in H3. injection H3 as <- <-.
  destruct (pype_restart s2) eqn:Hr; [|discriminate].
  apply mbind_returns in H as (? & s4 & H4 & H).
  injection H as <-. unfold print, modify in H4. injection H4 as H4. subst s4.
  exact Hr.
Qed.

Lemma execute_method_return_with_restart execute feedback_ step_name ann :
  return_with_restart
    (execute_method flags container_run execute feedback_ step_name ann).
Proof.
  intros s s' H. unfold execute_method in H.
  destruct execute; [|discriminate].
  apply mbind_returns in H as (? & s1 & _ & H).
  by eapply run_method_return_with_restart.
Qed.

Lemma do_method_return_with_restart execute feedback_ i step_name j m :
  return_with_restart
    (do_method flags namespace container_run execute feedback_ i step_name j m).
Proof.
  intros s s' H. unfold do_method in H.
  apply mbind_returns in H as (? & s1 & _ & H).
  apply mbind_returns in H as (? & s2 & _ & H).
  apply mbind_returns in H as (? & s3 & _ & H).
  apply mbind_returns in H as (? & s4 & _ & H).
  by eapply execute_method_return_with_restart.
Qed.

Lemma do_step_return_with_restart execute feedback_ i step :
  return_with_restart
    (do_step flags namespace container_run execute feedback_ i step).
Proof.
  intros s s' H. unfold do_step in H.
  destruct (is_str step); [discriminate|].
  apply mbind_returns in H as (? & s1 & _ & H).
  apply mbind_returns in H as (? & s2 & _ & H).
  apply mbind_returns in H as (ml & s3 & _ & H).
  apply mbind_returns in H as (? & s4 & _ & H).
  destruct (is_none ml); [discriminate|].
  apply mbind_returns in H as (? & s5 & _ & H).
  apply mbind_returns in H as (? & s6 & _ & H).
  apply mbind_returns in H as (? & s7 & _ & H).
  eapply for_each_return_with_restart; [|exact H].
  intros. apply do_method_return_with_restart.
Qed.

Lemma run_steps_return_with_restart execute feedback_ :
  return_with_restart (steps_of execute feedback_).
Proof.
  intros s s' H. unfold run_steps in H.
  repeat (apply mbind_returns in H as (? & ? & _ & H)).
  eapply for_each_return_with_restart; [|exact H].
  intros. apply do_step_return_with_restart.
Qed.

End PassFacts.

(* ===================================================================== *)
(** * Dictionaries and places of a configuration *)
(* ===================================================================== *)

Section DictFacts.
Import Py.
Context {V : Type}.
Implicit Types d : list (string * V).

Lemma get_set_item_eq k v d : get k (set_item k v d) = Some v.
Proof.
  induction d as [|[k' v'] d IH]; simpl.
  - by rewrite String.eqb_refl.
  - destruct (String.eqb k k') eqn:E; simpl.
    + by rewrite String.eqb_refl.
    + by rewrite E.
Qed.

Lemma get_set_item_ne k k' v d :
  k <> k' -> get k' (set_item k v d) = get k' d.
Proof.
  intros Hne. induction d as [|[k0 v0] d IH]; simpl.
  - destruct (String.eqb k' k) eqn:E; [|done].
    apply String.eqb_eq in E. congruence.
  - destruct (String.eqb k k0) eqn:E; simpl.
    + apply String.eqb_eq in E. subst k0.
      destruct (String.eqb k' k) eqn:E'; [|done].
      apply String.eqb_eq in E'. congruence.
    + by rewrite IH.
Qed.

Lemma set_item_set_item k v1 v2 d :
  set_item k v2 (set_item k v1 d) = set_item k v2 d.
Proof.
  induction d as [|[k' v'] d IH]; simpl.
  - by rewrite String.eqb_refl.
  - destruct (String.eqb k k') eqn:E; simpl.
    + by rewrite String.eqb_refl.
    + by rewrite E, IH.
Qed.

Lemma set_item_id k v d : get k d = Some v -> set_item k v d = d.
Proof.
  induction d as [|[k' v'] d IH]; simpl; [done|].
  destruct (String.eqb k k') eqn:E.
  - apply String.eqb_eq in E. by intros [= ->]; subst.
  - intros H. by rewrite IH.
Qed.

Lemma del_item_absent k d : get k d = None -> del_item k d = d.
Proof.
  induction d as [|[k' v'] d IH]; simpl; [done|].
  destruct (String.eqb k k'); [done|]. intros H. by rewrite IH.
Qed.

Lemma length_set_item_present k v d :
  mem k d = true -> length (set_item k v d) = length d.
Proof.
  unfold mem. induction d as [|[k' v'] d IH]; simpl; [done|].
  destruct (String.eqb k k'); simpl; [done|]. intros H. by rewrite IH.
Qed.

Lemma get_Some_In k (v : V) d : get k d = Some v -> In (k, v) d.
Proof.
  induction d as [|[k' v'] d IH]; simpl; [done|].
  destruct (String.eqb k k') eqn:E.
  - apply String.eqb_eq in E. intros [= ->]. subst. by left.
  - intros H. right. by apply IH.
Qed.

End DictFacts.

Section PlaceFacts.
Import Py Main Outline.
Implicit Types cfg : value.

Lemma set_method_ok i sn j e cfg cfg' :
  set_method i sn j e cfg = Ok cfg' <->
  exists L, get_methods i sn cfg = Some L /\ j < length L
            /\ cfg' = put_methods i sn (<[j := e]> L) cfg.
Proof.
  unfold set_method, get_methods, put_methods, processing_steps.
  destruct cfg as [| | | | |top]; try (split; [done|by intros (?&?&_)]).
  destruct (get "processing_steps" top) as [[| | |l|steps|]|];
    try (split; [done|by intros (?&?&_)]).
  { destruct (i <? String.length l)%nat; (split; [done|by intros (?&?&_)]). }
  destruct (steps !! i) as [[| | | | |step]|];
    try (split; [done|by intros (?&?&_)]).
  destruct (get sn step) as [[| | | |ms|]|];
    try (split; [done|by intros (?&?&_)]).
  destruct (Nat.ltb_spec j (length ms)).
  - split.
    + intros [= <-]. eauto.
    + intros (L & [= <-] & _ & ->). done.
  - split; [done|]. intros (L & [= <-] & ? & _). lia.
Qed.

Lemma get_put_methods i sn L L' cfg :
  get_methods i sn cfg = Some L ->
  get_methods i sn (put_methods i sn L' cfg) = Some L'.
Proof.
  unfold get_methods, put_methods, processing_steps.
  destruct cfg as [| | | | |top]; try done.
  destruct (get "processing_steps" top) as [[| | | |steps|]|]; try done.
  destruct (steps !! i) as [[| | | | |step]|] eqn:Hi; try done.
  intros _. rewrite get_set_item_eq.
  rewrite list_lookup_insert_eq by (by eapply lookup_lt_Some).
  by rewrite get_set_item_eq.
Qed.

Lemma put_put_methods i sn L1 L2 cfg :
  put_methods i sn L2 (put_methods i sn L1 cfg) = put_methods i sn L2 cfg.
Proof.
  unfold put_methods, processing_steps.
  destruct cfg as [| | | | |top]; try done.
  destruct (get "processing_steps" top) as [[| | | |steps|]|] eqn:Ht; try (by rewrite Ht).
  destruct (steps !! i) as [[| | | | |step]|] eqn:Hi; try (by rewrite Ht, Hi).
  rewrite get_set_item_eq.
  rewrite list_lookup_insert_eq by (by eapply lookup_lt_Some).
  by rewrite set_item_set_item, list_insert_insert_eq, set_item_set_item.
Qed.

Lemma put_methods_id i sn L cfg :
  get_methods i sn cfg = Some L -> put_methods i sn L cfg = cfg.
Proof.
  unfold get_methods, put_methods, processing_steps.
  destruct cfg as [| | | | |top]; try done.
  destruct (get "processing_steps" top) as [[| | | |steps|]|] eqn:Ht; try done.
  destruct (steps !! i) as [[| | | | |step]|] eqn:Hi; try done.
  destruct (get sn step) as [[| | | |ms|]|] eqn:Hs; try done.
  intros [= ->]. rewrite (set_item_id _ _ Hs).
  rewrite list_insert_id by done. by rewrite (set_item_id _ _ Ht).
Qed.

End PlaceFacts.


Section Inversion.
Import Py Main.
Context {St A : Type}.

Lemma ret_returns (a b : A) (s s' : St) :
  ret a s = Returns b s' -> b = a /\ s' = s.
Proof. by intros [= -> ->]. Qed.

Lemma gets_returns {X} (f : St -> X) (x : X) (s s' : St) :
  gets f s = Returns x s' -> x = f s /\ s' = s.
Proof. by intros [= <- <-]. Qed.

Lemma modify_returns (f : St -> St) u (s s' : St) :
  modify f s = Returns u s' -> s' = f s.
Proof. by intros [= <-]. Qed.

Lemma eval_returns (r : res A) (a : A) (s s' : St) :
  eval r s = Returns a s' -> r = Ok a /\ s' = s.
Proof. destruct r; [by intros [= -> ->]|done]. Qed.

End Inversion.

(** Takes a statement that returned apart into its steps. *)
Ltac inv_py :=
  repeat
    match goal with
    | H : Py.mbind _ _ _ = Py.Returns _ _ |- _ =>
        apply mbind_returns in H; destruct H as (? & ? & ? & H);
        cbv beta in H
    | H : Py.ret _ _ = Py.Returns _ _ |- _ =>
        apply ret_returns in H; destruct H as [? ?]; subst
    | H : Py.gets _ _ = Py.Returns _ _ |- _ =>
        apply gets_returns in H; destruct H as [? ?]; subst
    | H : Py.modify _ _ = Py.Returns _ _ |- _ =>
        apply modify_returns in H; subst
    | H : Py.eval _ _ = Py.Returns _ _ |- _ =>
        apply eval_returns in H; destruct H as [? ?]; subst
    | H : Py.raise _ _ = Py.Returns _ _ |- _ => discriminate H
    | H : Py.Returns _ _ = Py.Returns _ _ |- _ => injection H as ? ?; subst
    | H : Py.Raises _ _ = Py.Returns _ _ |- _ => discriminate H
    end.

(* ===================================================================== *)
(** * The loop body, stage by stage *)
(* ===================================================================== *)

Section StageFacts.
Import Py Settings Utils Main Outline.
Context {Image Annotation DataFrame : Type}.
Variable flags : Flags.
Variable namespace : string -> res (string -> bool).
Variable container_run :
  string -> option (list (string * value)) -> option value
  -> option (gmap string Z)
  -> M (Env (Image := Image) (Annotation := Annotation)
            (DataFrame := DataFrame)) unit.

Local Abbreviation St := (State (Image := Image) (Annotation := Annotation)
                            (DataFrame := DataFrame)).

#[local] Opaque _legacy_names _annotation_functions.

Lemma bind_method_returns m (s s1 : St) u :
  bind_method m s = Returns u s1 ->
  is_named m = true ->
  exists name args,
    method_parts m = Some (name, args)
    /\ s1 = set_aliases []
              (set_method_args (Some args) (set_method_name (Some name) s)).
Proof.
  destruct u. destruct m as [| | |name| |kvs]; try done.
  - intros [= <-] _. by exists name, [].
  - intros H _. destruct kvs as [|[name v] rest]; [done|].
    unfold bind_method, mbind, eval, first_key, first_value, ret, modify in H.
    unfold method_parts. destruct (is_none v).
    + injection H as <-. eauto.
    + destruct (py_dict v) as [args|]; [|done]. injection H as <-. eauto.
Qed.

Lemma check_method_exists_returns i sn j (s s2 : St) name args u :
  check_method_exists flags namespace i sn j s = Returns u s2 ->
  method_name s = Some name ->
  method_args s = Some args ->
  aliases s = [] ->
  exists current fixed,
    resolve flags namespace sn name = Some (current, fixed)
    /\ method_name s2 = Some current
    /\ method_args s2 = Some args
    /\ annotation_counter s2 = annotation_counter s
    /\ (if fixed
        then set_method i sn j (VMap [(current, VMap args)])
               (config_updated s) = Ok (config_updated s2)
             /\ aliases s2 = [(i, sn, j, current)]
        else config_updated s2 = config_updated s /\ aliases s2 = []).
Proof.
  destruct u. intros H Hn Ha Hal.
  unfold check_method_exists, the_method_name, the_method_args, mbind, gets,
    resolve in *.
  rewrite Hn in H. simpl in H.
  destruct (namespace sn) as [ns|]; [|done]. simpl in H.
  destruct (ns name).
  { injection H as <-. exists name, false. simpl. by repeat split. }
  destruct (fix_names flags).
  2:{ injection H as <-. exists name, false. simpl. by repeat split. }
  destruct (get sn _legacy_names) as [table|]; [|done]. simpl in H.
  destruct (get name table) as [current|].
  2:{ injection H as <-. exists name, false. simpl. by repeat split. }
  rewrite Ha in H. simpl in H.
  unfold assign_method, mbind, gets, eval in H.
  destruct (set_method i sn j (VMap [(current, VMap args)]) (config_updated s))
    as [cfg'|] eqn:Hset; [|done].
  simpl in H. injection H as <-. exists current, true. simpl.
  rewrite Hal. by repeat split.
Qed.


Lemma set_method_again i sn j e1 e2 cfg cfg1 cfg2 :
  set_method i sn j e1 cfg = Ok cfg1 ->
  set_method i sn j e2 cfg1 = Ok cfg2 ->
  set_method i sn j e2 cfg = Ok cfg2.
Proof.
  intros (L & HL & Hj & ->)%set_method_ok (L1 & HL1 & Hj1 & ->)%set_method_ok.
  apply set_method_ok. exists L. split; [done|]. split; [done|].
  erewrite get_put_methods in HL1 by exact HL. injection HL1 as <-.
  by rewrite put_put_methods, list_insert_insert_eq.
Qed.


Lemma the_method_name_returns (s s' : St) n :
  the_method_name s = Returns n s' -> method_name s = Some n /\ s' = s.
Proof.
  unfold the_method_name, mbind, gets. destruct (method_name s); [|done].
  by intros [= -> ->].
Qed.

Lemma the_method_args_returns (s s' : St) a :
  the_method_args s = Returns a s' -> method_args s = Some a /\ s' = s.
Proof.
  unfold the_method_args, mbind, gets. destruct (method_args s); [|done].
  by intros [= -> ->].
Qed.

Lemma counter_get_returns ty (s s' : St) n :
  counter_get ty s = Returns n s' ->
  annotation_counter s !! ty = Some n /\ s' = s.
Proof.
  unfold counter_get, mbind, gets.
  destruct (annotation_counter s !! ty); [|done]. by intros [= -> ->].
Qed.

Lemma assign_method_returns i sn j e (s s' : St) u :
  assign_method i sn j e s = Returns u s' ->
  exists cfg',
    set_method i sn j e (config_updated s) = Ok cfg'
    /\ s' = set_aliases
              (List.filter (fun p => negb (same_slot p (i, sn, j, EmptyString)))
                 (aliases s))
              (set_config_updated cfg' s).
Proof.
  unfold assign_method. intros H. inv_py. eauto.
Qed.

Lemma mutate_method_args_returns f (s s' : St) u :
  mutate_method_args f s = Returns u s' ->
  exists args cfg',
    method_args s = Some args
    /\ write_aliases (f args) (aliases s) (config_updated s) = Ok cfg'
    /\ s' = set_config_updated cfg' (set_method_args (Some (f args)) s).
Proof.
  unfold mutate_method_args. intros H. inv_py.
  apply the_method_args_returns in H0 as [? ->]. eauto.
Qed.

Lemma annotation_params_returns i sn j (s s3 : St) name args v :
  annotation_params i sn j s = Returns v s3 ->
  method_name s = Some name ->
  method_args s = Some args ->
  (aliases s = [] \/ exists key, aliases s = [(i, sn, j, key)]) ->
  match get name _annotation_functions with
  | Some ty =>
      exists n a0 a3,
        annotation_counter s !! ty = Some n
        /\ control_block args = Some a0
        /\ completed_block name ty (n + 1) a0 = Some a3
        /\ v = VMap a3
        /\ annotation_counter s3 = <[ty := (n + 1)%Z]> (annotation_counter s)
        /\ set_method i sn j
             (VMap [(name, VMap (update [("ANNOTATION", VMap a3)]
                                   (del_item "ANNOTATION" args)))])
             (config_updated s) = Ok (config_updated s3)
        /\ aliases s3 = []
        /\ method_name s3 = Some name
        /\ method_args s3 = Some (del_item "ANNOTATION" args)
  | None => s3 = s /\ v = VMap []
  end.
Proof.
  intros H Hn Ha Hal. unfold annotation_params in H.
  apply mbind_returns in H as (name' & s0 & Hname & H).
  apply the_method_name_returns in Hname as [Hn' ->].
  rewrite Hn in Hn'. injection Hn' as <-.
  destruct (get name _annotation_functions) as [ty|];
    [|by apply ret_returns in H as [-> ->]].
  apply mbind_returns in H as (n & s1 & Hc & H).
  apply counter_get_returns in Hc as [Hc ->].
  apply mbind_returns in H as (? & s2 & Hmod & H).
  apply modify_returns in Hmod. subst s2.
  apply mbind_returns in H as (args' & s2 & Hargs & H).
  apply the_method_args_returns in Hargs as [Hargs ->]. simpl in Hargs.
  rewrite Ha in Hargs. injection Hargs as <-.
  apply mbind_returns in H as (a0 & s4 & Hblk & H).
  exists n, a0.
  (* the state once the block is taken out of the arguments *)
  assert (control_block args = Some a0
          /\ method_name s4 = Some name
          /\ method_args s4 = Some (del_item "ANNOTATION" args)
          /\ annotation_counter s4
             = <[ty := (n + 1)%Z]> (annotation_counter s)
          /\ (config_updated s4 = config_updated s /\ aliases s4 = []
              \/ exists e1 key,
                   set_method i sn j e1 (config_updated s)
                     = Ok (config_updated s4)
                   /\ aliases s4 = [(i, sn, j, key)]))
    as (Hblock & Hn4 & Ha4 & Hc4 & Hcfg4).
  { unfold control_block.
    destruct (get "ANNOTATION" args) as [block|] eqn:Hb.
    - apply mbind_returns in Hblk as (a & s5 & Hd & Hblk).
      apply eval_returns in Hd as [Hd ->]. rewrite Hd.
      apply mbind_returns in Hblk as (? & s6 & Hmut & Hblk).
      apply ret_returns in Hblk as [-> ->].
      apply mutate_method_args_returns in Hmut as (args' & cfg' & Ha' & Hw & ->).
      simpl in Ha', Hw. rewrite Ha in Ha'. injection Ha' as <-.
      split; [done|]. simpl. split; [done|]. split; [done|]. split; [done|].
      destruct Hal as [Hal|[key Hal]]; rewrite Hal in Hw |- *; simpl in Hw.
      + injection Hw as <-. by left.
      + right. unfold bind in Hw.
        destruct (set_method i sn j _ (config_updated s)) eqn:Hs; [|done].
        injection Hw as <-. eauto.
    - apply mbind_returns in Hblk as (? & s5 & Hre & Hblk).
      apply ret_returns in Hblk as [-> ->].
      apply modify_returns in Hre. subst s5. simpl.
      rewrite (del_item_absent _ _ Hb). split; [done|].
      split; [done|]. split; [done|]. split; [done|]. by left. }
  clear Hblk. cbv zeta in H.
  set (a1 := if mem "type" a0 then a0 else update a0 [("type", VStr ty)]) in *.
  apply mbind_returns in H as (a2 & s5 & Hid & H).
  assert ((if mem "id" a1 then Some a1
           else match str_index ascii_lowercase (n + 1) with
                | Ok letter => Some (update a1 [("id", VStr letter)])
                | Err _ => None
                end) = Some a2 /\ s5 = s4) as [Ha2 ->].
  { destruct (mem "id" a1).
    - by apply ret_returns in Hid as [-> ->].
    - apply mbind_returns in Hid as (c & s6 & Hc' & Hid).
      apply counter_get_returns in Hc' as [Hc' ->].
      rewrite Hc4, lookup_insert_eq in Hc'. injection Hc' as <-.
      apply mbind_returns in Hid as (l & s7 & Hl & Hid).
      apply eval_returns in Hl as [-> ->].
      by apply ret_returns in Hid as [-> ->]. }
  cbv zeta in H.
  apply mbind_returns in H as (args2 & s6 & Hargs2 & H).
  apply the_method_args_returns in Hargs2 as [Hargs2 ->].
  rewrite Ha4 in Hargs2. injection Hargs2 as <-.
  apply mbind_returns in H as (? & s7 & Has & H).
  apply ret_returns in H as [-> ->].
  apply assign_method_returns in Has as (cfg' & Hset & ->).
  eexists. split; [done|]. split; [done|].
  split; [unfold completed_block; fold a1; by rewrite Ha2|].
  split; [done|]. simpl. split; [done|]. split.
  { destruct Hcfg4 as [[Heq _]|(e1 & key & He1 & _)];
      [by rewrite <- Heq|].
    by eapply set_method_again. }
  split; [|done].
  destruct Hcfg4 as [[_ ->]|(e1 & key & _ & ->)]; [done|]. simpl.
  by rewrite !Nat.eqb_refl, String.eqb_refl.
Qed.

End StageFacts.

(* ===================================================================== *)
(** * Parts of the state that a statement leaves alone *)
(* ===================================================================== *)

Section Keeps.
Import Py Main.
Context {St X : Type}.
Variable part : St -> X.

Lemma keeps_ret {A} (a : A) : keeps part (ret a).
Proof. by intros s. Qed.

Lemma keeps_raise {A} e : keeps part (raise (A := A) e).
Proof. by intros s. Qed.

Lemma keeps_gets {A} (f : St -> A) : keeps part (gets f).
Proof. by intros s. Qed.

Lemma keeps_eval {A} (r : res A) : keeps part (eval r).
Proof. intros s. by destruct r. Qed.

Lemma keeps_modify (f : St -> St) :
  (forall s, part (f s) = part s) -> keeps part (modify f).
Proof. intros H s. apply H. Qed.

Lemma keeps_bind {A B} (m : M St A) (k : A -> M St B) :
  keeps part m -> (forall a, keeps part (k a)) -> keeps part (mbind m k).
Proof.
  intros Hm Hk s. unfold mbind. specialize (Hm s).
  destruct (m s) as [a s1|e s1]; simpl in *; [|done].
  by rewrite Hk.
Qed.

Lemma keeps_when b (m : M St unit) : keeps part m -> keeps part (when b m).
Proof. intros H. destruct b; [done|apply keeps_ret]. Qed.

Lemma keeps_try_except {A} (body : M St A) handler :
  keeps part body -> (forall ex, keeps part (handler ex)) ->
  keeps part (try_except body handler).
Proof.
  intros Hb Hh s. unfold try_except. specialize (Hb s).
  destruct (body s) as [a s1|e s1]; simpl in *; [done|].
  by rewrite Hh.
Qed.

Lemma keeps_for_each {A} (body : nat -> A -> M St ctl) :
  (forall i x, keeps part (body i x)) ->
  forall xs i, keeps part (for_each body i xs).
Proof.
  intros Hb xs. induction xs as [|x xs IH]; intros i; simpl.
  - apply keeps_ret.
  - apply keeps_bind; [done|]. intros []; [done|apply keeps_ret].
Qed.

Lemma keeps_returns {A} (m : M St A) s a s' :
  keeps part m -> m s = Returns a s' -> part s' = part s.
Proof. intros H Hm. specialize (H s). by rewrite Hm in H. Qed.

Lemma keeps_raises {A} (m : M St A) s e s' :
  keeps part m -> m s = Raises e s' -> part s' = part s.
Proof. intros H Hm. specialize (H s). by rewrite Hm in H. Qed.

End Keeps.

Section KeepsPass.
Import Py Settings Utils Main Outline.
Context {Image Annotation DataFrame : Type} {X : Type}.
Variable flags : Flags.
Variable namespace : string -> res (string -> bool).
Variable container_run :
  string -> option (list (string * value)) -> option value
  -> option (gmap string Z)
  -> M (Env (Image := Image) (Annotation := Annotation)
            (DataFrame := DataFrame)) unit.

Local Abbreviation St := (State (Image := Image) (Annotation := Annotation)
                            (DataFrame := DataFrame)).
Variable part : St -> X.

Lemma keeps_call_run f kw ann cnt :
  (forall c r (s : St),
      part (set_pype_restart r (set_container c s)) = part s) ->
  keeps part (call_run container_run f kw ann cnt).
Proof.
  intros H s. unfold call_run.
  destruct (container_run f kw ann cnt _); simpl; apply H.
Qed.

Lemma keeps_print line :
  (forall l (s : St), part (set_stdout l s) = part s) ->
  keeps part (print line).
Proof. intros H. apply keeps_modify. intros s. apply H. Qed.

End KeepsPass.

(** Proves [keeps part m] for a statement built from the pieces above,
    when the setters that occur in it leave [part] alone. *)
Ltac keeps_step :=
  first
    [ apply keeps_ret | apply keeps_raise | apply keeps_gets
    | apply keeps_eval
    | apply keeps_bind; [|intros ?]
    | apply keeps_when
    | apply keeps_try_except; [|intros ?]
    | apply keeps_for_each; intros ? ?
    | apply keeps_call_run; intros; reflexivity
    | apply keeps_modify; intros ?; reflexivity
    | match goal with
      | |- Py.keeps _ (match ?x with _ => _ end) => destruct x
      end ].

Ltac keeps_tac := repeat keeps_step.

Section BodyFacts.
Import Py Settings Utils Main Outline.
Context {Image Annotation DataFrame : Type}.
Variable flags : Flags.
Variable namespace : string -> res (string -> bool).
Variable container_run :
  string -> option (list (string * value)) -> option value
  -> option (gmap string Z)
  -> M (Env (Image := Image) (Annotation := Annotation)
            (DataFrame := DataFrame)) unit.

Local Abbreviation St := (State (Image := Image) (Annotation := Annotation)
                            (DataFrame := DataFrame)).

#[local] Opaque _legacy_names _annotation_functions.

Lemma run_method_keeps_config_updated sn ann :
  keeps (config_updated (Image := Image) (Annotation := Annotation)
           (DataFrame := DataFrame))
    (run_method flags container_run sn ann).
Proof.
  unfold run_method, the_method_name, the_method_args, print. keeps_tac.
Qed.

Lemma run_method_keeps_counter sn ann :
  keeps (annotation_counter (Image := Image) (Annotation := Annotation)
           (DataFrame := DataFrame))
    (run_method flags container_run sn ann).
Proof.
  unfold run_method, the_method_name, the_method_args, print. keeps_tac.
Qed.

Lemma execute_method_returns execute feedback_ sn ann (s s4 : St) c i j args :
  execute_method flags container_run execute feedback_ sn ann s
    = Returns c s4 ->
  method_args s = Some args ->
  annotation_counter s4 = annotation_counter s
  /\ (aliases s = [] -> config_updated s4 = config_updated s)
  /\ (forall key, aliases s = [(i, sn, j, key)] ->
        if execute && negb feedback_
        then set_method i sn j
               (VMap [(key, VMap (set_item "passive" (VBool true) args))])
               (config_updated s) = Ok (config_updated s4)
        else config_updated s4 = config_updated s).
Proof.
  intros H Ha. unfold execute_method in H.
  destruct execute; [|by injection H as <- <-].
  apply mbind_returns in H as (? & s1 & Hw & H).
  rewrite (keeps_returns _ (run_method_keeps_counter sn ann) H).
  rewrite (keeps_returns _ (run_method_keeps_config_updated sn ann) H).
  clear H. destruct feedback_; simpl in *.
  - apply ret_returns in Hw as [_ ->]. split; [done|]. split; [done|].
    intros. by simpl.
  - apply mutate_method_args_returns in Hw as (args' & cfg' & Ha' & Hw & ->).
    rewrite Ha in Ha'. injection Ha' as <-. simpl.
    split; [done|]. split.
    + intros Hal. rewrite Hal in Hw. by injection Hw as <-.
    + intros key Hal. rewrite Hal in Hw. simpl in Hw. unfold bind in Hw.
      simpl.
      destruct (set_method i sn j _ (config_updated s)); [|done].
      by injection Hw as <-.
Qed.


Lemma set_method_put i sn j e cfg cfg' L :
  set_method i sn j e cfg = Ok cfg' ->
  get_methods i sn cfg = Some L ->
  cfg' = put_methods i sn (<[j := e]> L) cfg.
Proof.
  intros (L' & HL' & _ & ->)%set_method_ok HL.
  rewrite HL in HL'. by injection HL' as <-.
Qed.

Lemma set_method_idem i sn j e cfg cfg1 cfg2 :
  set_method i sn j e cfg = Ok cfg1 ->
  set_method i sn j e cfg1 = Ok cfg2 ->
  cfg2 = cfg1.
Proof.
  intros (L & HL & Hj & ->)%set_method_ok (L1 & HL1 & Hj1 & ->)%set_method_ok.
  erewrite get_put_methods in HL1 by exact HL. injection HL1 as <-.
  by rewrite put_put_methods, list_insert_insert_eq.
Qed.

Lemma set_method_keeps_none i sn i' sn' j' e cfg cfg' :
  set_method i' sn' j' e cfg = Ok cfg' ->
  get_methods i sn cfg = None ->
  get_methods i sn cfg' = None.
Proof.
  intros (L & HL & Hj & ->)%set_method_ok Hnone.
  unfold get_methods, put_methods, processing_steps in *.
  destruct cfg as [| | | | |top]; try done.
  destruct (get "processing_steps" top) as [[| | | |steps|]|] eqn:Ht; try done.
  destruct (steps !! i') as [[| | | | |step']|] eqn:Hi'; try done.
  rewrite get_set_item_eq.
  destruct (decide (i = i')) as [->|Hne].
  - rewrite Hi' in Hnone.
    rewrite list_lookup_insert_eq by (by eapply lookup_lt_Some).
    destruct (String.eqb sn sn') eqn:E.
    + apply String.eqb_eq in E. subst sn'.
      destruct (get sn step') as [[| | | |ms|]|]; done.
    + rewrite get_set_item_ne; [done|].
      intros ->. by rewrite String.eqb_refl in E.
  - by rewrite list_lookup_insert_ne.
Qed.

Lemma write_aliases_keeps_none i sn d ps :
  forall cfg cfg',
    write_aliases d ps cfg = Ok cfg' ->
    get_methods i sn cfg = None ->
    get_methods i sn cfg' = None.
Proof.
  induction ps as [|[[[i' sn'] j'] key] ps IH]; intros cfg cfg' H Hnone.
  - by injection H as <-.
  - simpl in H. unfold bind in H.
    destruct (set_method i' sn' j' _ cfg) as [cfg1|] eqn:Hs; [|done].
    eapply IH; [exact H|]. by eapply set_method_keeps_none.
Qed.

Lemma run_method_keeps_shared sn ann :
  keeps (fun s : St => (method_args s, aliases s))
    (run_method flags container_run sn ann).
Proof.
  unfold run_method, the_method_name, the_method_args, print. keeps_tac.
Qed.

(** After the statements of METHOD / EXECUTE the arguments are
    settled, when the dictionary is shared with at most one entry. *)
Lemma execute_method_settles execute feedback_ sn ann (s s4 : St) c :
  execute_method flags container_run execute feedback_ sn ann s
    = Returns c s4 ->
  (aliases s = [] \/ exists p, aliases s = [p]) ->
  settled execute feedback_ s4.
Proof.
  intros H Hal Hmode args cfg'' Ha Hw.
  apply andb_prop in Hmode as [-> Hf]. apply negb_true_iff in Hf. subst.
  unfold execute_method in H.
  apply mbind_returns in H as (? & s1 & Hm & H).
  pose proof (keeps_returns _ (run_method_keeps_shared sn ann) H) as Hk.
  pose proof (keeps_returns _ (run_method_keeps_config_updated sn ann) H)
    as Hcfg.
  injection Hk as Hargs Hals. rewrite Hargs in Ha. rewrite Hals, Hcfg in Hw.
  rewrite Hcfg. clear H Hargs Hals Hcfg. simpl in Hm.
  apply mutate_method_args_returns in Hm as (args0 & cfg' & Ha0 & Hw0 & ->).
  simpl in *. injection Ha as <-. rewrite set_item_set_item in Hw.
  destruct Hal as [Hal|[[[[i' sn'] j'] key] Hal]]; rewrite Hal in Hw, Hw0;
    simpl in Hw, Hw0.
  - by injection Hw as <-.
  - unfold bind in Hw, Hw0.
    destruct (set_method i' sn' j' _ (config_updated s)) as [c1|] eqn:E1;
      [|done].
    injection Hw0 as ->.
    destruct (set_method i' sn' j' _ cfg') as [c2|] eqn:E2; [|done].
    injection Hw as <-. by eapply set_method_idem.
Qed.

(** What one turn of the method loop does to [config_updated] and to
    the counter is what [entry_out] says. *)
Lemma do_method_out execute feedback_ i sn j m (s s' : St) c L :
  do_method flags namespace container_run execute feedback_ i sn j m s
    = Returns c s' ->
  is_named m = true ->
  get_methods i sn (config_updated s) = Some L ->
  L !! j = Some m ->
  exists out cnt,
    entry_out flags namespace execute feedback_ sn m (annotation_counter s)
      = Some (out, cnt)
    /\ annotation_counter s' = cnt
    /\ config_updated s' = put_methods i sn (<[j := out]> L) (config_updated s)
    /\ settled execute feedback_ s'.
Proof.
  intros H Hm HL Hj. unfold do_method in H.
  apply mbind_returns in H as (? & s1 & Hb & H).
  apply bind_method_returns in Hb as (name & args & Hparts & ->); [|done].
  apply mbind_returns in H as (? & s2 & Hp & H).
  assert (exists out, s2 = set_stdout out
            (set_aliases [] (set_method_args (Some args)
               (set_method_name (Some name) s)))) as [out ->].
  { destruct execute; simpl in Hp.
    - apply mbind_returns in Hp as (? & ? & Hn & Hp).
      apply the_method_name_returns in Hn as [_ ->].
      apply modify_returns in Hp. eauto.
    - apply ret_returns in Hp as [_ ->]. by exists (stdout s). }
  apply mbind_returns in H as (? & s3 & Hc & H).
  eapply check_method_exists_returns in Hc as
    (current & fixed & Hres & Hn3 & Ha3 & Hc3 & Hfix); [|done..].
  simpl in Hc3, Hfix.
  apply mbind_returns in H as (ann & s4 & Han & H).
  eapply annotation_params_returns in Han; [|done|done|].
  2:{ destruct fixed; [right|left]; [|by destruct Hfix].
      destruct Hfix as [_ ->]. eauto. }
  unfold entry_out. rewrite Hparts, Hres.
  destruct (get current _annotation_functions) as [ty|].
  - destruct Han as (n & a0 & a3 & Hcnt & Hblk & Hcb & -> & Hc4 & Hset & Hal4
                       & Hn4 & Ha4).
    rewrite Hc3 in Hcnt, Hc4. rewrite Hcnt, Hblk, Hcb.
    eexists _, _. split; [done|].
    pose proof (execute_method_settles _ _ _ _ _ H (or_introl Hal4)) as Hst.
    eapply execute_method_returns with (i := i) (j := j) in H
      as (Hc5 & Hcfg5 & _); [|done].
    rewrite Hc5, Hc4. split; [done|]. split; [|done]. rewrite (Hcfg5 Hal4).
    destruct fixed.
    + destruct Hfix as [Hset3 _].
      eapply set_method_put; [|done]. by eapply set_method_again.
    + destruct Hfix as [Hcfg3 _]. rewrite Hcfg3 in Hset.
      by eapply set_method_put.
  - destruct Han as [-> ->].
    assert (Hst : settled execute feedback_ s').
    { eapply execute_method_settles; [exact H|].
      destruct fixed; destruct Hfix as [_ ->]; eauto. }
    eapply execute_method_returns with (i := i) (j := j) in H
      as (Hc5 & Hcfg5 & Hcfg5'); [|done].
    rewrite Hc5, Hc3. eexists _, _. split; [done|]. split; [done|].
    split; [|done].
    destruct fixed.
    + destruct Hfix as [Hset3 Hal3]. specialize (Hcfg5' _ Hal3).
      destruct (execute && negb feedback_).
      * eapply set_method_put; [|done]. by eapply set_method_again.
      * rewrite Hcfg5'. by eapply set_method_put.
    + destruct Hfix as [Hcfg3 Hal3]. rewrite (Hcfg5 Hal3), Hcfg3.
      rewrite list_insert_id by done. by rewrite put_methods_id.
Qed.

Lemma assign_method_nowhere i sn j e (s s' : St) u :
  get_methods i sn (config_updated s) = None ->
  assign_method i sn j e s = Returns u s' -> False.
Proof.
  intros Hnone H. apply assign_method_returns in H as (cfg' & Hs & _).
  apply set_method_ok in Hs as (L & HL & _). congruence.
Qed.

Local Abbreviation shared :=
  (fun s : St =>
     (annotation_counter s, config_updated s, method_args s, aliases s)).

Lemma settled_shared execute feedback_ (s s' : St) :
  shared s' = shared s ->
  settled execute feedback_ s -> settled execute feedback_ s'.
Proof.
  intros [= _ Hc Ha Hal] H Hmode args cfg'. rewrite Hc, Ha, Hal.
  by apply H.
Qed.

(** Where the methods of the step are not a list in [config_updated],
    nothing can be assigned to the place of the method: a name that is
    a legacy one and a name that produces an annotation both end the
    turn with an exception. *)
Lemma check_method_exists_elsewhere i sn j (s s' : St) u :
  check_method_exists flags namespace i sn j s = Returns u s' ->
  get_methods i sn (config_updated s) = None ->
  shared s' = shared s /\ method_name s' = method_name s.
Proof.
  intros H Hnone. unfold check_method_exists in H.
  apply mbind_returns in H as (name & s1 & Hn & H).
  apply the_method_name_returns in Hn as [_ ->].
  apply mbind_returns in H as (ns & s1 & Hns & H).
  apply eval_returns in Hns as [_ ->].
  destruct (ns name).
  { apply modify_returns in H. by subst. }
  destruct (fix_names flags).
  2:{ apply modify_returns in H. by subst. }
  apply mbind_returns in H as (table & s1 & Ht & H).
  apply eval_returns in Ht as [_ ->].
  destruct (get name table) as [current|].
  2:{ by apply ret_returns in H as [_ ->]. }
  apply mbind_returns in H as (args & s1 & Ha & H).
  apply the_method_args_returns in Ha as [_ ->].
  apply mbind_returns in H as (? & s1 & Has & _).
  by eapply assign_method_nowhere in Has.
Qed.

Lemma annotation_params_elsewhere i sn j (s s' : St) v :
  annotation_params i sn j s = Returns v s' ->
  get_methods i sn (config_updated s) = None ->
  s' = s.
Proof.
  intros H Hnone. unfold annotation_params in H.
  apply mbind_returns in H as (name & s0 & Hn & H).
  apply the_method_name_returns in Hn as [_ ->].
  destruct (get name _annotation_functions) as [ty|];
    [|by apply ret_returns in H as [_ ->]].
  exfalso.
  apply mbind_returns in H as (n & s1 & Hc & H).
  apply counter_get_returns in Hc as [_ ->].
  apply mbind_returns in H as (? & s1 & Hmod & H).
  apply modify_returns in Hmod. subst s1.
  apply mbind_returns in H as (args & s1 & Hargs & H).
  apply the_method_args_returns in Hargs as [_ ->].
  apply mbind_returns in H as (a0 & s4 & Hblk & H).
  assert (Hnone4 : get_methods i sn (config_updated s4) = None).
  { destruct (get "ANNOTATION" args) as [block|].
    - apply mbind_returns in Hblk as (a & s5 & Hd & Hblk).
      apply eval_returns in Hd as [_ ->].
      apply mbind_returns in Hblk as (? & s6 & Hmut & Hblk).
      apply ret_returns in Hblk as [_ ->].
      apply mutate_method_args_returns in Hmut as (? & cfg' & _ & Hw & ->).
      simpl in *. by eapply write_aliases_keeps_none.
    - apply mbind_returns in Hblk as (? & s5 & Hre & Hblk).
      apply ret_returns in Hblk as [_ ->].
      apply modify_returns in Hre. by subst s5. }
  cbv zeta in H.
  apply mbind_returns in H as (a2 & s5 & Hid & H).
  assert (s5 = s4) as ->.
  { destruct (mem "id" _).
    - by apply ret_returns in Hid as [_ ->].
    - apply mbind_returns in Hid as (c & s6 & Hc' & Hid).
      apply counter_get_returns in Hc' as [_ ->].
      apply mbind_returns in Hid as (l & s7 & Hl & Hid).
      apply eval_returns in Hl as [_ ->].
      by apply ret_returns in Hid as [_ ->]. }
  cbv zeta in H.
  apply mbind_returns in H as (args2 & s6 & Hargs2 & H).
  apply the_method_args_returns in Hargs2 as [_ ->].
  apply mbind_returns in H as (? & s7 & Has & _).
  by eapply assign_method_nowhere in Has.
Qed.

Lemma print_name_keeps_shared (execute : bool) :
  keeps shared
    (when execute (name <- the_method_name ;; print name)%py).
Proof. unfold the_method_name, print. keeps_tac. Qed.

Lemma run_method_keeps_all_shared sn ann :
  keeps shared (run_method flags container_run sn ann).
Proof.
  unfold run_method, the_method_name, the_method_args, print. keeps_tac.
Qed.

(** A turn of the method loop for a step whose methods are not a list
    in [config_updated]: when it goes on, it has written nothing. *)
Lemma do_method_elsewhere execute feedback_ i sn j m (s s' : St) c :
  do_method flags namespace container_run execute feedback_ i sn j m s
    = Returns c s' ->
  get_methods i sn (config_updated s) = None ->
  settled execute feedback_ s ->
  annotation_counter s' = annotation_counter s
  /\ config_updated s' = config_updated s
  /\ settled execute feedback_ s'.
Proof.
  intros H Hnone Hset. unfold do_method in H.
  apply mbind_returns in H as (? & s1 & Hb & H).
  assert (H1 : annotation_counter s1 = annotation_counter s
               /\ config_updated s1 = config_updated s
               /\ settled execute feedback_ s1).
  { destruct (is_named m) eqn:Hm.
    - apply bind_method_returns in Hb as (name & args & _ & ->); [|done].
      split; [done|]. split; [done|].
      intros _ a cfg' _ Hw. simpl in Hw. by injection Hw as <-.
    - destruct m; try done; by apply ret_returns in Hb as [_ ->]. }
  destruct H1 as (Hc1 & Hcfg1 & Hset1). clear Hb Hset.
  apply mbind_returns in H as (? & s2 & Hp & H).
  pose proof (keeps_returns _ (print_name_keeps_shared execute) Hp) as Hk2.
  apply mbind_returns in H as (? & s3 & Hc & H).
  pose proof Hk2 as [= Hc2 Hcfg2 Ha2 Hal2].
  apply check_method_exists_elsewhere in Hc as [Hk3 _];
    [|by rewrite Hcfg2, Hcfg1].
  pose proof Hk3 as [= Hc3 Hcfg3 Ha3 Hal3].
  apply mbind_returns in H as (ann & s4 & Han & H).
  apply annotation_params_elsewhere in Han; [|by rewrite Hcfg3, Hcfg2, Hcfg1].
  subst s4.
  assert (Hset3 : settled execute feedback_ s3).
  { eapply settled_shared; [exact Hk3|].
    eapply settled_shared; [exact Hk2|done]. }
  assert (annotation_counter s3 = annotation_counter s
          /\ config_updated s3 = config_updated s) as [E1 E2].
  { by rewrite Hc3, Hc2, Hc1, Hcfg3, Hcfg2, Hcfg1. }
  rewrite <- E1, <- E2. clear - H Hset3.
  unfold execute_method in H.
  destruct execute; [|by apply ret_returns in H as [_ ->]].
  apply mbind_returns in H as (? & s5 & Hm & H).
  pose proof (keeps_returns _ (run_method_keeps_all_shared sn ann) H) as Hk.
  assert (shared s5 = shared s3 \/
          (feedback_ = false /\ exists args,
             method_args s3 = Some args
             /\ s5 = set_method_args
                       (Some (set_item "passive" (VBool true) args)) s3))
    as Hs5.
  { destruct feedback_; simpl in Hm.
    - left. by apply ret_returns in Hm as [_ ->].
    - right. split; [done|].
      apply mutate_method_args_returns in Hm as (args & cfg' & Ha & Hw & ->).
      exists args. split; [done|].
      rewrite (Hset3 eq_refl _ _ Ha Hw). by destruct s3. }
  cbv beta in Hk.
  destruct Hs5 as [Hs5|(-> & args & Ha & ->)].
  - cbv beta in Hs5. rewrite Hs5 in Hk. pose proof Hk as [= -> -> _ _].
    split; [done|]. split; [done|]. by eapply settled_shared.
  - pose proof Hk as [= Hc' Hcfg' Ha' Hal']. simpl in *.
    split; [done|]. split; [done|].
    intros _ a cfg' Ha'' Hw. rewrite Ha' in Ha''. injection Ha'' as <-.
    rewrite set_item_set_item, Hal', Hcfg' in Hw. rewrite Hcfg'.
    by eapply (Hset3 eq_refl).
Qed.


Local Abbreviation method_body :=
  (do_method flags namespace container_run).
Local Abbreviation step_body :=
  (do_step flags namespace container_run).

Lemma methods_loop_out execute feedback_ i sn todo :
  forall done (s s' : St),
    for_each (method_body execute feedback_ i sn) (length done) todo s
      = Returns Continue s' ->
    forallb is_named todo = true ->
    get_methods i sn (config_updated s) = Some (done ++ todo) ->
    settled execute feedback_ s ->
    exists outs cnt,
      entries_out flags namespace execute feedback_ sn todo
        (annotation_counter s) = Some (outs, cnt)
      /\ annotation_counter s' = cnt
      /\ config_updated s'
         = put_methods i sn (done ++ outs) (config_updated s)
      /\ settled execute feedback_ s'.
Proof.
  induction todo as [|m todo IH]; intros done s s' H Hnamed HL Hset.
  - injection H as <-. exists [], (annotation_counter s).
    split; [done|]. split; [done|]. split; [|done].
    by rewrite put_methods_id.
  - simpl in H, Hnamed. apply andb_prop in Hnamed as [Hm Hnamed].
    apply mbind_returns in H as (c & s1 & Hbody & H).
    destruct c; [|done].
    eapply do_method_out in Hbody as (out & cnt & Hout & Hcnt & Hcfg & Hset1);
      [|done|done|by apply list_lookup_middle].
    rewrite insert_app_r_alt, Nat.sub_diag in Hcfg by done. simpl in Hcfg.
    specialize (IH (done ++ [out]) s1 s').
    rewrite length_app, Nat.add_1_r in IH.
    destruct IH as (outs & cnt' & Houts & IHc & IHcfg & IHset);
      [done|done| |done|].
    { rewrite Hcfg. erewrite get_put_methods by done.
      by rewrite <- app_assoc. }
    exists (out :: outs), cnt'. simpl. rewrite Hout.
    rewrite Hcnt in Houts. rewrite Houts. split; [done|]. split; [done|].
    split; [|done].
    by rewrite IHcfg, Hcfg, put_put_methods, <- app_assoc.
Qed.

Lemma methods_loop_elsewhere execute feedback_ i sn ms :
  forall j (s s' : St),
    for_each (method_body execute feedback_ i sn) j ms s
      = Returns Continue s' ->
    get_methods i sn (config_updated s) = None ->
    settled execute feedback_ s ->
    annotation_counter s' = annotation_counter s
    /\ config_updated s' = config_updated s
    /\ settled execute feedback_ s'.
Proof.
  induction ms as [|m ms IH]; intros j s s' H Hnone Hset.
  - by injection H as <-.
  - simpl in H. apply mbind_returns in H as (c & s1 & Hbody & H).
    destruct c; [|done].
    eapply do_method_elsewhere in Hbody as (Hc1 & Hcfg1 & Hset1); [|done..].
    eapply IH in H as (Hc & Hcfg & Hset'); [|by rewrite Hcfg1|done].
    by rewrite Hc, Hcfg, Hc1, Hcfg1.
Qed.

End BodyFacts.

Section StepFacts.
Import Py Settings Utils Main Outline.
Context {Image Annotation DataFrame : Type}.
Variable flags : Flags.
Variable namespace : string -> res (string -> bool).
Variable container_run :
  string -> option (list (string * value)) -> option value
  -> option (gmap string Z)
  -> M (Env (Image := Image) (Annotation := Annotation)
            (DataFrame := DataFrame)) unit.
Variable now : string.

Local Abbreviation St := (State (Image := Image) (Annotation := Annotation)
                            (DataFrame := DataFrame)).
Local Abbreviation method_body :=
  (do_method flags namespace container_run).
Local Abbreviation step_body :=
  (do_step flags namespace container_run).
Local Abbreviation steps_of := (run_steps flags namespace container_run now).

#[local] Opaque _legacy_names _annotation_functions.

Lemma processing_steps_put_steps steps L cfg :
  processing_steps cfg = Some steps ->
  processing_steps (put_steps L cfg) = Some L.
Proof.
  unfold processing_steps, put_steps. destruct cfg; try done.
  intros _. by rewrite get_set_item_eq.
Qed.

Lemma put_steps_put_steps L1 L2 cfg :
  put_steps L2 (put_steps L1 cfg) = put_steps L2 cfg.
Proof.
  unfold put_steps. destruct cfg; try done. by rewrite set_item_set_item.
Qed.

Lemma put_steps_id steps cfg :
  processing_steps cfg = Some steps -> put_steps steps cfg = cfg.
Proof.
  unfold processing_steps, put_steps. destruct cfg as [| | | | |top]; try done.
  destruct (get "processing_steps" top) as [[| | | |l|]|] eqn:E; try done.
  intros [= ->]. by rewrite (set_item_id _ _ E).
Qed.

Lemma put_methods_put_steps i sn v rest L steps cfg :
  processing_steps cfg = Some steps ->
  steps !! i = Some (VMap ((sn, v) :: rest)) ->
  put_methods i sn L cfg
  = put_steps (<[i := VMap ((sn, VSeq L) :: rest)]> steps) cfg.
Proof.
  intros Hs Hi. unfold put_methods, put_steps. rewrite Hs, Hi.
  destruct cfg; try done. simpl. by rewrite String.eqb_refl.
Qed.

Lemma get_methods_first i sn ms rest steps cfg :
  processing_steps cfg = Some steps ->
  steps !! i = Some (VMap ((sn, VSeq ms) :: rest)) ->
  get_methods i sn cfg = Some ms.
Proof.
  intros Hs Hi. unfold get_methods. rewrite Hs, Hi. simpl.
  by rewrite String.eqb_refl.
Qed.

Lemma autoselect_keeps_shared ml :
  keeps (fun s : St =>
           (annotation_counter s, config_updated s, method_args s, aliases s))
    (autoselect_canvas container_run ml).
Proof. unfold autoselect_canvas, print. keeps_tac. Qed.

Lemma settled_same execute feedback_ (s s' : St) :
  (annotation_counter s', config_updated s', method_args s', aliases s')
  = (annotation_counter s, config_updated s, method_args s, aliases s) ->
  settled execute feedback_ s -> settled execute feedback_ s'.
Proof.
  intros [= _ Hc Ha Hal] H Hmode args cfg'. rewrite Hc, Ha, Hal.
  by apply H.
Qed.

Lemma step_out_elsewhere execute feedback_ step sn d rest c :
  py_dict step = Ok ((sn, d) :: rest) ->
  match d with VSeq _ => is_map step = false | _ => True end ->
  step_out flags namespace execute feedback_ step c = Some (step, c).
Proof.
  intros Hd Hs. destruct step as [| | | | |[|[sn' v'] r']]; try done.
  injection Hd as -> -> ->. by destruct d.
Qed.

Lemma do_step_out execute feedback_ i step steps (s s' : St) :
  step_body execute feedback_ i step s = Returns Continue s' ->
  processing_steps (config_updated s) = Some steps ->
  steps !! i = Some step ->
  named_step step = true ->
  settled execute feedback_ s ->
  exists out cnt,
    step_out flags namespace execute feedback_ step (annotation_counter s)
      = Some (out, cnt)
    /\ annotation_counter s' = cnt
    /\ config_updated s' = put_steps (<[i := out]> steps) (config_updated s)
    /\ settled execute feedback_ s'.
Proof.
  intros H Hs Hi Hnamed Hset. unfold do_step in H.
  assert (Hsame : put_steps (<[i := step]> steps) (config_updated s)
                  = config_updated s).
  { rewrite list_insert_id by done. by apply put_steps_id. }
  destruct (is_str step) eqn:Hstr.
  { destruct step; try done. injection H as <-. by eexists _, _. }
  apply mbind_returns in H as (d & s1 & Hd & H).
  apply eval_returns in Hd as [Hd ->].
  apply mbind_returns in H as (sn & s1 & Hk & H).
  apply eval_returns in Hk as [Hk ->].
  apply mbind_returns in H as (ml & s1 & Hv & H).
  apply eval_returns in Hv as [Hv ->].
  destruct d as [|[sn' ml'] rest]; [done|].
  injection Hk as ->. injection Hv as ->.
  apply mbind_returns in H as (? & s1 & Hmod & H).
  apply modify_returns in Hmod. subst s1.
  destruct (is_none ml) eqn:Hnone.
  { destruct ml; try done. injection H as <-.
    erewrite step_out_elsewhere by done. by eexists _, _. }
  apply mbind_returns in H as (? & s2 & Hp & H).
  apply mbind_returns in H as (? & s3 & Hauto & H).
  apply mbind_returns in H as (ms & s4 & Hit & H).
  apply eval_returns in Hit as [Hit ->].
  assert (Hk3 : (annotation_counter s3, config_updated s3, method_args s3,
                 aliases s3)
                = (annotation_counter s, config_updated s, method_args s,
                   aliases s)).
  { assert ((annotation_counter s2, config_updated s2, method_args s2,
             aliases s2)
            = (annotation_counter s, config_updated s, method_args s,
               aliases s)) as <-.
    { destruct execute; simpl in Hp.
      - apply mbind_returns in Hp as (? & ? & H1 & H2).
        apply modify_returns in H1, H2. by subst.
      - by apply ret_returns in Hp as [_ ->]. }
    destruct (String.eqb sn "visualization" && execute); simpl in Hauto.
    - by eapply (keeps_returns _ (autoselect_keeps_shared ml)).
    - by apply ret_returns in Hauto as [_ ->]. }
  pose proof Hk3 as [= Hcnt3 Hcfg3 _ _].
  assert (Hset3 : settled execute feedback_ s3) by (by eapply settled_same).
  (* a step whose methods are a list in the configuration, or not *)
  assert (Hcase : (exists rest', step = VMap ((sn, VSeq ms) :: rest')
                                 /\ ml = VSeq ms)
                  \/ (get_methods i sn (config_updated s3) = None
                      /\ step_out flags namespace execute feedback_ step
                           (annotation_counter s)
                         = Some (step, annotation_counter s))).
  { destruct step as [| | | |xs|d']; try done.
    - right. split.
      + unfold get_methods. by rewrite Hcfg3, Hs, Hi.
      + done.
    - injection Hd as ->. destruct ml as [| | |str|ms'|kvs]; try done.
      + right. split; [|done].
        unfold get_methods. rewrite Hcfg3, Hs, Hi. simpl.
        by rewrite String.eqb_refl.
      + left. injection Hit as ->. eauto.
      + right. split; [|done].
        unfold get_methods. rewrite Hcfg3, Hs, Hi. simpl.
        by rewrite String.eqb_refl. }
  destruct Hcase as [(rest' & -> & ->)|[Hnowhere Hout]].
  - eapply methods_loop_out with (done := []) in H
      as (outs & cnt & Houts & Hc & Hcfg & Hset');
      [|done|simpl; rewrite Hcfg3; by eapply get_methods_first|done].
    rewrite Hcnt3 in Houts. simpl. rewrite Houts.
    eexists _, _. split; [done|]. split; [done|]. split; [|done].
    rewrite Hcfg, Hcfg3. simpl. by eapply put_methods_put_steps.
  - eapply methods_loop_elsewhere in H as (Hc & Hcfg & Hset'); [|done..].
    rewrite Hout. eexists _, _. split; [done|].
    split; [by rewrite Hc|]. split; [|done].
    by rewrite Hcfg, Hcfg3, Hsame.
Qed.

Lemma steps_loop_out execute feedback_ todo :
  forall done (s s' : St),
    for_each (step_body execute feedback_) (length done) todo s
      = Returns Continue s' ->
    forallb named_step todo = true ->
    processing_steps (config_updated s) = Some (done ++ todo) ->
    settled execute feedback_ s ->
    exists outs cnt,
      steps_out flags namespace execute feedback_ todo (annotation_counter s)
        = Some (outs, cnt)
      /\ annotation_counter s' = cnt
      /\ config_updated s' = put_steps (done ++ outs) (config_updated s).
Proof.
  induction todo as [|step todo IH]; intros done s s' H Hnamed Hs Hset.
  - injection H as <-. exists [], (annotation_counter s).
    split; [done|]. split; [done|]. by rewrite put_steps_id.
  - simpl in H, Hnamed. apply andb_prop in Hnamed as [Hstep Hnamed].
    apply mbind_returns in H as (c & s1 & Hbody & H).
    destruct c; [|done].
    eapply do_step_out in Hbody as (out & cnt & Hout & Hcnt & Hcfg & Hset1);
      [|done|by apply list_lookup_middle|done|done].
    rewrite insert_app_r_alt, Nat.sub_diag in Hcfg by done. simpl in Hcfg.
    specialize (IH (done ++ [out]) s1 s').
    rewrite length_app, Nat.add_1_r in IH.
    destruct IH as (outs & cnt' & Houts & IHc & IHcfg); [done|done| |done|].
    { rewrite Hcfg. erewrite processing_steps_put_steps by done.
      by rewrite <- app_assoc. }
    exists (out :: outs), cnt'. simpl. rewrite Hout.
    rewrite Hcnt in Houts. rewrite Houts. split; [done|]. split; [done|].
    by rewrite IHcfg, Hcfg, put_steps_put_steps, <- app_assoc.
Qed.

(** The step loop passes over steps that are strings. *)
Lemma steps_loop_skips execute feedback_ steps :
  Forall (fun step => is_str step = true) steps ->
  forall i (s : St),
    for_each (step_body execute feedback_) i steps s = Returns Continue s.
Proof.
  induction 1 as [|step steps Hstr _ IH]; intros i s; [done|].
  simpl. unfold mbind, do_step. rewrite Hstr. simpl. apply IH.
Qed.

Lemma run_steps_keeps_config execute feedback_ :
  keeps (config (Image := Image) (Annotation := Annotation)
           (DataFrame := DataFrame))
    (steps_of execute feedback_).
Proof.
  unfold run_steps, do_step, do_method, execute_method, run_method,
    annotation_params, check_method_exists, bind_method, autoselect_canvas,
    assign_method, mutate_method_args, rebind_method_args, counter_get,
    the_method_name, the_method_args, print.
  keeps_tac.
Qed.

Lemma run_steps_keeps_saved execute feedback_ :
  keeps (saved (Image := Image) (Annotation := Annotation)
           (DataFrame := DataFrame))
    (steps_of execute feedback_).
Proof.
  unfold run_steps, do_step, do_method, execute_method, run_method,
    annotation_params, check_method_exists, bind_method, autoselect_canvas,
    assign_method, mutate_method_args, rebind_method_args, counter_get,
    the_method_name, the_method_args, print.
  keeps_tac.
Qed.

(** The pass up to the step loop. *)
Lemma run_steps_opened execute feedback_ (s s' : St) c :
  steps_of execute feedback_ s = Returns c s' ->
  exists step_list steps s0,
    getitem "processing_steps" (config s) = Ok step_list
    /\ py_iter step_list = Ok steps
    /\ for_each (step_body execute feedback_) 0 steps s0 = Returns c s'
    /\ config s0 = config s
    /\ config_updated s0 = config s
    /\ annotation_counter s0 = fresh_counter
    /\ method_args s0 = None.
Proof.
  intros H. unfold run_steps in H.
  apply mbind_returns in H as (? & s1 & H1 & H). apply modify_returns in H1.
  apply mbind_returns in H as (? & s2 & H2 & H).
  apply mbind_returns in H as (? & s3 & H3 & H).
  apply mbind_returns in H as (? & s4 & H4 & H). apply modify_returns in H4.
  apply mbind_returns in H as (cfg & s5 & H5 & H).
  apply gets_returns in H5 as [-> ->].
  apply mbind_returns in H as (step_list & s5 & H5 & H).
  apply eval_returns in H5 as [Hget ->].
  apply mbind_returns in H as (? & s5 & H5 & H). apply modify_returns in H5.
  apply mbind_returns in H as (? & s6 & H6 & H). apply modify_returns in H6.
  apply mbind_returns in H as (steps & s7 & H7 & H).
  apply eval_returns in H7 as [Hiter ->].
  assert (config s4 = config s /\ method_args s4 = None)
    as [Hcfg4 Hargs4].
  { subst s4. simpl.
    assert (config s2 = config s /\ method_args s2 = None) as [E1 E2].
    { destruct execute; simpl in H2.
      - apply modify_returns in H2. by subst.
      - apply ret_returns in H2 as [_ ->]. by subst. }
    destruct (dry_run flags); simpl in H3.
    - by apply ret_returns in H3 as [_ ->].
    - apply modify_returns in H3. by subst s3. }
  rewrite Hcfg4 in Hget.
  exists step_list, steps, s6. split; [done|]. split; [done|].
  split; [done|]. subst s6 s5. simpl.
  split; [done|]. split; [done|]. split; [by subst s4|done].
Qed.

(** A pass that reaches the end of the step loop has written into
    [config_updated] what [steps_out] says, and nothing else. *)
Lemma run_steps_out execute feedback_ (s s' : St) steps :
  steps_of execute feedback_ s = Returns Continue s' ->
  methods_named (config s) = true ->
  processing_steps (config s) = Some steps ->
  exists outs cnt,
    config s' = config s
    /\ steps_out flags namespace execute feedback_ steps fresh_counter
       = Some (outs, cnt)
    /\ annotation_counter s' = cnt
    /\ config_updated s' = put_steps outs (config s).
Proof.
  intros H Hnamed Hsteps.
  pose proof (keeps_returns _ (run_steps_keeps_config execute feedback_) H)
    as Hconfig.
  apply run_steps_opened in H
    as (step_list & steps' & s0 & Hget & Hiter & H & Hc0 & Hcu0 & Hcnt0 & Ha0).
  assert (steps' = steps) as ->.
  { unfold getitem in Hget. unfold processing_steps in Hsteps.
    destruct (config s) as [| | | | |top]; try done.
    destruct (get "processing_steps" top) as [[| | | |l|]|]; try done.
    injection Hsteps as ->. injection Hget as <-. by injection Hiter. }
  eapply steps_loop_out with (done := []) in H
    as (outs & cnt & Houts & Hc & Hcfg).
  - exists outs, cnt. split; [done|].
    rewrite Hcnt0 in Houts. split; [done|]. split; [done|].
    by rewrite Hcfg, Hcu0.
  - unfold methods_named in Hnamed. by rewrite Hsteps in Hnamed.
  - simpl. by rewrite Hcu0.
  - intros _ args cfg' Ha. by rewrite Ha0 in Ha.
Qed.

(** A configuration whose steps are not a list: the loop goes through
    the keys of a mapping, or the characters of a string, and passes
    over each of them. *)
Lemma run_steps_without_steps execute feedback_ (s s' : St) :
  steps_of execute feedback_ s = Returns Continue s' ->
  processing_steps (config s) = None ->
  config_updated s' = config s /\ annotation_counter s' = fresh_counter.
Proof.
  intros H Hsteps.
  apply run_steps_opened in H
    as (step_list & steps & s0 & Hget & Hiter & H & Hc0 & Hcu0 & Hcnt0 & Ha0).
  rewrite steps_loop_skips in H; [by injection H as <-|].
  unfold getitem in Hget. unfold processing_steps in Hsteps.
  destruct (config s) as [| | | | |top]; try done.
  destruct (get "processing_steps" top) as [v|]; [|done].
  injection Hget as <-.
  destruct v as [| | |str|l|kvs]; try done; injection Hiter as <-.
  - unfold chars. apply Forall_forall. intros x Hx.
    apply list_elem_of_In, in_map_iff in Hx as (c & <- & _). done.
  - apply Forall_forall. intros x Hx.
    apply list_elem_of_In, in_map_iff in Hx as (c & <- & _). done.
Qed.

End StepFacts.

(* ===================================================================== *)
(** * The annotation-control block and its defaults *)
(* ===================================================================== *)

Section BlockFacts.
Import Py Settings Main Outline.
Implicit Types d e : list (string * value).

Lemma get_del_item_eq {V} k (d : list (string * V)) :
  get k (del_item k d) = None.
Proof.
  induction d as [|[k' v] d IH]; simpl; [done|].
  destruct (String.eqb k k') eqn:E; [done|]. simpl. by rewrite E.
Qed.

Lemma get_del_item_ne {V} k k' (d : list (string * V)) :
  k <> k' -> get k' (del_item k d) = get k' d.
Proof.
  intros Hne. induction d as [|[k0 v] d IH]; simpl; [done|].
  destruct (String.eqb k k0) eqn:E; simpl.
  - apply String.eqb_eq in E. subst k0.
    destruct (String.eqb k' k) eqn:E'; [|done].
    apply String.eqb_eq in E'. congruence.
  - by rewrite IH.
Qed.

Lemma get_update_absent {V} k (d e : list (string * V)) :
  get k e = None -> get k (update d e) = get k d.
Proof.
  unfold update. revert d.
  induction e as [|[k' v] e IH]; intros d He; simpl in *; [done|].
  destruct (String.eqb k k') eqn:E; [done|].
  rewrite IH by done. apply get_set_item_ne.
  intros ->. by rewrite String.eqb_refl in E.
Qed.

Lemma get_update_one {V} k k' (v : V) (d : list (string * V)) :
  get k' (update d [(k, v)])
  = if String.eqb k' k then Some v else get k' d.
Proof.
  unfold update. simpl. destruct (String.eqb k' k) eqn:E.
  - apply String.eqb_eq in E. subst. apply get_set_item_eq.
  - apply get_set_item_ne. intros ->. by rewrite String.eqb_refl in E.
Qed.

Lemma get_set_item {V} k k' (v : V) (d : list (string * V)) :
  get k' (set_item k v d)
  = if String.eqb k' k then Some v else get k' d.
Proof. apply (get_update_one k k' v d). Qed.

Lemma mem_get {V} k (d : list (string * V)) :
  mem k d = match get k d with Some _ => true | None => false end.
Proof. done. Qed.

(** The letters of [string.ascii_lowercase], by position. *)
Lemma str_index_letter z l :
  (0 <= z)%Z ->
  str_index ascii_lowercase z = Ok l ->
  (z < 26)%Z /\ l = letter (Z.to_nat z).
Proof.
  intros Hz. unfold str_index.
  change (Z.of_nat (String.length ascii_lowercase)) with 26%Z.
  destruct (Z.ltb_spec z 0); [lia|].
  destruct (Z.leb_spec 0 z); [|lia].
  destruct (Z.ltb_spec z 26); [|done]. simpl.
  assert (Hk : (Z.to_nat z < 26)%nat) by lia.
  revert Hk. generalize (Z.to_nat z). intros k Hk.
  do 26 (destruct k as [|k]; [by intros [= <-]|]). lia.
Qed.

Lemma str_index_ok z :
  (0 <= z < 26)%Z -> str_index ascii_lowercase z = Ok (letter (Z.to_nat z)).
Proof.
  intros Hz. unfold str_index.
  change (Z.of_nat (String.length ascii_lowercase)) with 26%Z.
  destruct (Z.ltb_spec z 0); [lia|].
  destruct (Z.leb_spec 0 z); [|lia].
  destruct (Z.ltb_spec z 26); [|lia]. simpl.
  assert (Hk : (Z.to_nat z < 26)%nat) by lia.
  revert Hk. generalize (Z.to_nat z). intros k Hk.
  do 26 (destruct k as [|k]; [done|]). lia.
Qed.

(** What the completed block holds under each of its three fields. *)
Lemma completed_block_fields name ty c a0 a3 :
  completed_block name ty c a0 = Some a3 ->
  get "type" a3
    = Some (match get "type" a0 with Some v => v | None => VStr ty end)
  /\ (match get "id" a0 with
      | Some v => get "id" a3 = Some v
      | None => exists l, str_index ascii_lowercase c = Ok l
                          /\ get "id" a3 = Some (VStr l)
      end)
  /\ get "edit" a3
     = Some (match get "edit" a0 with
             | Some v => v
             | None => default_edit name
             end).
Proof.
  unfold completed_block. rewrite !mem_get.
  set (a1 := if match get "type" a0 with Some _ => true | None => false end
             then a0 else update a0 [("type", VStr ty)]).
  assert (H1 : forall k, k <> "type" -> get k a1 = get k a0).
  { intros k Hk. unfold a1. destruct (get "type" a0); [done|].
    rewrite get_update_one.
    destruct (String.eqb k "type") eqn:E; [|done].
    by apply String.eqb_eq in E. }
  assert (H1t : get "type" a1
            = Some (match get "type" a0 with Some v => v | None => VStr ty end)).
  { unfold a1. destruct (get "type" a0) eqn:E; [done|].
    by rewrite get_update_one. }
  rewrite (H1 "id") by done.
  destruct (get "id" a0) as [vid|] eqn:Hid.
  - cbv beta iota. unfold mem. rewrite (H1 "edit") by done.
    destruct (get "edit" a0) eqn:He; cbv beta iota; intros [= <-].
    + rewrite (H1 "id"), (H1 "edit") by done. by rewrite Hid, He.
    + repeat (rewrite get_update_one || rewrite get_set_item). simpl. by rewrite (H1 "id"), Hid.
  - destruct (str_index ascii_lowercase c) as [l|] eqn:Hl; [|done].
    cbv beta iota. unfold mem.
    repeat (rewrite get_update_one || rewrite get_set_item). simpl. rewrite (H1 "edit") by done.
    destruct (get "edit" a0) eqn:He; cbv beta iota; intros [= <-].
    + repeat (rewrite get_update_one || rewrite get_set_item). simpl. rewrite (H1 "edit"), He by done.
      split; [done|]. split; [|done]. eauto.
    + repeat (rewrite get_update_one || rewrite get_set_item). simpl. split; [done|]. split; [|done]. eauto.
Qed.

Lemma fresh_counter_types ty :
  In ty _annotation_types -> fresh_counter !! ty = Some (-1)%Z.
Proof.
  unfold _annotation_types. simpl.
  intros [<-|[<-|[<-|[<-|[<-|[<-|[<-|[<-|[<-|[]]]]]]]]]]; reflexivity.
Qed.

Lemma annotation_functions_types name ty :
  get name _annotation_functions = Some ty -> In ty _annotation_types.
Proof.
  unfold _annotation_functions. simpl.
  repeat (destruct (String.eqb name _);
          [intros [= <-]; unfold _annotation_types; simpl; tauto|]).
  done.
Qed.

End BlockFacts.

(* ===================================================================== *)
(** * What the entries of the updated configuration hold *)
(* ===================================================================== *)

Section EntryFacts.
Import Py Settings Main Outline.
Variable flags : Flags.
Variable namespace : string -> res (string -> bool).

Local Abbreviation entry := (entry_out flags namespace).
Local Abbreviation flat := (flat_out flags namespace).
Local Abbreviation kind := (kind_of flags namespace).
Local Abbreviation count := (count_kind flags namespace).

#[local] Opaque _legacy_names _annotation_functions.

Lemma control_block_get args a0 field :
  control_block args = Some a0 -> get field a0 = explicit field args.
Proof.
  unfold control_block, explicit.
  destruct (get "ANNOTATION" args) as [block|].
  - destruct (py_dict block); [by intros [= ->]|done].
  - by intros [= <-].
Qed.

Lemma entry_field_block current a3 args field :
  entry_field field
    (VMap [(current, VMap (update [("ANNOTATION", VMap a3)]
                             (del_item "ANNOTATION" args)))])
  = get field a3.
Proof.
  unfold entry_field, explicit.
  rewrite get_update_absent by apply get_del_item_eq. simpl. done.
Qed.

(** An annotation-producing method: its entry carries the block with
    explicit values kept and the rest defaulted. *)
Lemma entry_out_annotation execute feedback_ sn m c out c'
    name args current fixed ty :
  entry execute feedback_ sn m c = Some (out, c') ->
  method_parts m = Some (name, args) ->
  resolve flags namespace sn name = Some (current, fixed) ->
  get current _annotation_functions = Some ty ->
  exists n,
    c !! ty = Some n
    /\ c' = <[ty := (n + 1)%Z]> c
    /\ entry_kind out = Some ty
    /\ entry_field "type" out
       = Some (match explicit "type" args with
               | Some v => v
               | None => VStr ty
               end)
    /\ entry_field "edit" out
       = Some (match explicit "edit" args with
               | Some v => v
               | None => default_edit current
               end)
    /\ match explicit "id" args with
       | Some v => entry_field "id" out = Some v
       | None => exists l, str_index ascii_lowercase (n + 1) = Ok l
                           /\ entry_field "id" out = Some (VStr l)
       end.
Proof.
  intros H Hp Hr Hk. unfold entry_out in H. rewrite Hp, Hr, Hk in H.
  destruct (c !! ty) as [n|]; [|done].
  destruct (control_block args) as [a0|] eqn:Hb; [|done].
  destruct (completed_block current ty (n + 1) a0) as [a3|] eqn:Hc; [|done].
  injection H as <- <-. exists n.
  apply completed_block_fields in Hc as (Ht & Hi & He).
  rewrite !(control_block_get _ _ Hb) in *.
  split; [done|]. split; [done|]. split; [by simpl|].
  rewrite !entry_field_block. done.
Qed.

(** Any other method: the counter stays, and the entry is not one of an
    annotation. *)
Lemma entry_out_plain execute feedback_ sn m c out c' :
  entry execute feedback_ sn m c = Some (out, c') ->
  kind sn m = None ->
  c' = c /\ entry_kind out = None.
Proof.
  unfold entry_out, kind_of.
  destruct (method_parts m) as [[name args]|] eqn:Hp; [|done].
  destruct (resolve flags namespace sn name) as [[current fixed]|] eqn:Hr;
    [|done].
  intros H Hk. rewrite Hk in H. injection H as <- <-. split; [done|].
  destruct fixed; [done|].
  assert (current = name) as ->.
  { unfold resolve in Hr. destruct (namespace sn) as [ns|]; [|done].
    destruct (ns name); [by injection Hr|].
    destruct (fix_names flags); [|by injection Hr].
    destruct (get sn _legacy_names) as [t|]; [|done].
    destruct (get name t); by injection Hr. }
  destruct m as [| | |n| |[|[n v] r]]; try done.
  unfold method_parts in Hp. simpl.
  destruct (is_none v); [by injection Hp as -> _|].
  destruct (py_dict v); [|done]. by injection Hp as -> _.
Qed.

Lemma entry_out_counter execute feedback_ sn m c out c' ty n :
  entry execute feedback_ sn m c = Some (out, c') ->
  c !! ty = Some n ->
  c' !! ty = Some (if has_kind flags namespace ty (sn, m)
                   then (n + 1)%Z else n)
  /\ entry_has_kind ty out = has_kind flags namespace ty (sn, m).
Proof.
  intros H Hc. unfold has_kind, entry_has_kind. simpl.
  destruct (kind sn m) as [ty0|] eqn:Hk.
  - unfold kind_of in Hk.
    destruct (method_parts m) as [[name args]|] eqn:Hp; [|done].
    destruct (resolve flags namespace sn name) as [[current fixed]|] eqn:Hr;
      [|done].
    eapply entry_out_annotation in H as (n0 & Hn0 & -> & Hek & _); [|done..].
    rewrite Hek. destruct (String.eqb ty0 ty) eqn:E.
    + apply String.eqb_eq in E. subst ty0.
      rewrite Hc in Hn0. injection Hn0 as <-. by rewrite lookup_insert_eq.
    + rewrite lookup_insert_ne; [done|].
      intros ->. by rewrite String.eqb_refl in E.
  - eapply entry_out_plain in H as [-> Hek]; [|done]. by rewrite Hek.
Qed.

Lemma flat_out_app execute feedback_ l1 l2 c :
  flat execute feedback_ (l1 ++ l2) c
  = match flat execute feedback_ l1 c with
    | Some (o1, c1) =>
        match flat execute feedback_ l2 c1 with
        | Some (o2, c2) => Some (o1 ++ o2, c2)
        | None => None
        end
    | None => None
    end.
Proof.
  revert c. induction l1 as [|[sn m] l1 IH]; intros c; simpl.
  - by destruct (flat execute feedback_ l2 c) as [[]|].
  - destruct (entry execute feedback_ sn m c) as [[out c1]|]; [|done].
    rewrite IH. destruct (flat execute feedback_ l1 c1) as [[o1 c2]|]; [|done].
    by destruct (flat execute feedback_ l2 c2) as [[]|].
Qed.

Lemma entries_out_flat execute feedback_ sn ms c outs c' :
  entries_out flags namespace execute feedback_ sn ms c = Some (outs, c') ->
  flat execute feedback_ (map (fun m => (sn, m)) ms) c
  = Some (map (fun m => (sn, m)) outs, c').
Proof.
  revert c outs. induction ms as [|m ms IH]; intros c outs; simpl.
  - by intros [= <- <-].
  - destruct (entry execute feedback_ sn m c) as [[out c1]|]; [|done].
    destruct (entries_out _ _ _ _ _ ms c1) as [[outs' c2]|] eqn:E; [|done].
    intros [= <- <-]. by rewrite (IH _ _ E).
Qed.

Lemma step_out_flat execute feedback_ step c out c' :
  step_out flags namespace execute feedback_ step c = Some (out, c') ->
  flat execute feedback_ (tagged step) c = Some (tagged out, c').
Proof.
  unfold step_out, tagged, step_methods.
  destruct step as [| | | | |[|[sn v] rest]];
    try (by intros [= <- <-]).
  destruct v as [| | | |ms|]; try (by intros [= <- <-]).
  destruct (entries_out _ _ _ _ _ ms c) as [[outs c1]|] eqn:E; [|done].
  intros [= <- <-]. by apply entries_out_flat.
Qed.

Lemma steps_out_flat execute feedback_ steps c outs c' :
  steps_out flags namespace execute feedback_ steps c = Some (outs, c') ->
  flat execute feedback_ (concat (map tagged steps)) c
  = Some (concat (map tagged outs), c').
Proof.
  revert c outs. induction steps as [|step steps IH]; intros c outs; simpl.
  - by intros [= <- <-].
  - destruct (step_out _ _ _ _ step c) as [[out c1]|] eqn:E; [|done].
    destruct (steps_out _ _ _ _ steps c1) as [[outs' c2]|] eqn:E'; [|done].
    intros [= <- <-]. rewrite flat_out_app.
    rewrite (step_out_flat _ _ _ _ E), (IH _ _ E'). done.
Qed.

(** The entry at position [k], and where the counter stands when the
    loop comes to it. *)
Lemma flat_out_lookup execute feedback_ tms :
  forall c outs c' k sn m,
    flat execute feedback_ tms c = Some (outs, c') ->
    tms !! k = Some (sn, m) ->
    exists out ck ck',
      outs !! k = Some (sn, out)
      /\ entry execute feedback_ sn m ck = Some (out, ck')
      /\ forall ty n,
           c !! ty = Some n ->
           ck !! ty = Some (n + Z.of_nat (count ty (take k tms)))%Z.
Proof.
  induction tms as [|[sn0 m0] tms IH]; intros c outs c' k sn m H Hk; [done|].
  simpl in H.
  destruct (entry execute feedback_ sn0 m0 c) as [[out0 c1]|] eqn:E; [|done].
  destruct (flat execute feedback_ tms c1) as [[outs' c2]|] eqn:E'; [|done].
  injection H as <- <-.
  destruct k as [|k]; simpl in Hk.
  - injection Hk as -> ->. exists out0, c, c1. split; [done|]. split; [done|].
    intros ty n Hn. rewrite Hn. f_equal. simpl. unfold count_kind. simpl. lia.
  - destruct (IH _ _ _ _ _ _ E' Hk) as (out & ck & ck' & Ho & He & Hc).
    exists out, ck, ck'. split; [done|]. split; [done|].
    intros ty n Hn.
    destruct (entry_out_counter _ _ _ _ _ ty E Hn) as [Hc1 _].
    rewrite (Hc _ _ Hc1). f_equal. unfold count_kind. simpl.
    destruct (has_kind flags namespace ty (sn0, m0)); simpl; lia.
Qed.

Lemma flat_out_counter execute feedback_ tms :
  forall c outs c' ty n,
    flat execute feedback_ tms c = Some (outs, c') ->
    c !! ty = Some n ->
    c' !! ty = Some (n + Z.of_nat (count ty tms))%Z.
Proof.
  induction tms as [|[sn0 m0] tms IH]; intros c outs c' ty n H Hn.
  - injection H as <- <-. rewrite Hn. f_equal. unfold count_kind. simpl. lia.
  - simpl in H.
    destruct (entry execute feedback_ sn0 m0 c) as [[out0 c1]|] eqn:E; [|done].
    destruct (flat execute feedback_ tms c1) as [[outs' c2]|] eqn:E'; [|done].
    injection H as <- <-.
    destruct (entry_out_counter _ _ _ _ _ ty E Hn) as [Hc1 _].
    rewrite (IH _ _ _ _ _ E' Hc1). f_equal. unfold count_kind. simpl.
    destruct (has_kind flags namespace ty (sn0, m0)); simpl; lia.
Qed.


(** When no method of type [ty] names its id, the ids of that type are
    consecutive letters, from where the counter stands. *)
Lemma flat_out_ids execute feedback_ ty tms :
  forall c outs c' b,
    flat execute feedback_ tms c = Some (outs, c') ->
    c !! ty = Some (Z.of_nat b - 1)%Z ->
    (forall sn m name args,
        In (sn, m) tms -> kind sn m = Some ty ->
        method_parts m = Some (name, args) -> explicit "id" args = None) ->
    b <= 26 ->
    b + count ty tms <= 26
    /\ map (fun p => entry_field "id" (snd p))
         (List.filter (fun p => entry_has_kind ty (snd p)) outs)
       = map (fun k => Some (VStr (letter k))) (seq b (count ty tms)).
Proof.
  induction tms as [|[sn0 m0] tms IH]; intros c outs c' b H Hc Hno Hb.
  - injection H as <- <-. unfold count_kind. simpl. split; [lia|done].
  - simpl in H.
    destruct (entry execute feedback_ sn0 m0 c) as [[out0 c1]|] eqn:E; [|done].
    destruct (flat execute feedback_ tms c1) as [[outs' c2]|] eqn:E'; [|done].
    injection H as <- <-.
    destruct (entry_out_counter _ _ _ _ _ ty E Hc) as [Hc1 Hek].
    unfold count_kind in *. simpl. rewrite Hek.
    destruct (has_kind flags namespace ty (sn0, m0)) eqn:Hk.
    + unfold has_kind in Hk. simpl in Hk.
      destruct (kind sn0 m0) as [ty0|] eqn:Hkind; [|done].
      apply String.eqb_eq in Hk. subst ty0.
      pose proof Hkind as Hkind'. unfold kind_of in Hkind'.
      destruct (method_parts m0) as [[name args]|] eqn:Hp; [|done].
      destruct (resolve flags namespace sn0 name) as [[current fixed]|]
        eqn:Hr; [|done].
      eapply entry_out_annotation in E
        as (n & Hn & _ & _ & _ & _ & Hid); [|done..].
      rewrite Hc in Hn. injection Hn as <-.
      rewrite (Hno sn0 m0 name args) in Hid by (simpl; auto).
      destruct Hid as (l & Hl & Hid).
      replace (Z.of_nat b - 1 + 1)%Z with (Z.of_nat b) in Hl by lia.
      apply str_index_letter in Hl as [Hlt ->]; [|lia].
      rewrite Nat2Z.id in Hid.
      destruct (IH c1 outs' c2 (S b)) as [IHb IHids];
        [done| |intros; eapply Hno; simpl; eauto|lia|].
      { rewrite Hc1. f_equal. lia. }
      simpl. rewrite Hid, IHids. split; [lia|done].
    + destruct (IH c1 outs' c2 b) as [IHb IHids];
        [done|done|intros; eapply Hno; simpl; eauto|done|].
      done.
Qed.

End EntryFacts.

(* ===================================================================== *)
(** * A completed pass, method by method *)
(* ===================================================================== *)

Section PassOutline.
Import Py Settings Utils Main Outline.
Context {Image Annotation DataFrame : Type}.
Variable flags : Flags.
Variable namespace : string -> res (string -> bool).
Variable container_run :
  string -> option (list (string * value)) -> option value
  -> option (gmap string Z)
  -> M (Env (Image := Image) (Annotation := Annotation)
            (DataFrame := DataFrame)) unit.
Variable now : string.

Local Abbreviation St := (State (Image := Image) (Annotation := Annotation)
                            (DataFrame := DataFrame)).
Local Abbreviation steps_of := (run_steps flags namespace container_run now).
Local Abbreviation kind := (kind_of flags namespace).
Local Abbreviation count := (count_kind flags namespace).

Lemma kind_of_types sn m ty : kind sn m = Some ty -> In ty _annotation_types.
Proof.
  unfold kind_of. destruct (method_parts m) as [[name args]|]; [|done].
  destruct (resolve flags namespace sn name) as [[current fixed]|]; [|done].
  apply annotation_functions_types.
Qed.

Lemma methods_of_put_steps steps outs cfg :
  processing_steps cfg = Some steps ->
  methods_of (put_steps outs cfg) = concat (map tagged outs).
Proof.
  intros H. unfold methods_of.
  by rewrite (processing_steps_put_steps outs _ H).
Qed.

(** The methods of the updated configuration are those of the
    configuration, each replaced by what the loop body leaves for it. *)
Lemma pass_flat execute feedback_ (s s' : St) :
  steps_of execute feedback_ s = Returns Continue s' ->
  methods_named (config s) = true ->
  flat_out flags namespace execute feedback_ (methods_of (config s))
    fresh_counter
  = Some (methods_of (config_updated s'), annotation_counter s').
Proof.
  intros H Hnamed.
  destruct (processing_steps (config s)) as [steps|] eqn:Hs.
  - eapply run_steps_out in H as (outs & cnt & _ & Hout & -> & ->);
      [|done..].
    rewrite (methods_of_put_steps _ _ Hs). unfold methods_of. rewrite Hs.
    by apply steps_out_flat.
  - apply run_steps_without_steps in H as [-> ->]; [|done].
    unfold methods_of. by rewrite Hs.
Qed.


Lemma plain_named cfg : plain_config cfg = true -> methods_named cfg = true.
Proof.
  unfold plain_config, methods_named.
  destruct (processing_steps cfg) as [steps|]; [|done].
  intros H. apply forallb_forall. intros step Hin.
  rewrite forallb_forall in H. specialize (H _ Hin).
  unfold named_step, step_methods.
  destruct step as [| | | | |[|[sn v] rest]]; try done.
  destruct v as [| | | |ms|]; try done. simpl in H.
  apply forallb_forall. intros m Hm. rewrite forallb_forall in H.
  specialize (H _ Hm). by destruct m.
Qed.

(** C1 (as amended). For a configuration of the usual shape (the steps
    a sequence, a step a name or a mapping to nothing or to a sequence
    of methods, a method a name or a mapping to nothing or to a mapping
    of arguments whose [ANNOTATION], if any, is a mapping) and a pass
    that runs to the end of the step loop: when none of the [N] methods
    of an annotation type names its id, the ids written for them are the
    first [N] lowercase letters in the order of execution, and the
    counter of the type, which starts at -1 and goes up by one at each
    of them, ends at [N - 1].  Such a pass has [N <= 26]: with more
    methods of the type that name no id the pass does not run to the end
    of the step loop. *)
Theorem default_ids_are_first_letters execute feedback_ (s s' : St) ty :
  steps_of execute feedback_ s = Returns Continue s' ->
  plain_config (config s) = true ->
  In ty _annotation_types ->
  (forall sn m name args,
      In (sn, m) (methods_of (config s)) -> kind sn m = Some ty ->
      method_parts m = Some (name, args) -> explicit "id" args = None) ->
  let N := count ty (methods_of (config s)) in
  N <= 26
  /\ assigned_ids ty (config_updated s') = letters N
  /\ fresh_counter !! ty = Some (-1)%Z
  /\ annotation_counter s' !! ty = Some (Z.of_nat N - 1)%Z.
Proof.
  intros H Hplain Hty Hno N.
  apply pass_flat in H; [|by apply plain_named].
  assert (Hfresh : fresh_counter !! ty = Some (-1)%Z)
    by (by apply fresh_counter_types).
  edestruct (flat_out_ids) with (b := 0) (ty := ty) as [HN Hids];
    [exact H|done|done|lia|].
  split; [done|]. split; [done|]. split; [done|].
  erewrite flat_out_counter by eassumption. f_equal. unfold N. lia.
Qed.

(** C10 (as amended). For a configuration of the usual shape and a pass
    that runs to the end of the step loop, the counter of an annotation
    type goes up by one at every method of that type, whether the method
    names its id or not: it ends at the number of these methods minus
    one.  A method of the type that names no id gets the letter at the
    position given by the number of methods of the type before it, those
    with an id of their own included; a method that names its id keeps
    it. *)
Theorem counter_counts_every_occurrence execute feedback_ (s s' : St) ty :
  steps_of execute feedback_ s = Returns Continue s' ->
  plain_config (config s) = true ->
  In ty _annotation_types ->
  annotation_counter s' !! ty
    = Some (Z.of_nat (count ty (methods_of (config s))) - 1)%Z
  /\ forall k sn m name args,
       methods_of (config s) !! k = Some (sn, m) ->
       kind sn m = Some ty ->
       method_parts m = Some (name, args) ->
       let before := count ty (take k (methods_of (config s))) in
       exists out,
         methods_of (config_updated s') !! k = Some (sn, out)
         /\ entry_kind out = Some ty
         /\ entry_field "id" out
            = Some (match explicit "id" args with
                    | Some v => v
                    | None => VStr (letter before)
                    end)
         /\ (explicit "id" args = None -> before < 26).
Proof.
  intros H Hplain Hty.
  apply pass_flat in H; [|by apply plain_named].
  assert (Hfresh : fresh_counter !! ty = Some (-1)%Z)
    by (by apply fresh_counter_types).
  split.
  { erewrite flat_out_counter by eassumption. f_equal. lia. }
  intros k sn m name args Hk Hkind Hp before.
  edestruct flat_out_lookup as (out & ck & ck' & Ho & He & Hc);
    [exact H|exact Hk|].
  specialize (Hc _ _ Hfresh). fold before in Hc.
  pose proof Hkind as Hkind'. unfold kind_of in Hkind'. rewrite Hp in Hkind'.
  destruct (resolve flags namespace sn name) as [[current fixed]|] eqn:Hr;
    [|done].
  eapply entry_out_annotation in He
    as (n & Hn & _ & Hek & _ & _ & Hid); [|done..].
  rewrite Hc in Hn. injection Hn as <-.
  exists out. split; [done|]. split; [done|].
  destruct (explicit "id" args) as [v|].
  - split; [done|]. done.
  - destruct Hid as (l & Hl & ->).
    replace (-1 + Z.of_nat before + 1)%Z with (Z.of_nat before) in Hl by lia.
    apply str_index_letter in Hl as [Hlt ->]; [|lia].
    rewrite Nat2Z.id. split; [done|]. lia.
Qed.

(** C4, as the sources have it.  For a configuration of the usual shape
    and a pass that runs to the end of the step loop, an
    annotation-producing method whose arguments give no [edit] gets the
    default of the name it runs under (the current name, when the name
    of the configuration is a legacy one): ["overwrite"] when that name
    is in the list of [main.py], [False] otherwise.  Of the five names
    of the list only [detect_contour], [compute_shape_features] and
    [compute_texture_features] are annotation functions, so these three
    get ["overwrite"]; every other annotation function gets [False],
    among them [detect_skeleton] (the list says [skeletonize]) and
    [detect_mask] (the list says [detect_shape], which the table of
    legacy names turns into [detect_mask] before the list is read). *)
Theorem edit_default_goes_by_current_name
    execute feedback_ (s s' : St) k sn m name args current fixed ty :
  steps_of execute feedback_ s = Returns Continue s' ->
  plain_config (config s) = true ->
  methods_of (config s) !! k = Some (sn, m) ->
  method_parts m = Some (name, args) ->
  resolve flags namespace sn name = Some (current, fixed) ->
  get current _annotation_functions = Some ty ->
  explicit "edit" args = None ->
  exists out,
    methods_of (config_updated s') !! k = Some (sn, out)
    /\ entry_field "edit" out
       = Some (if in_list current overwrite_by_default
               then VStr "overwrite" else VBool false)
    /\ (In current ["detect_contour"; "compute_shape_features";
                    "compute_texture_features"] ->
        entry_field "edit" out = Some (VStr "overwrite"))
    /\ (~ In current ["detect_contour"; "compute_shape_features";
                      "compute_texture_features"] ->
        entry_field "edit" out = Some (VBool false))
    /\ (current = "detect_skeleton" \/ current = "detect_mask" ->
        entry_field "edit" out = Some (VBool false)).
Proof.
  intros H Hplain Hk Hp Hr Hty He.
  apply pass_flat in H; [|by apply plain_named].
  edestruct flat_out_lookup as (out & ck & ck' & Ho & Hout & _);
    [exact H|exact Hk|].
  eapply entry_out_annotation in Hout
    as (n & _ & _ & _ & _ & Hedit & _); [|done..].
  rewrite He in Hedit. unfold default_edit in Hedit.
  exists out. split; [done|]. split; [done|].
  rewrite Hedit. clear - Hty.
  apply get_Some_In in Hty. simpl in Hty.
  repeat (destruct Hty as [Hty|Hty]; [injection Hty as <- <-|]); [..|done];
    vm_compute; (repeat split); intros; try reflexivity;
    try discriminate; intuition discriminate.
Qed.

End PassOutline.

(* ===================================================================== *)
(** * Name resolution and the defaults of the control block *)
(* ===================================================================== *)

Section MethodClaims.
Import Py Settings Utils Main Outline.
Context {Image Annotation DataFrame : Type}.
Variable flags : Flags.
Variable namespace : string -> res (string -> bool).
Variable container_run :
  string -> option (list (string * value)) -> option value
  -> option (gmap string Z)
  -> M (Env (Image := Image) (Annotation := Annotation)
            (DataFrame := DataFrame)) unit.

Local Abbreviation St := (State (Image := Image) (Annotation := Annotation)
                            (DataFrame := DataFrame)).
Local Abbreviation method_body :=
  (do_method flags namespace container_run).

#[local] Opaque _legacy_names _annotation_functions.

Lemma the_method_name_ok (s : St) n :
  method_name s = Some n -> the_method_name s = Returns n s.
Proof. intros H. unfold the_method_name, mbind, gets. by rewrite H. Qed.

Lemma mutate_method_args_ok f (s : St) args :
  method_args s = Some args ->
  aliases s = [] ->
  mutate_method_args f s
  = Returns tt
      (set_config_updated (config_updated s)
         (set_method_args (Some (f args)) s)).
Proof.
  intros Ha Hal.
  unfold mutate_method_args, the_method_args, mbind, gets, modify.
  rewrite Ha. simpl. by rewrite Hal.
Qed.

End MethodClaims.

(* ===================================================================== *)
(** * The pass, from the method it has come to *)
(* ===================================================================== *)

Section Turns.
Import Py Settings Utils Main Outline.
Context {Image Annotation DataFrame : Type}.
Variable flags : Flags.
Variable config_path : string.
Variable namespace : string -> res (string -> bool).
Variable container_run :
  string -> option (list (string * value)) -> option value
  -> option (gmap string Z)
  -> M (Env (Image := Image) (Annotation := Annotation)
            (DataFrame := DataFrame)) unit.
Variable gui : option Image -> res bool.
Variable now : string.
Variable content : nat -> value.

Local Abbreviation St := (State (Image := Image) (Annotation := Annotation)
                            (DataFrame := DataFrame)).
Local Abbreviation iterate :=
  (_iterate flags config_path namespace container_run gui now).
Local Abbreviation steps_of := (run_steps flags namespace container_run now).
Local Abbreviation method_body :=
  (do_method flags namespace container_run).
Local Abbreviation step_body :=
  (do_step flags namespace container_run).
Local Abbreviation comes_to :=
  (arrives flags namespace container_run now).
Local Abbreviation the_rest :=
  (rest_of_pass flags config_path namespace container_run gui).
Local Abbreviation up_to_call := (before_call flags namespace).
Local Abbreviation call name kw ann s :=
  (container_run name (Some kw) (Some ann) (Some (annotation_counter s))
     (mkEnv (container s) (pype_restart s))).

#[local] Opaque _legacy_names _annotation_functions.

(** Splits a statement on the outcome of each of its steps. *)
Ltac by_outcomes :=
  cbv beta iota delta [Py.ret Py.mbind];
  repeat match goal with
         | |- context [match ?m ?s with Returns _ _ => _ | Raises _ _ => _ end] =>
             destruct (m s) as [? ?|? ?]; cbv beta iota delta [Py.ret Py.mbind]
         end;
  try reflexivity.

Lemma for_each_app {A} (body : nat -> A -> M St ctl) xs :
  forall ys i s,
    for_each body i (xs ++ ys) s
    = match for_each body i xs s with
      | Returns Continue s1 => for_each body (i + length xs) ys s1
      | o => o
      end.
Proof.
  induction xs as [|x xs IH]; intros ys i s; simpl.
  - by rewrite Nat.add_0_r.
  - unfold mbind. destruct (body i x s) as [[] s1|]; [|done..].
    rewrite IH. by rewrite Nat.add_succ_r.
Qed.

Lemma run_steps_open execute feedback_ (s : St) :
  steps_of execute feedback_ s
  = (steps <- open_pass flags now execute ;;
     for_each (step_body execute feedback_) 0 steps)%py s.
Proof. unfold run_steps, open_pass, mbind. by_outcomes. Qed.

Lemma do_step_open execute feedback_ i step (s : St) :
  step_body execute feedback_ i step s
  = (o <- open_step container_run execute step ;;
     match o with
     | None => ret Continue
     | Some (sn, ms) => for_each (method_body execute feedback_ i sn) 0 ms
     end)%py s.
Proof.
  unfold do_step, open_step. destruct (is_str step); [done|].
  unfold mbind.
  destruct (eval (py_dict step) s) as [d s1|]; [|done].
  destruct (eval (first_key d) s1) as [sn s2|]; [|done].
  destruct (eval (first_value d) s2) as [ml s3|]; [|done].
  destruct (modify _ s3) as [[] s4|]; [|done].
  destruct (is_none ml); [done|]. by_outcomes.
Qed.

Lemma do_method_call feedback_ i sn j m (s : St) :
  method_body true feedback_ i sn j m s
  = (ann <- up_to_call feedback_ i sn j m ;;
     run_method flags container_run sn ann)%py s.
Proof.
  unfold do_method, before_call, execute_method. simpl when.
  unfold mbind at 1 2 3 4 7 8 9 10 11 12. by_outcomes.
Qed.

(** The pass from the method it has come to: the turn of the method,
    then what is left. *)
Lemma arrives_pass execute visualize_ feedback_ (s at_method : St)
    i sn j m after later :
  comes_to execute feedback_ s i sn j m after later at_method ->
  iterate execute visualize_ feedback_ s
  = (c <- method_body execute feedback_ i sn j m ;;
     match c with
     | Return => ret tt
     | Continue => the_rest execute visualize_ feedback_ i sn j after later
     end)%py at_method.
Proof.
  intros (earlier & more & before & s0 & s1 & s2
          & Ho & -> & He & Hs & -> & Hb).
  unfold _iterate, rest_of_pass, mbind.
  rewrite run_steps_open. unfold mbind. rewrite Ho.
  rewrite for_each_app, He. simpl.
  unfold mbind. rewrite do_step_open. unfold mbind. rewrite Hs.
  rewrite for_each_app, Hb. simpl. unfold mbind.
  destruct (method_body execute feedback_ (length earlier) sn
              (length before) m at_method) as [[] s3|]; try done.
  destruct (for_each _ _ after s3) as [[] s4|]; try done.
Qed.

(** The turn of a method whose call raises. *)
Lemma turn_raise feedback_ i sn j m (s s2 : St) ann name kw ex e :
  up_to_call feedback_ i sn j m s = Returns ann s2 ->
  method_name s2 = Some name ->
  method_args s2 = Some kw ->
  call name kw ann s2 = Raises ex e ->
  let left := set_pype_restart (env_restart e)
                (set_container (env_container e) s2) in
  let logged := set_stdout
                  (stdout left
                   ++ [location sn name ex +:+ " - " +:+ exn_msg ex])
                  (set_log (log left ++ [ex]) left) in
  method_body true feedback_ i sn j m s
  = if debug flags then Raises ex left
    else if env_restart e
         then Returns Return (set_stdout (stdout logged ++ ["BREAK"]) logged)
         else Returns Continue logged.
Proof.
  intros Hb Hn Ha Hr left logged.
  rewrite do_method_call. erewrite mbind_step by exact Hb.
  by erewrite run_method_raise.
Qed.

(** The turn of a method whose call returns. *)
Lemma turn_return feedback_ i sn j m (s s2 : St) ann name kw e :
  up_to_call feedback_ i sn j m s = Returns ann s2 ->
  method_name s2 = Some name ->
  method_args s2 = Some kw ->
  call name kw ann s2 = Returns tt e ->
  let left := set_last_print_msg EmptyString
                (set_pype_restart (env_restart e)
                   (set_container (env_container e) s2)) in
  method_body true feedback_ i sn j m s
  = if env_restart e
    then Returns Return (set_stdout (stdout left ++ ["BREAK"]) left)
    else Returns Continue left.
Proof.
  intros Hb Hn Ha Hr left.
  rewrite do_method_call. erewrite mbind_step by exact Hb.
  by erewrite run_method_return.
Qed.






(** C8 (as amended). [reset] puts the original image back as the
    working image, clears the binary image, the gray image and the
    canvas, and leaves the annotations as they are.  A pass is what
    stands before the step loop and then the loop; the container with
    which the loop starts is the container of the state reset, unless
    the session was made with [dry_run], and then it is the container
    as the pass found it.  Without [dry_run] the pass from a state is
    the pass from the state with the container reset. *)
Theorem reset_restores_buffers_and_opens_pass
    execute visualize_ feedback_ (s : St) :
  (image (reset (container s)) = image_copy (container s)
   /\ image_copy (reset (container s)) = image_copy (container s)
   /\ image_bin (reset (container s)) = None
   /\ image_gray (reset (container s)) = None
   /\ canvas (reset (container s)) = None
   /\ annotations (reset (container s)) = annotations (container s))
  /\ steps_of execute feedback_ s
     = (steps <- open_pass flags now execute ;;
        for_each (step_body execute feedback_) 0 steps)%py s
  /\ (forall steps s0,
        open_pass flags now execute s = Returns steps s0 ->
        container s0
        = if dry_run flags then container s else reset (container s))
  /\ (dry_run flags = false ->
      iterate execute visualize_ feedback_ s
      = iterate execute visualize_ feedback_
          (set_container (reset (container s)) s)).
Proof.
  split; [by repeat split|]. split; [apply run_steps_open|]. split.
  - intros steps s0 H. unfold open_pass in H.
    apply mbind_returns in H as (? & s1 & H1 & H). apply modify_returns in H1.
    apply mbind_returns in H as (? & s2 & H2 & H).
    apply mbind_returns in H as (? & s3 & H3 & H).
    apply mbind_returns in H as (? & s4 & H4 & H). apply modify_returns in H4.
    apply mbind_returns in H as (cfg & s5 & H5 & H).
    apply gets_returns in H5 as [-> ->].
    apply mbind_returns in H as (step_list & s5 & H5 & H).
    apply eval_returns in H5 as [_ ->].
    apply mbind_returns in H as (? & s5 & H5 & H). apply modify_returns in H5.
    apply mbind_returns in H as (? & s6 & H6 & H). apply modify_returns in H6.
    apply eval_returns in H as [_ ->]. subst s6 s5 s4. simpl.
    assert (container s2 = container s) as <-.
    { destruct execute; simpl in H2.
      - apply modify_returns in H2. by subst.
      - apply ret_returns in H2 as [_ ->]. by subst. }
    destruct (dry_run flags); simpl in H3.
    + by apply ret_returns in H3 as [_ ->].
    + apply modify_returns in H3. by subst s3.
  - intros Hd. unfold _iterate, mbind. by rewrite run_steps_resets.
Qed.

(** C5 (as amended). In execute mode, when the pass has come to a
    method and the call of [run] for it raises an exception: with
    [debug] off the exception is caught, the exception object is
    appended to [self.log] (the exception alone: step and method are in
    the line that is printed, with the class of the exception and its
    message), and the pass goes on with the methods after it, unless the
    restart flag is up, and then the pass prints [BREAK] and returns;
    with [debug] on the exception leaves the pass at once, and nothing
    is logged. *)
Theorem invocation_error_is_logged_or_propagates
    visualize_ feedback_ (s at_method s2 : St) i sn j m after later
    ann name kw ex e :
  comes_to true feedback_ s i sn j m after later at_method ->
  up_to_call feedback_ i sn j m at_method = Returns ann s2 ->
  method_name s2 = Some name ->
  method_args s2 = Some kw ->
  call name kw ann s2 = Raises ex e ->
  let left := set_pype_restart (env_restart e)
                (set_container (env_container e) s2) in
  let logged := set_stdout
                  (stdout left
                   ++ [location sn name ex +:+ " - " +:+ exn_msg ex])
                  (set_log (log left ++ [ex]) left) in
  (debug flags = true ->
     iterate true visualize_ feedback_ s = Raises ex left)
  /\ (debug flags = false -> env_restart e = false ->
      iterate true visualize_ feedback_ s
      = the_rest true visualize_ feedback_ i sn j after later logged)
  /\ (debug flags = false -> env_restart e = true ->
      iterate true visualize_ feedback_ s
      = Returns tt (set_stdout (stdout logged ++ ["BREAK"]) logged))
  /\ log left = log s2
  /\ log logged = log s2 ++ [ex]
  /\ stdout logged
     = stdout s2
       ++ [(sn +:+ "." +:+ name +:+ ": " +:+ exn_class ex)
           +:+ " - " +:+ exn_msg ex].
Proof.
  intros Hto Hb Hn Ha Hr left logged.
  pose proof (turn_raise _ _ _ _ _ _ Hb Hn Ha Hr) as Hturn.
  cbv zeta in Hturn. fold left logged in Hturn.
  rewrite (arrives_pass visualize_ Hto). unfold mbind. rewrite Hturn.
  split; [by intros ->|]. split; [by intros -> ->|].
  split; [by intros -> ->|]. done.
Qed.

Lemma call_run_keeps_restart f kw ann cnt :
  (forall f kw ann cnt env,
      env_restart (final (container_run f kw ann cnt env)) = env_restart env) ->
  keeps (pype_restart (Image := Image) (Annotation := Annotation)
           (DataFrame := DataFrame))
    (call_run container_run f kw ann cnt).
Proof.
  intros H s. unfold call_run.
  specialize (H f kw ann cnt (mkEnv (container s) (pype_restart s))).
  by destruct (container_run f kw ann cnt _).
Qed.

Lemma iterate_keeps_restart execute visualize_ feedback_ :
  (forall f kw ann cnt env,
      env_restart (final (container_run f kw ann cnt env)) = env_restart env) ->
  keeps (pype_restart (Image := Image) (Annotation := Annotation)
           (DataFrame := DataFrame))
    (iterate execute visualize_ feedback_).
Proof.
  intros Hq.
  unfold _iterate, finish, update_config, final_visualization,
    run_steps, do_step, do_method, execute_method, run_method,
    annotation_params, check_method_exists, bind_method, autoselect_canvas,
    assign_method, mutate_method_args, rebind_method_args, counter_get,
    the_method_name, the_method_args, print.
  repeat first [ by apply call_run_keeps_restart | keeps_step ].
Qed.

Local Abbreviation Ss := (Session.Session (Image := Image)
                            (Annotation := Annotation)
                            (DataFrame := DataFrame)).

Lemma on_pype_keeps {X A} (part : St -> X) (m : M St A) :
  keeps part m ->
  keeps (fun ss : Ss => part (Session.pype ss)) (Session.on_pype m).
Proof.
  intros H ss. unfold Session.on_pype. specialize (H (Session.pype ss)).
  by destruct (m (Session.pype ss)).
Qed.

Lemma read_content_keeps {X} (part : St -> X) :
  keeps (fun ss : Ss => part (Session.pype ss))
    (Session.read_content content).
Proof. by intros ss. Qed.

(** A turn of the loop of [Pype.__init__] in which no call of [run]
    touches the restart flag ends with the flag down, whatever it was
    when the turn began. *)
Lemma loop_body_lowers_restart (ss : Ss) :
  (forall f kw ann cnt env,
      env_restart (final (container_run f kw ann cnt env)) = env_restart env) ->
  pype_restart
    (Session.pype
       (final (Session.loop_body flags config_path namespace container_run
                 gui now content ss))) = false.
Proof.
  intros Hq. unfold Session.loop_body.
  erewrite mbind_step by reflexivity.
  match goal with
  | |- pype_restart (Session.pype (final (?rest ?ss1))) = false =>
      assert (K : keeps (fun ss : Ss => pype_restart (Session.pype ss)) rest);
      [|exact (K ss1)]
  end.
  unfold Session.stop_monitor, Session._start_file_monitor, print.
  repeat first
    [ apply (on_pype_keeps (part := pype_restart)); first
        [ by apply iterate_keeps_restart
        | apply keeps_modify; intros ?; reflexivity ]
    | apply (read_content_keeps pype_restart)
    | keeps_step ].
Qed.

(** C7 (as amended). In execute mode, when the pass has come to a
    method and the restart flag is up after the call of [run] for it,
    whether the call has returned or has raised an exception that is
    caught ([debug] off), the pass prints [BREAK] and returns at once:
    the methods and steps that remain are not run, the configuration is
    not compared or saved.  The pass returns [None], as a pass that runs
    to its end does, and leaves the flag up: the pass reads the flag and
    never lowers it.  The loop of [Pype.__init__] lowers it at the start
    of each turn: a turn in which no call touches the flag ends with the
    flag down, whatever it was when the turn began. *)
Theorem restart_ends_pass_and_stays_set
    visualize_ feedback_ (s at_method s2 : St) i sn j m after later
    ann name kw :
  comes_to true feedback_ s i sn j m after later at_method ->
  up_to_call feedback_ i sn j m at_method = Returns ann s2 ->
  method_name s2 = Some name ->
  method_args s2 = Some kw ->
  (forall e,
      call name kw ann s2 = Returns tt e ->
      env_restart e = true ->
      let left := set_last_print_msg EmptyString
                    (set_pype_restart true
                       (set_container (env_container e) s2)) in
      iterate true visualize_ feedback_ s
      = Returns tt (set_stdout (stdout left ++ ["BREAK"]) left))
  /\ (forall ex e,
        call name kw ann s2 = Raises ex e ->
        env_restart e = true ->
        debug flags = false ->
        let left := set_pype_restart true
                      (set_container (env_container e) s2) in
        let logged := set_stdout
                        (stdout left
                         ++ [location sn name ex +:+ " - " +:+ exn_msg ex])
                        (set_log (log left ++ [ex]) left) in
        iterate true visualize_ feedback_ s
        = Returns tt (set_stdout (stdout logged ++ ["BREAK"]) logged))
  /\ (forall s',
        iterate true visualize_ feedback_ s = Returns tt s' ->
        env_restart (final (call name kw ann s2)) = true ->
        pype_restart s' = true
        /\ container s' = env_container (final (call name kw ann s2))
        /\ saved s' = saved s2
        /\ config_updated s' = config_updated s2
        /\ terminate s' = terminate s2)
  /\ (forall ss : Ss,
        (forall f kw ann cnt env,
            env_restart (final (container_run f kw ann cnt env))
            = env_restart env) ->
        pype_restart
          (Session.pype
             (final (Session.loop_body flags config_path namespace
                       container_run gui now content ss))) = false).
Proof.
  intros Hto Hb Hn Ha.
  assert (Hret : forall e,
      call name kw ann s2 = Returns tt e ->
      env_restart e = true ->
      iterate true visualize_ feedback_ s
      = Returns tt
          (set_stdout
             (stdout (set_last_print_msg EmptyString
                        (set_pype_restart true
                           (set_container (env_container e) s2)))
              ++ ["BREAK"])
             (set_last_print_msg EmptyString
                (set_pype_restart true
                   (set_container (env_container e) s2))))).
  { intros e Hr He.
    pose proof (turn_return _ _ _ _ _ _ Hb Hn Ha Hr) as Hturn.
    cbv zeta in Hturn. rewrite He in Hturn.
    rewrite (arrives_pass visualize_ Hto). unfold mbind. by rewrite Hturn. }
  assert (Hexc : forall ex e,
      call name kw ann s2 = Raises ex e ->
      env_restart e = true ->
      debug flags = false ->
      let left := set_pype_restart true
                    (set_container (env_container e) s2) in
      let logged := set_stdout
                      (stdout left
                       ++ [location sn name ex +:+ " - " +:+ exn_msg ex])
                      (set_log (log left ++ [ex]) left) in
      iterate true visualize_ feedback_ s
      = Returns tt (set_stdout (stdout logged ++ ["BREAK"]) logged)).
  { intros ex e Hr He Hd left logged.
    pose proof (turn_raise _ _ _ _ _ _ Hb Hn Ha Hr) as Hturn.
    cbv zeta in Hturn. rewrite He, Hd in Hturn.
    rewrite (arrives_pass visualize_ Hto). unfold mbind. by rewrite Hturn. }
  split; [exact Hret|]. split; [exact Hexc|]. split.
  - intros s' Hs' Hup.
    destruct (call name kw ann s2) as [[] e|ex e] eqn:Hr; simpl in Hup.
    + rewrite (Hret e eq_refl Hup) in Hs'. by injection Hs' as <-.
    + pose proof (turn_raise _ _ _ _ _ _ Hb Hn Ha Hr) as Hturn.
      cbv zeta in Hturn. rewrite Hup in Hturn.
      rewrite (arrives_pass visualize_ Hto) in Hs'. unfold mbind in Hs'.
      rewrite Hturn in Hs'.
      destruct (debug flags); [done|]. by injection Hs' as <-.
  - intros ss Hq. by apply loop_body_lowers_restart.
Qed.


End Turns.

(* ===================================================================== *)
(** * Equality of configurations *)
(* ===================================================================== *)

Section EqFacts.
Import Py.

(** Induction on a value, with the property at hand for the elements of
    a sequence and for the values of a mapping. *)
Lemma value_induction (P : value -> Prop) :
  P VNone ->
  (forall b, P (VBool b)) ->
  (forall n, P (VInt n)) ->
  (forall s, P (VStr s)) ->
  (forall xs, Forall P xs -> P (VSeq xs)) ->
  (forall kvs, Forall (fun kv => P (snd kv)) kvs -> P (VMap kvs)) ->
  forall v, P v.
Proof.
  intros HN HB HI HS HQ HM.
  fix IH 1. intros [| b | n | s | xs | kvs].
  - exact HN.
  - apply HB.
  - apply HI.
  - apply HS.
  - apply HQ. induction xs as [|x xs IHxs]; constructor; [apply IH|exact IHxs].
  - apply HM. induction kvs as [|[k v] kvs IHkvs]; constructor;
      [apply IH|exact IHkvs].
Qed.

Lemma get_None_keys {V} k (d : list (string * V)) :
  get k d = None <-> ~ In k (keys d).
Proof.
  induction d as [|[k' v'] d IH]; simpl; [tauto|].
  destruct (String.eqb k k') eqn:E.
  - apply String.eqb_eq in E. subst. split; [done|]. intros H. tauto.
  - rewrite IH. apply String.eqb_neq in E. split; [|tauto].
    intros H [Heq|Hin]; [congruence|tauto].
Qed.

Lemma In_get {V} k (v : V) d :
  List.NoDup (keys d) -> In (k, v) d -> get k d = Some v.
Proof.
  induction d as [|[k' v'] d IH]; simpl; [done|].
  intros Hnd [Heq|Hin].
  - injection Heq as -> ->. by rewrite String.eqb_refl.
  - apply List.NoDup_cons_iff in Hnd as [Hk Hnd].
    destruct (String.eqb k k') eqn:E.
    + apply String.eqb_eq in E. subst. exfalso. apply Hk.
      change k' with (fst (k', v)). by apply in_map.
    + by apply IH.
Qed.

Lemma wf_value_map kvs :
  wf_value (VMap kvs) = true ->
  List.NoDup (keys kvs) /\ Forall (fun kv => wf_value (snd kv) = true) kvs.
Proof.
  simpl. intros [Hnd Hall]%andb_prop. split.
  - apply bool_decide_eq_true in Hnd. by apply NoDup_ListNoDup.
  - clear Hnd. induction kvs as [|kv kvs IH]; [constructor|].
    apply andb_prop in Hall as [H1 H2]. constructor; [done|by apply IH].
Qed.

Lemma wf_value_seq xs :
  wf_value (VSeq xs) = true -> Forall (fun x => wf_value x = true) xs.
Proof.
  simpl. intros H. apply Forall_forall. intros x Hx.
  rewrite forallb_forall in H. apply H. by apply list_elem_of_In.
Qed.

Lemma py_eq_seq_intro xs ys :
  Forall2 (fun x y => py_eq x y = true) xs ys ->
  py_eq (VSeq xs) (VSeq ys) = true.
Proof.
  simpl. induction 1 as [|x y xs ys Hxy _ IH]; [done|].
  by rewrite Hxy, IH.
Qed.

Lemma py_eq_map_intro d1 d2 :
  length d1 = length d2 ->
  (forall k v, In (k, v) d1 ->
     exists v', get k d2 = Some v' /\ py_eq v v' = true) ->
  py_eq (VMap d1) (VMap d2) = true.
Proof.
  intros Hlen H. simpl. rewrite Hlen, Nat.eqb_refl. simpl.
  clear Hlen. induction d1 as [|[k v] d1 IH]; [done|].
  destruct (H k v) as (v' & Hg & He); [by left|]. simpl.
  rewrite Hg, He. simpl. apply IH. intros. apply H. by right.
Qed.

Lemma py_eq_refl v : wf_value v = true -> py_eq v v = true.
Proof.
  induction v as [| b | n | s | xs IH | kvs IH] using value_induction;
    intros Hwf.
  - done.
  - by destruct b.
  - apply Z.eqb_refl.
  - apply String.eqb_refl.
  - apply py_eq_seq_intro. apply wf_value_seq in Hwf.
    induction xs as [|x xs IHxs]; [constructor|].
    apply Forall_cons in IH as [Hx IH]. apply Forall_cons in Hwf as [Hw Hwf].
    constructor; [by apply Hx|by apply IHxs].
  - apply wf_value_map in Hwf as [Hnd Hwf].
    apply py_eq_map_intro; [done|]. intros k v Hin.
    exists v. split; [by apply In_get|].
    rewrite Forall_forall in IH, Hwf.
    apply (IH (k, v)).
    + by apply list_elem_of_In.
    + apply (Hwf (k, v)). by apply list_elem_of_In.
Qed.

Lemma keys_set_item_present {V} k (v : V) d :
  mem k d = true -> keys (set_item k v d) = keys d.
Proof.
  unfold mem, keys. induction d as [|[k' v'] d IH]; simpl; [done|].
  destruct (String.eqb k k') eqn:E; simpl.
  - apply String.eqb_eq in E. by subst.
  - intros H. by rewrite IH.
Qed.

(** Putting an equal value under a key that is there gives an equal
    mapping. *)
Lemma py_eq_set_item k v v' d :
  List.NoDup (keys d) ->
  get k d = Some v ->
  py_eq v' v = true ->
  Forall (fun kv => wf_value (snd kv) = true) d ->
  py_eq (VMap (set_item k v' d)) (VMap d) = true.
Proof.
  intros Hnd Hg He Hwf.
  assert (Hmem : mem k d = true) by (unfold mem; by rewrite Hg).
  apply py_eq_map_intro; [by apply length_set_item_present|].
  intros k0 v0 Hin.
  apply In_get in Hin; [|by rewrite keys_set_item_present].
  rewrite get_set_item in Hin.
  destruct (String.eqb k0 k) eqn:E.
  - apply String.eqb_eq in E. subst k0. injection Hin as <-. eauto.
  - exists v0. split; [done|]. apply py_eq_refl.
    rewrite Forall_forall in Hwf. apply (Hwf (k0, v0)).
    apply list_elem_of_In. by apply get_Some_In.
Qed.

Lemma set_item_absent {V} k (v : V) d :
  ~ In k (keys d) -> set_item k v d = d ++ [(k, v)].
Proof.
  induction d as [|[k' v'] d IH]; simpl; [done|].
  intros H. destruct (String.eqb k k') eqn:E.
  - apply String.eqb_eq in E. subst. tauto.
  - rewrite IH; [done|tauto].
Qed.

Lemma update_fresh {V} (e : list (string * V)) :
  forall d,
    List.NoDup (keys e) ->
    (forall k, In k (keys e) -> ~ In k (keys d)) ->
    update d e = d ++ e.
Proof.
  unfold update. induction e as [|[k v] e IH]; intros d Hnd Hdis; simpl.
  - by rewrite app_nil_r.
  - apply List.NoDup_cons_iff in Hnd as [Hk Hnd].
    rewrite set_item_absent by (apply Hdis; by left).
    rewrite IH; [by rewrite <- app_assoc|done|].
    intros k0 Hk0. unfold keys. rewrite map_app, in_app_iff. simpl.
    intros [Hin|[<-|[]]]; [|done]. eapply Hdis; [right; exact Hk0|done].
Qed.

Lemma In_del_item {V} k (d : list (string * V)) k0 v0 :
  In (k0, v0) (del_item k d) <-> k0 <> k /\ In (k0, v0) d.
Proof.
  induction d as [|[k' v'] d IH]; simpl; [tauto|].
  destruct (String.eqb k k') eqn:E.
  - apply String.eqb_eq in E. subst k'. rewrite IH. split; [tauto|].
    intros [Hne [[= <- <-]|Hin]]; [done|tauto].
  - apply String.eqb_neq in E. simpl. rewrite IH. split.
    + intros [[= <- <-]|[? ?]]; [split; [congruence|by left]|tauto].
    + tauto.
Qed.

Lemma keys_del_item {V} k (d : list (string * V)) k0 :
  In k0 (keys (del_item k d)) <-> k0 <> k /\ In k0 (keys d).
Proof.
  induction d as [|[k' v'] d IH]; simpl; [tauto|].
  destruct (String.eqb k k') eqn:E.
  - apply String.eqb_eq in E. subst k'. rewrite IH. split; [tauto|].
    intros [Hne [<-|Hin]]; [done|tauto].
  - apply String.eqb_neq in E. simpl. rewrite IH. split.
    + intros [<-|[? ?]]; [split; [congruence|by left]|tauto].
    + tauto.
Qed.

Lemma NoDup_del_item {V} k (d : list (string * V)) :
  List.NoDup (keys d) -> List.NoDup (keys (del_item k d)).
Proof.
  induction d as [|[k' v'] d IH]; simpl; [done|].
  intros [Hk Hnd]%List.NoDup_cons_iff.
  destruct (String.eqb k k'); [by apply IH|]. simpl.
  apply List.NoDup_cons; [|by apply IH].
  rewrite keys_del_item. tauto.
Qed.

Lemma length_del_item {V} k (v : V) d :
  List.NoDup (keys d) -> get k d = Some v ->
  S (length (del_item k d)) = length d.
Proof.
  induction d as [|[k' v'] d IH]; simpl; [done|].
  intros [Hk Hnd]%List.NoDup_cons_iff.
  destruct (String.eqb k k') eqn:E.
  - apply String.eqb_eq in E. subst k'. intros _.
    rewrite del_item_absent; [done|]. by apply get_None_keys.
  - intros H. simpl. by rewrite IH.
Qed.

(** The control block moved to the front of the arguments: the same
    mapping. *)
Lemma py_eq_block_front args block :
  wf_value (VMap args) = true ->
  get "ANNOTATION" args = Some block ->
  py_eq (VMap (update [("ANNOTATION", block)] (del_item "ANNOTATION" args)))
    (VMap args) = true.
Proof.
  intros [Hnd Hwf]%wf_value_map Hg.
  rewrite update_fresh.
  - apply py_eq_map_intro.
    + simpl. by erewrite length_del_item.
    + intros k v [[= <- <-]|Hin].
      * exists block. split; [done|]. apply py_eq_refl.
        rewrite Forall_forall in Hwf. apply (Hwf ("ANNOTATION", block)).
        apply list_elem_of_In. by apply get_Some_In.
      * apply In_del_item in Hin as [Hne Hin]. exists v.
        split; [by apply In_get|]. apply py_eq_refl.
        rewrite Forall_forall in Hwf. apply (Hwf (k, v)).
        by apply list_elem_of_In.
  - by apply NoDup_del_item.
  - intros k [Hne _]%keys_del_item. simpl. intros [<-|[]]. done.
Qed.

End EqFacts.

Section NormalFacts.
Import Py Settings Main Outline.
Variable flags : Flags.
Variable namespace : string -> res (string -> bool).

#[local] Opaque _legacy_names _annotation_functions.

Lemma completed_block_full name ty c b :
  mem "type" b = true -> mem "id" b = true -> mem "edit" b = true ->
  completed_block name ty c b = Some b.
Proof.
  intros Ht Hi He. unfold completed_block. by rewrite Ht, Hi, He.
Qed.

(** A method of a normalized configuration is left as it is, up to the
    place of the control block among the arguments. *)
Lemma normalized_entry_eq execute feedback_ sn ns m c out c' :
  namespace sn = Ok ns ->
  normalized_method ns m = true ->
  wf_value m = true ->
  entry_out flags namespace execute feedback_ sn m c = Some (out, c') ->
  py_eq out m = true.
Proof.
  intros Hns Hnorm Hwf H.
  assert (Hplain : forall name args,
            method_parts m = Some (name, args) ->
            ns name = true ->
            mem name _annotation_functions = false ->
            py_eq out m = true).
  { intros name args Hp Hk Hann. unfold entry_out, resolve in H.
    rewrite Hp, Hns, Hk in H. unfold mem in Hann.
    destruct (get name _annotation_functions); [done|].
    injection H as <- _. by apply py_eq_refl. }
  destruct m as [| | |name| |kvs]; try done.
  - simpl in Hnorm. apply andb_prop in Hnorm as [Hk Hann].
    apply negb_true_iff in Hann. by eapply Hplain.
  - simpl in Hnorm.
    destruct kvs as [|[name v] [|]]; try done; [|by destruct v].
    destruct v as [| | | | |args]; try done.
    + apply andb_prop in Hnorm as [Hk Hann].
      apply negb_true_iff in Hann. by eapply Hplain.
    + apply andb_prop in Hnorm as [Hk Hann].
      destruct (mem name _annotation_functions) eqn:Hmem;
        [|by eapply Hplain].
      simpl in Hann. unfold full_block in Hann.
      destruct (get "ANNOTATION" args) as [[| | | | |b]|] eqn:Hb; try done.
      apply andb_prop in Hann as [[Ht Hi]%andb_prop He].
      unfold entry_out, resolve in H. simpl in H. rewrite Hns, Hk in H.
      unfold mem in Hmem.
      destruct (get name _annotation_functions) as [ty|]; [|done].
      destruct (c !! ty) as [n|]; [|done].
      unfold control_block in H. rewrite Hb in H. simpl py_dict in H.
      cbv beta iota in H.
      rewrite completed_block_full in H by done.
      injection H as <- _.
      apply wf_value_map in Hwf as [_ Hwf].
      apply Forall_cons in Hwf as [Hwf _]. simpl in Hwf.
      apply py_eq_map_intro; [done|].
      intros k v [[= <- <-]|[]]. eexists. split.
      * simpl. rewrite String.eqb_refl. reflexivity.
      * by apply py_eq_block_front.
Qed.

Lemma normalized_entries_eq execute feedback_ sn ns ms :
  namespace sn = Ok ns ->
  forall c outs c',
    forallb (normalized_method ns) ms = true ->
    Forall (fun m => wf_value m = true) ms ->
    entries_out flags namespace execute feedback_ sn ms c = Some (outs, c') ->
    Forall2 (fun x y => py_eq x y = true) outs ms.
Proof.
  intros Hns. induction ms as [|m ms IH]; intros c outs c' Hn Hwf H.
  - injection H as <- _. constructor.
  - simpl in H, Hn. apply andb_prop in Hn as [Hm Hn].
    apply Forall_cons in Hwf as [Hw Hwf].
    destruct (entry_out _ _ _ _ sn m c) as [[out c1]|] eqn:E; [|done].
    destruct (entries_out _ _ _ _ sn ms c1) as [[outs' c2]|] eqn:E';
      [|done].
    injection H as <- _. constructor.
    + by eapply normalized_entry_eq.
    + by eapply IH.
Qed.

Lemma normalized_step_eq execute feedback_ step c out c' :
  normalized_step namespace step = true ->
  wf_value step = true ->
  step_out flags namespace execute feedback_ step c = Some (out, c') ->
  py_eq out step = true.
Proof.
  intros Hn Hwf H. unfold step_out in H.
  destruct step as [| | | | |[|[sn v] rest]];
    try (injection H as <- _; by apply py_eq_refl).
  destruct v as [| | | |ms|];
    try (injection H as <- _; by apply py_eq_refl).
  destruct (entries_out _ _ _ _ sn ms c) as [[outs c1]|] eqn:E; [|done].
  injection H as <- _. simpl in Hn.
  destruct (namespace sn) as [ns|] eqn:Hns; [|done].
  pose proof Hwf as [Hnd Hall]%wf_value_map.
  assert (set_item sn (VSeq outs) ((sn, VSeq ms) :: rest)
          = (sn, VSeq outs) :: rest) as <-
    by (simpl; by rewrite String.eqb_refl).
  eapply py_eq_set_item; [done| |  |done].
  - simpl. by rewrite String.eqb_refl.
  - apply py_eq_seq_intro. eapply normalized_entries_eq; [done..| |done].
    apply Forall_cons in Hall as [Hms _]. simpl in Hms.
    by apply wf_value_seq.
Qed.

Lemma normalized_steps_eq execute feedback_ steps :
  forall c outs c',
    forallb (normalized_step namespace) steps = true ->
    Forall (fun x => wf_value x = true) steps ->
    steps_out flags namespace execute feedback_ steps c = Some (outs, c') ->
    Forall2 (fun x y => py_eq x y = true) outs steps.
Proof.
  induction steps as [|step steps IH]; intros c outs c' Hn Hwf H.
  - injection H as <- _. constructor.
  - simpl in H, Hn. apply andb_prop in Hn as [Hm Hn].
    apply Forall_cons in Hwf as [Hw Hwf].
    destruct (step_out _ _ _ _ step c) as [[out c1]|] eqn:E; [|done].
    destruct (steps_out _ _ _ _ steps c1) as [[outs' c2]|] eqn:E'; [|done].
    injection H as <- _. constructor.
    + by eapply normalized_step_eq.
    + by eapply IH.
Qed.

(** A pass over a normalized configuration leaves an updated
    configuration that [==] does not tell from it. *)
Lemma normalized_put_steps_eq execute feedback_ cfg steps c outs c' :
  normalized namespace cfg = true ->
  processing_steps cfg = Some steps ->
  steps_out flags namespace execute feedback_ steps c = Some (outs, c') ->
  py_eq (put_steps outs cfg) cfg = true.
Proof.
  intros [Hwf Hn]%andb_prop Hs H. rewrite Hs in Hn.
  unfold processing_steps in Hs. destruct cfg as [| | | | |top]; try done.
  destruct (get "processing_steps" top) as [[| | | |l|]|] eqn:Hg; try done.
  injection Hs as ->. simpl.
  pose proof Hwf as [Hnd Hall]%wf_value_map.
  eapply py_eq_set_item; [done|done| |done].
  apply py_eq_seq_intro. eapply normalized_steps_eq; [done| |done].
  apply wf_value_seq. rewrite Forall_forall in Hall.
  apply (Hall ("processing_steps", VSeq steps)).
  apply list_elem_of_In. by apply get_Some_In.
Qed.

Lemma normalized_named cfg :
  normalized namespace cfg = true -> methods_named cfg = true.
Proof.
  intros [_ Hn]%andb_prop. unfold methods_named.
  destruct (processing_steps cfg) as [steps|]; [|done].
  apply forallb_forall. intros step Hin.
  rewrite forallb_forall in Hn. specialize (Hn _ Hin).
  unfold named_step, step_methods. unfold normalized_step in Hn.
  destruct step as [| | | | |[|[sn v] rest]]; try done.
  destruct v as [| | | |ms|]; try done.
  destruct (namespace sn) as [ns|]; [|done].
  apply forallb_forall. intros m Hm. rewrite forallb_forall in Hn.
  specialize (Hn _ Hm). by destruct m.
Qed.

End NormalFacts.

(* ===================================================================== *)
(** * Rewriting the configuration file *)
(* ===================================================================== *)

Section SaveFacts.
Import Py Settings Utils Main Outline.
Context {Image Annotation DataFrame : Type}.
Variable flags : Flags.
Variable config_path : string.
Variable namespace : string -> res (string -> bool).
Variable container_run :
  string -> option (list (string * value)) -> option value
  -> option (gmap string Z)
  -> M (Env (Image := Image) (Annotation := Annotation)
            (DataFrame := DataFrame)) unit.
Variable gui : option Image -> res bool.
Variable now : string.

Local Abbreviation St := (State (Image := Image) (Annotation := Annotation)
                            (DataFrame := DataFrame)).
Local Abbreviation iterate :=
  (_iterate flags config_path namespace container_run gui now).
Local Abbreviation steps_of := (run_steps flags namespace container_run now).

Lemma update_config_saved (s : St) :
  exists s',
    update_config config_path s = Returns tt s'
    /\ saved s'
       = saved s ++ (if py_eq (config_updated s) (config s) then []
                     else [(config_path, config_updated s)]).
Proof.
  unfold update_config, mbind, gets. simpl.
  destruct (py_eq (config_updated s) (config s)); simpl.
  - eexists. split; [reflexivity|]. by rewrite app_nil_r.
  - eexists. split; [reflexivity|]. done.
Qed.

Lemma final_visualization_keeps_saved execute visualize_ feedback_ :
  keeps (saved (Image := Image) (Annotation := Annotation)
           (DataFrame := DataFrame))
    (final_visualization container_run gui execute visualize_ feedback_).
Proof. unfold final_visualization, print. keeps_tac. Qed.

Lemma finish_saved execute visualize_ feedback_ (s : St) :
  saved (final (finish config_path container_run gui execute visualize_
                  feedback_ s))
  = saved s ++ (if py_eq (config_updated s) (config s) then []
                else [(config_path, config_updated s)]).
Proof.
  unfold finish, mbind.
  destruct (update_config_saved s) as (s' & -> & <-).
  apply final_visualization_keeps_saved.
Qed.

(** C2 (as amended). A pass that runs to the end of the step loop
    writes the updated configuration to the file of the configuration
    exactly when [==] tells it from the configuration (the order of the
    keys of a mapping does not count for [==], the order of a sequence
    does); a pass that the restart flag or an exception ends writes
    nothing.  A pass over a normalized configuration writes nothing,
    however it ends, and if it runs to the end of the step loop its
    updated configuration is [==] to the configuration. *)
Theorem config_is_saved_when_changed execute visualize_ feedback_ (s : St) :
  (forall s1,
      steps_of execute feedback_ s = Returns Continue s1 ->
      config s1 = config s
      /\ saved (final (iterate execute visualize_ feedback_ s))
         = saved s ++ (if py_eq (config_updated s1) (config s) then []
                       else [(config_path, config_updated s1)]))
  /\ (forall s1,
        steps_of execute feedback_ s = Returns Return s1 ->
        saved (final (iterate execute visualize_ feedback_ s)) = saved s)
  /\ (forall ex s1,
        steps_of execute feedback_ s = Raises ex s1 ->
        saved (final (iterate execute visualize_ feedback_ s)) = saved s)
  /\ (normalized namespace (config s) = true ->
      saved (final (iterate execute visualize_ feedback_ s)) = saved s
      /\ forall s1,
           steps_of execute feedback_ s = Returns Continue s1 ->
           py_eq (config_updated s1) (config s) = true).
Proof.
  assert (Hdone : forall s1,
      steps_of execute feedback_ s = Returns Continue s1 ->
      config s1 = config s
      /\ saved (final (iterate execute visualize_ feedback_ s))
         = saved s ++ (if py_eq (config_updated s1) (config s) then []
                       else [(config_path, config_updated s1)])).
  { intros s1 H.
    pose proof (keeps_returns _ (run_steps_keeps_config _ _ _ _ _ _) H)
      as Hc.
    pose proof (keeps_returns _ (run_steps_keeps_saved _ _ _ _ _ _) H)
      as Hs.
    split; [done|]. unfold _iterate, mbind. rewrite H.
    by rewrite finish_saved, Hc, Hs. }
  assert (Hret : forall s1,
      steps_of execute feedback_ s = Returns Return s1 ->
      saved (final (iterate execute visualize_ feedback_ s)) = saved s).
  { intros s1 H. unfold _iterate, mbind. rewrite H. simpl.
    by eapply keeps_returns; [apply run_steps_keeps_saved|]. }
  assert (Hexc : forall ex s1,
      steps_of execute feedback_ s = Raises ex s1 ->
      saved (final (iterate execute visualize_ feedback_ s)) = saved s).
  { intros ex s1 H. unfold _iterate, mbind. rewrite H. simpl.
    by eapply keeps_raises; [apply run_steps_keeps_saved|]. }
  split; [done|]. split; [done|]. split; [done|].
  intros Hnorm.
  assert (Heq : forall s1,
      steps_of execute feedback_ s = Returns Continue s1 ->
      py_eq (config_updated s1) (config s) = true).
  { intros s1 H.
    pose proof Hnorm as [_ Hs]%andb_prop.
    destruct (processing_steps (config s)) as [steps|] eqn:Hsteps; [|done].
    eapply run_steps_out in H as (outs & cnt & _ & Hout & _ & ->);
      [|by eapply normalized_named|done].
    by eapply normalized_put_steps_eq. }
  split; [|done].
  destruct (steps_of execute feedback_ s) as [[] s1|ex s1] eqn:H.
  - destruct (Hdone s1 eq_refl) as [_ ->]. rewrite Heq by done.
    by rewrite app_nil_r.
  - by eapply Hret.
  - by eapply Hexc.
Qed.

End SaveFacts.

(* ===================================================================== *)
(** * The scenario: one threshold on a fresh session *)
(* ===================================================================== *)

Section Scenario.
Import Py Settings Utils Main Outline Glue.
Context {Image Annotation DataFrame : Type}.
Variable core : Core Image Annotation.
Variable default_kwargs : list (string * arg Annotation).
Variable flags : Flags.
Variable config_path : string.
Variable namespace : string -> res (string -> bool).
Variable gui : option Image -> res bool.
Variable now : string.

Local Abbreviation St := (State (Image := Image) (Annotation := Annotation)
                            (DataFrame := DataFrame)).
Local Abbreviation C := (Container Image Annotation DataFrame).

#[local] Opaque _legacy_names _annotation_functions.

Local Abbreviation bound :=
  (source_run (DataFrame := DataFrame) core default_kwargs).
Local Abbreviation iterate :=
  (_iterate flags config_path namespace bound gui now).

(** [run("select_canvas")]: the function is none of those that [run]
    compares with, the container stays as it is. *)
Lemma run_select_canvas_keeps_container (c : C) kw :
  self (final (run core "select_canvas" None (mkFrame c kw))) = c.
Proof.
  unfold run, mbind, annotations_get, gets, mbind. simpl.
  destruct (annotations c !! "masks") as [masks|]; simpl; [|done].
  by destruct (masks !! None).
Qed.

Lemma select_canvas_keeps_container :
  keeps (container (Image := Image) (Annotation := Annotation)
           (DataFrame := DataFrame))
    (call_run bound "select_canvas" None None None).
Proof.
  intros s. unfold call_run, source_run. simpl.
  pose proof (run_select_canvas_keeps_container (container s) default_kwargs)
    as H.
  by destruct (run core "select_canvas" None _).
Qed.

Lemma final_visualization_keeps_container visualize_ feedback_ :
  keeps (container (Image := Image) (Annotation := Annotation)
           (DataFrame := DataFrame))
    (final_visualization bound gui true visualize_ feedback_).
Proof.
  unfold final_visualization, print.
  repeat first [ apply select_canvas_keeps_container | keeps_step ].
Qed.

Lemma final_visualization_keeps_written visualize_ feedback_ :
  keeps (fun s : St => (log s, saved s, config_updated s))
    (final_visualization bound gui true visualize_ feedback_).
Proof. unfold final_visualization, print. keeps_tac. Qed.

Lemma final_visualization_returns visualize_ feedback_ (s : St) :
  exists s',
    final_visualization bound gui true visualize_ feedback_ s = Returns tt s'.
Proof.
  unfold final_visualization. erewrite mbind_step by reflexivity.
  destruct (visualize_ && feedback_); [|by eexists].
  unfold try_except.
  match goal with
  | |- context [match ?body ?s1 with _ => _ end] =>
      destruct (body s1) as [[] s2|ex s2]
  end; by eexists.
Qed.

(** The turn of [threshold]: the call is refused, the exception is
    logged, the loop goes on. *)
Lemma threshold_method_is_refused feedback_ i j (s : St) ns :
  namespace "segmentation" = Ok ns ->
  debug flags = false ->
  pype_restart s = false ->
  exists s',
    do_method flags namespace bound true feedback_ i "segmentation" j
      (VMap [("threshold", VMap [("method", VStr "otsu")])]) s
    = Returns Continue s'
    /\ container s' = container s
    /\ log s' = log s ++ [unexpected_keyword "fun_kwargs"]
    /\ saved s' = saved s
    /\ config s' = config s
    /\ config_updated s' = config_updated s.
Proof.
  intros Hns Hd Hr.
  unfold do_method.
  erewrite mbind_step by reflexivity.
  erewrite mbind_step by reflexivity.
  (* the name is checked, nothing is written *)
  set (s1 := set_stdout _ _).
  assert (exists s2,
    check_method_exists flags namespace i "segmentation" j s1
      = Returns tt s2
    /\ container s2 = container s /\ log s2 = log s /\ saved s2 = saved s
    /\ config s2 = config s /\ config_updated s2 = config_updated s
    /\ pype_restart s2 = pype_restart s
    /\ method_name s2 = Some "threshold"
    /\ method_args s2 = Some [("method", VStr "otsu")]
    /\ aliases s2 = [])
    as (s2 & Hc & Hc2 & Hl2 & Hs2 & Hcf2 & Hcu2 & Hr2 & Hn2 & Ha2 & Hal2).
  { unfold check_method_exists.
    erewrite mbind_step by reflexivity.
    erewrite mbind_step by (rewrite Hns; reflexivity).
    destruct (ns "threshold").
    - eexists. split; [reflexivity|]. by repeat split.
    - destruct (fix_names flags).
      + eexists. split; [reflexivity|]. by repeat split.
      + eexists. split; [reflexivity|]. by repeat split. }
  erewrite mbind_step by exact Hc.
  erewrite mbind_step.
  2:{ unfold annotation_params.
      erewrite mbind_step by (by apply the_method_name_ok).
      reflexivity. }
  unfold execute_method.
  (* the arguments, with [passive] when there is no feedback *)
  assert (exists s3 kw,
    when (negb feedback_)
      (mutate_method_args (set_item "passive" (VBool true))) s2
      = Returns tt s3
    /\ container s3 = container s /\ log s3 = log s /\ saved s3 = saved s
    /\ config s3 = config s /\ config_updated s3 = config_updated s
    /\ pype_restart s3 = pype_restart s
    /\ method_name s3 = Some "threshold"
    /\ method_args s3 = Some kw)
    as (s3 & kw & Hp & Hc3 & Hl3 & Hs3 & Hcf3 & Hcu3 & Hr3 & Hn3 & Ha3).
  { destruct feedback_; simpl.
    - exists s2. eexists. by repeat split.
    - erewrite mutate_method_args_ok by done.
      eexists _, _. split; [reflexivity|]. by repeat split. }
  erewrite mbind_step by exact Hp.
  erewrite run_method_raise; [| exact Hn3 | exact Ha3 | reflexivity].
  rewrite Hd. simpl. rewrite Hr3, Hr.
  eexists. split; [reflexivity|]. simpl. rewrite Hl3. by repeat split.
Qed.

Lemma threshold_steps_are_refused feedback_ (s : St) ns :
  config s = threshold_config ->
  namespace "segmentation" = Ok ns ->
  dry_run flags = false ->
  debug flags = false ->
  pype_restart s = false ->
  exists s',
    run_steps flags namespace bound now true feedback_ s = Returns Continue s'
    /\ container s' = reset (container s)
    /\ log s' = log s ++ [unexpected_keyword "fun_kwargs"]
    /\ saved s' = saved s
    /\ config s' = config s
    /\ config_updated s' = config s.
Proof.
  intros Hcfg Hns Hdry Hd Hr.
  unfold run_steps. rewrite Hdry.
  erewrite mbind_step by reflexivity.
  erewrite mbind_step by reflexivity.
  erewrite mbind_step by reflexivity.
  erewrite mbind_step by reflexivity.
  erewrite mbind_step by reflexivity.
  simpl config. rewrite Hcfg.
  erewrite mbind_step by reflexivity.
  erewrite mbind_step by reflexivity.
  erewrite mbind_step by reflexivity.
  erewrite mbind_step by reflexivity.
  set (s0 := set_config_parsed_flattened _ _).
  assert (exists s1,
    do_step flags namespace bound true feedback_ 0
      (VMap [("segmentation",
              VSeq [VMap [("threshold", VMap [("method", VStr "otsu")])]])])
      s0 = Returns Continue s1
    /\ container s1 = reset (container s)
    /\ log s1 = log s ++ [unexpected_keyword "fun_kwargs"]
    /\ saved s1 = saved s
    /\ config s1 = threshold_config /\ config_updated s1 = threshold_config)
    as (s1 & H1 & Hc1 & Hl1 & Hs1 & Hcf1 & Hcu1).
  { unfold do_step. cbv beta iota delta [is_str].
    erewrite mbind_step by reflexivity.
    erewrite mbind_step by reflexivity.
    erewrite mbind_step by reflexivity.
    erewrite mbind_step by reflexivity.
    cbv beta iota delta [is_none].
    erewrite mbind_step by reflexivity.
    erewrite mbind_step by reflexivity.
    erewrite mbind_step by reflexivity.
    simpl for_each.
    edestruct threshold_method_is_refused with (feedback_ := feedback_)
      (i := 0) (j := 0) as (s1 & H1 & Hc1 & Hl1 & Hs1 & Hcf1 & Hcu1);
      [exact Hns|exact Hd| |].
    2:{ erewrite mbind_step by exact H1. eexists. split; [reflexivity|].
        rewrite Hc1, Hl1, Hs1, Hcf1, Hcu1. simpl. by repeat split. }
    exact Hr. }
  simpl for_each. erewrite mbind_step by exact H1.
  exists s1. split; [reflexivity|]. by repeat split.
Qed.

(** C9, as the sources have it. The configuration holds one step,
    [segmentation], with the one method [threshold] ([method: otsu]);
    the session is fresh (the restart flag down, [debug] and [dry_run]
    off).  The call of [run] for [threshold] names keywords that the
    [run] of [utils.py] does not have: it raises [TypeError], which the
    pass catches and logs.  The pass runs to its end with one entry in
    the log; no operation has been called: the container is the
    container of the state reset, with no binary image, and the working
    image is the original; the updated configuration is the
    configuration, and nothing is written. *)
Theorem threshold_call_is_refused visualize_ feedback_ (s : St) ns :
  config s = threshold_config ->
  namespace "segmentation" = Ok ns ->
  dry_run flags = false ->
  debug flags = false ->
  pype_restart s = false ->
  exists s',
    iterate true visualize_ feedback_ s = Returns tt s'
    /\ log s' = log s ++ [unexpected_keyword "fun_kwargs"]
    /\ container s' = reset (container s)
    /\ image_bin (container s') = None
    /\ image (container s') = image_copy (container s)
    /\ config_updated s' = config s
    /\ saved s' = saved s.
Proof.
  intros Hcfg Hns Hdry Hd Hr.
  edestruct threshold_steps_are_refused with (feedback_ := feedback_)
    as (s1 & H1 & Hc1 & Hl1 & Hs1 & Hcf1 & Hcu1);
    [exact Hcfg|exact Hns|exact Hdry|exact Hd|exact Hr|].
  unfold _iterate. erewrite mbind_step by exact H1.
  unfold finish.
  assert (Hu : update_config config_path s1 = Returns tt s1).
  { unfold update_config, mbind, gets. simpl.
    rewrite Hcu1, Hcf1, Hcfg. reflexivity. }
  erewrite mbind_step by exact Hu.
  destruct (final_visualization_returns visualize_ feedback_ s1)
    as (s2 & H2).
  pose proof (keeps_returns _
                (final_visualization_keeps_container visualize_ feedback_) H2)
    as Hc2.
  pose proof (keeps_returns _
                (final_visualization_keeps_written visualize_ feedback_) H2)
    as [= Hl2 Hs2 Hcu2].
  exists s2. split; [exact H2|].
  rewrite Hc2, Hl2, Hs2, Hcu2, Hc1, Hcu1, Hl1, Hs1. by repeat split.
Qed.

End Scenario.

(* ===================================================================== *)
(** * The statements at concrete sessions *)
(* ===================================================================== *)

Section Examples.
Import Py Settings Utils Main Outline Glue Demo.

Ltac by_running := vm_compute; reflexivity.

(** A pass in execute mode comes to the first method of its first
    step. *)
Ltac first_method cfg fl r :=
  exists [], [], [], (at_loop fl cfg), (at_loop fl cfg),
    (at_first_method fl r cfg);
  repeat apply conj; by_running.

(** C8, an instance: the container on which steps have worked, in a
    [Pype] with the default flags. *)
Lemma reset_restores_buffers_and_opens_pass_witness :
  image (reset container_used) = 7
  /\ image_bin (reset container_used) = None
  /\ image_gray (reset container_used) = None
  /\ canvas (reset container_used) = None
  /\ annotations (reset container_used) = one_mask
  /\ pass flags0 run_nothing true true (state0 container_used (config_of []))
     = pass flags0 run_nothing true true
         (state0 (reset container_used) (config_of [])).
Proof.
  destruct (reset_restores_buffers_and_opens_pass flags0 config_path0
              namespace0 run_nothing gui_end now0 true true true
              (state0 container_used (config_of [])))
    as [(H1 & _ & H3 & H4 & H5 & H6) (_ & _ & H7)].
  split; [exact H1|]. split; [exact H3|]. split; [exact H4|].
  split; [exact H5|]. split; [exact H6|exact (H7 eq_refl)].
Defined.

(** C8 as stated fails: in a [Pype] made with [dry_run=True] the pass
    does not call [reset]; the working image, the binary image and the
    canvas of the pass before are still there after it. *)
Lemma dry_run_pass_does_not_reset :
  dry_run flags_dry_run = true
  /\ exists s',
       pass flags_dry_run run_nothing true true
         (state0 container_used (config_of [])) = Returns tt s'
       /\ image (container s') = 9
       /\ image_copy (container s') = 7
       /\ image_bin (container s') = Some 3
       /\ canvas (container s') = Some 9.
Proof.
  split; [reflexivity|].
  exists (final (pass flags_dry_run run_nothing true true
                   (state0 container_used (config_of [])))).
  repeat apply conj; by_running.
Qed.

(** C5, an instance: [blur] of the step [preprocessing] raises
    [ValueError]; the pass goes on with [create_mask]. *)
Lemma invocation_error_is_logged_or_propagates_witness :
  exists logged,
    pass flags0 (run_failing "blur") true true (session config_blur_mask)
    = rest_of_pass flags0 config_path0 namespace0 (run_failing "blur")
        gui_end true true true 0 "preprocessing" 0 [VStr "create_mask"] []
        logged
    /\ log logged = [Exn "ValueError" "bad input"]
    /\ last (stdout logged)
       = Some "preprocessing.blur: ValueError - bad input".
Proof.
  destruct (invocation_error_is_logged_or_propagates config_path0 gui_end
              true
              (flags := flags0) (namespace := namespace0)
              (container_run := run_failing "blur") (now := now0)
              (feedback_ := true) (s := session config_blur_mask)
              (at_method := at_first_method flags0 (run_failing "blur")
                              config_blur_mask)
              (s2 := at_first_call flags0 (run_failing "blur") true
                       config_blur_mask "preprocessing" (VStr "blur"))
              (i := 0) (sn := "preprocessing") (j := 0) (m := VStr "blur")
              (after := [VStr "create_mask"]) (later := [])
              (ann := VMap []) (name := "blur") (kw := [])
              (ex := Exn "ValueError" "bad input")
              (e := env_of (at_first_call flags0 (run_failing "blur") true
                              config_blur_mask "preprocessing"
                              (VStr "blur"))))
    as (_ & H2 & _ & _ & H5 & H6).
  - first_method config_blur_mask flags0 (run_failing "blur").
  - by_running.
  - by_running.
  - by_running.
  - by_running.
  - eexists. split; [exact (H2 eq_refl eq_refl)|].
    split; [rewrite H5; by_running|rewrite H6; by_running].
Defined.

(** C5 as stated fails: what the log receives is the exception alone.
    The same exception raised by [preprocessing.blur] and by
    [segmentation.threshold] leaves the same log; the step and the
    method are only in the line that is printed. *)
Lemma log_entry_does_not_name_step_or_method :
  exists s1 s2,
    pass flags0 run_always_failing true true (session config_blur_here)
      = Returns tt s1
    /\ pass flags0 run_always_failing true true (session threshold_config)
       = Returns tt s2
    /\ log s1 = [Exn "ValueError" "bad input"]
    /\ log s2 = log s1
    /\ existsb (String.eqb "preprocessing.blur: ValueError - bad input")
         (stdout s1) = true
    /\ existsb (String.eqb "segmentation.threshold: ValueError - bad input")
         (stdout s2) = true.
Proof.
  exists (final (pass flags0 run_always_failing true true
                   (session config_blur_here))),
         (final (pass flags0 run_always_failing true true
                   (session threshold_config))).
  repeat apply conj; by_running.
Qed.

(** C7, an instance: the call for [frobnicate] raises the restart flag;
    [threshold], which comes after it, is not run. *)
Lemma restart_ends_pass_and_stays_set_witness :
  exists s',
    pass flags0 (run_restarting "frobnicate") true true
      (session config_unknown) = Returns tt s'
    /\ pype_restart s' = true
    /\ last (stdout s') = Some "BREAK"
    /\ get "segmentation" (config_parsed_flattened s') = Some [].
Proof.
  destruct (restart_ends_pass_and_stays_set config_path0 gui_end
              content_none true
              (flags := flags0) (namespace := namespace0)
              (container_run := run_restarting "frobnicate") (now := now0)
              (feedback_ := true) (s := session config_unknown)
              (at_method := at_first_method flags0
                              (run_restarting "frobnicate") config_unknown)
              (s2 := at_first_call flags0 (run_restarting "frobnicate") true
                       config_unknown "segmentation" (VStr "frobnicate"))
              (i := 0) (sn := "segmentation") (j := 0)
              (m := VStr "frobnicate")
              (after := [VStr "threshold"]) (later := [])
              (ann := VMap []) (name := "frobnicate") (kw := []))
    as (H1 & _).
  - first_method config_unknown flags0 (run_restarting "frobnicate").
  - by_running.
  - by_running.
  - by_running.
  - eexists. split; [apply H1; by_running|].
    repeat apply conj; by_running.
Defined.

(** C7 as stated fails: the pass that a method ends by raising the
    restart flag returns [None] as a pass that runs to its end does, and
    the flag is still up when it returns; the method after the one that
    raised the flag has not run. *)
Lemma restart_flag_stays_up_and_pass_returns_none :
  exists s1 s2,
    pass flags0 (run_restarting "frobnicate") true true
      (session config_unknown) = Returns tt s1
    /\ pype_restart s1 = true
    /\ get "segmentation" (config_parsed_flattened s1) = Some []
    /\ pass flags0 run_nothing true true (session config_unknown)
       = Returns tt s2
    /\ pype_restart s2 = false
    /\ get "segmentation" (config_parsed_flattened s2) = Some ["threshold"].
Proof.
  exists (final (pass flags0 (run_restarting "frobnicate") true true
                   (session config_unknown))),
         (final (pass flags0 run_nothing true true
                   (session config_unknown))).
  repeat apply conj; by_running.
Qed.

(** C1, an instance: two masks with a [blur] between them. *)
Lemma default_ids_are_first_letters_witness :
  exists s',
    steps_pass flags0 run_nothing true true (session config_two_masks)
      = Returns Continue s'
    /\ assigned_ids "mask" (config_updated s')
       = [Some (VStr "a"); Some (VStr "b")]
    /\ annotation_counter s' !! "mask" = Some 1%Z.
Proof.
  exists (final (steps_pass flags0 run_nothing true true
                   (session config_two_masks))).
  split; [by_running|].
  edestruct (default_ids_are_first_letters flags0 namespace0 run_nothing
               now0 true true (session config_two_masks)
               (s' := final (steps_pass flags0 run_nothing true true
                               (session config_two_masks)))
               (ty := "mask"))
    as (_ & H1 & _ & H2).
  - by_running.
  - by_running.
  - vm_compute. tauto.
  - intros sn m name args Hin _ Hp. vm_compute in Hin.
    destruct Hin as [Hin|[Hin|[Hin|[]]]]; injection Hin as <- <-;
      vm_compute in Hp; injection Hp as <- <-; reflexivity.
  - vm_compute in H1, H2. vm_compute. split; [exact H1|exact H2].
Defined.

(** C1 as stated fails: with twenty-seven masks that name no id there is
    no twenty-seventh letter; the pass, dry or not, ends with
    [IndexError] at the twenty-seventh, and nothing is written. *)
Lemma twenty_seventh_default_id_raises :
  count_kind flags0 namespace0 "mask" (methods_of (config_masks 27)) = 27
  /\ exists s',
       pass flags0 run_nothing false true (session (config_masks 27))
         = Raises (Exn "IndexError" "string index out of range") s'
       /\ annotation_counter s' !! "mask" = Some 26%Z
       /\ length (assigned_ids "mask" (config_updated s')) = 26
       /\ saved s' = [].
Proof.
  split; [by_running|].
  exists (final (pass flags0 run_nothing false true
                   (session (config_masks 27)))).
  repeat apply conj; by_running.
Qed.

(** C10, an instance: a mask with the id ["z"], then a mask that names
    no id. *)
Lemma counter_counts_every_occurrence_witness :
  exists s' out,
    steps_pass flags0 run_nothing true true (session config_named_mask)
      = Returns Continue s'
    /\ annotation_counter s' !! "mask" = Some 1%Z
    /\ methods_of (config_updated s') !! 1 = Some ("preprocessing", out)
    /\ entry_field "id" out = Some (VStr "b").
Proof.
  exists (final (steps_pass flags0 run_nothing true true
                   (session config_named_mask))).
  edestruct (counter_counts_every_occurrence flags0 namespace0 run_nothing
               now0 true true (session config_named_mask)
               (s' := final (steps_pass flags0 run_nothing true true
                               (session config_named_mask)))
               (ty := "mask"))
    as (H1 & H2).
  - by_running.
  - by_running.
  - vm_compute. tauto.
  - edestruct (H2 1 "preprocessing" (VStr "create_mask") "create_mask" [])
      as (out & Ho & _ & Hid & _); [by_running..|].
    exists out. split; [by_running|].
    vm_compute in H1, Ho, Hid. vm_compute.
    split; [exact H1|]. split; [exact Ho|exact Hid].
Defined.

(** C10 as stated fails.  A pass that the restart flag ends at the first
    of two masks leaves the counter at 0; and an entry of the method
    list that is neither a name nor a mapping is run under the name of
    the method before it: the number 5 between two masks takes the
    letter ["b"], the counter ends at 2, and the second mask gets
    ["c"]. *)
Lemma counter_of_restarted_pass_and_of_stray_entry :
  count_kind flags0 namespace0 "mask" (methods_of (config_masks 2)) = 2
  /\ (exists s1,
        pass flags0 (run_restarting "create_mask") true true
          (session (config_masks 2)) = Returns tt s1
        /\ annotation_counter s1 !! "mask" = Some 0%Z)
  /\ count_kind flags0 namespace0 "mask" (methods_of config_stray_entry) = 2
  /\ exists s2,
       steps_pass flags0 run_nothing true true (session config_stray_entry)
         = Returns Continue s2
       /\ annotation_counter s2 !! "mask" = Some 2%Z
       /\ assigned_ids "mask" (config_updated s2)
          = [Some (VStr "a"); Some (VStr "b"); Some (VStr "c")].
Proof.
  split; [by_running|]. split.
  { exists (final (pass flags0 (run_restarting "create_mask") true true
                     (session (config_masks 2)))).
    split; by_running. }
  split; [by_running|].
  exists (final (steps_pass flags0 run_nothing true true
                   (session config_stray_entry))).
  repeat apply conj; by_running.
Qed.



(** C4, an instance: [detect_skeleton] of the step [measurement]. *)
Lemma edit_default_goes_by_current_name_witness :
  exists s' out,
    steps_pass flags0 run_nothing true true (session config_shape_skeleton)
      = Returns Continue s'
    /\ methods_of (config_updated s') !! 1 = Some ("measurement", out)
    /\ entry_field "edit" out = Some (VBool false).
Proof.
  exists (final (steps_pass flags0 run_nothing true true
                   (session config_shape_skeleton))).
  edestruct (edit_default_goes_by_current_name flags0 namespace0 run_nothing
               now0 true true (session config_shape_skeleton) 1
               (s' := final (steps_pass flags0 run_nothing true true
                               (session config_shape_skeleton)))
               (sn := "measurement") (m := VStr "detect_skeleton")
               (name := "detect_skeleton") (args := [])
               (current := "detect_skeleton") (fixed := false)
               (ty := "line"))
    as (out & Ho & _ & _ & _ & Hedit); [by_running..|].
  exists out. split; [by_running|]. split; [exact Ho|].
  apply Hedit. by left.
Defined.

(** C4 as stated fails on the sources: the list of the names that
    default to ["overwrite"] has [detect_shape] and [skeletonize], but
    the methods run as [detect_mask] and [detect_skeleton], and both
    get [False]. *)
Lemma shape_and_skeleton_default_to_false :
  in_list "detect_shape" overwrite_by_default = true
  /\ in_list "skeletonize" overwrite_by_default = true
  /\ exists s',
       pass flags0 run_nothing true true (session config_shape_skeleton)
         = Returns tt s'
       /\ map (fun p => (entry_kind (snd p), entry_field "edit" (snd p)))
            (methods_of (config_updated s'))
          = [(Some "mask", Some (VBool false));
             (Some "line", Some (VBool false))]
       /\ get_methods 0 "preprocessing" (config_updated s')
          = Some [VMap [("detect_mask",
                         VMap [("ANNOTATION",
                                VMap [("type", VStr "mask");
                                      ("id", VStr "a");
                                      ("edit", VBool false)])])]].
Proof.
  split; [by_running|]. split; [by_running|].
  exists (final (pass flags0 run_nothing true true
                   (session config_shape_skeleton))).
  repeat apply conj; by_running.
Qed.

(** C2 as stated fails: a pass that a method ends by raising the restart
    flag leaves [_iterate] before the comparison; the updated
    configuration differs from the configuration (the control block of
    the mask has been written into it) and nothing is saved. *)
Lemma changed_config_of_restarted_pass_is_not_saved :
  exists s',
    pass flags0 (run_restarting "create_mask") true true
      (session (config_masks 1)) = Returns tt s'
    /\ py_eq (config_updated s') (config s') = false
    /\ config_updated s' <> config s'
    /\ saved s' = [].
Proof.
  exists (final (pass flags0 (run_restarting "create_mask") true true
                   (session (config_masks 1)))).
  split; [by_running|]. split; [by_running|]. split; [|by_running].
  intros H. vm_compute in H. discriminate H.
Qed.

(** C9, an instance: the operations of [Demo.core_ok]; none of them is
    called. *)
Lemma threshold_call_is_refused_witness :
  exists s',
    _iterate flags0 config_path0 namespace0 (source_run core_ok []) gui_end
      now0 true true true (session threshold_config) = Returns tt s'
    /\ log s'
       = [Exn "TypeError"
            "run() got an unexpected keyword argument 'fun_kwargs'"]
    /\ image_bin (container s') = None
    /\ image (container s') = 7
    /\ saved s' = [].
Proof.
  edestruct (threshold_call_is_refused core_ok [] flags0 config_path0
               namespace0 gui_end now0 true true (session threshold_config)
               (ns := fun n => in_list n ["threshold"; "morphology";
                                          "watershed"; "detect_contour";
                                          "edit_contour"]))
    as (s' & H1 & H2 & _ & H4 & H5 & _ & H7);
    [by_running..|].
  exists s'. split; [exact H1|]. split; [exact H2|]. split; [exact H4|].
  split; [exact H5|exact H7].
Defined.

End Examples.

(* ===================================================================== *)
(** * [Container.run]: what it leaves alone, and when it does nothing *)
(* ===================================================================== *)

Section RunFrame.
Import Py Utils.
Context {Image Annotation DataFrame : Type}.
Variable core : Core Image Annotation.

Local Abbreviation C := (Container Image Annotation DataFrame).
Local Abbreviation F := (Frame Image Annotation DataFrame).

Lemma run_keeps_rest f id :
  keeps (fun fr : F =>
           (image_copy (self fr), image_gray (self fr), canvas (self fr),
            dirpath (self fr), save_suffix (self fr),
            reference_template_px_mm_ratio (self fr),
            reference_template_image (self fr))) (run core f id).
Proof.
  unfold run, annotations_set, annotations_get, kwargs_update, on_self.
  keeps_tac.
Qed.

(** X1. Whatever the function and however the call ends, [run] leaves
    the original image, the gray image, the canvas, the paths and the
    reference attributes of the container as they were. *)
Theorem run_never_assigns_original f id (fr : F) :
  let c' := self (final (run core f id fr)) in
  image_copy c' = image_copy (self fr)
  /\ image_gray c' = image_gray (self fr)
  /\ canvas c' = canvas (self fr)
  /\ dirpath c' = dirpath (self fr)
  /\ save_suffix c' = save_suffix (self fr)
  /\ reference_template_px_mm_ratio c'
     = reference_template_px_mm_ratio (self fr)
  /\ reference_template_image c' = reference_template_image (self fr).
Proof.
  pose proof (run_keeps_rest f id fr) as H. simpl in H.
  injection H as H1 H2 H3 H4 H5 H6 H7.
  simpl. by repeat apply conj.
Qed.

(** X2. [reset] after [run] gives what [reset] alone gives, but for the
    annotations that [run] has stored: nothing that an image operation
    has done to the container survives the start of the next pass. *)
Theorem reset_undoes_run f id (fr : F) :
  let c' := self (final (run core f id fr)) in
  reset c' = set_annotations (annotations c') (reset (self fr)).
Proof.
  intros c'. pose proof (run_keeps_rest f id fr) as H. simpl in H.
  injection H as H1 H2 H3 H4 H5 H6 H7. fold c' in H1, H4, H5, H6, H7.
  unfold reset, set_annotations. simpl.
  by rewrite H1, H4, H5, H6, H7.
Qed.

Lemma run_other_name f id (fr : F) masks :
  annotations (self fr) !! "masks" = Some masks ->
  ~ In f ["blur"; "create_mask"; "detect_mask"; "enter_data";
          "detect_reference"; "select_channel"; "threshold"; "watershed";
          "morphology"; "detect_contours"] ->
  run core f id fr
  = Returns tt
      (mkFrame (self fr)
         (match masks !! id with
          | Some prev =>
              set_item "previous_annotation" (AAnn prev) (kwargs fr)
          | None => kwargs fr
          end)).
Proof.
  intros Hm Hf.
  assert (Hne : forall n, In n ["blur"; "create_mask"; "detect_mask";
                  "enter_data"; "detect_reference"; "select_channel";
                  "threshold"; "watershed"; "morphology"; "detect_contours"]
                -> String.eqb f n = false).
  { intros n Hn. apply String.eqb_neq. intros ->. by apply Hf. }
  unfold run.
  rewrite !Hne by (simpl; tauto).
  unfold mbind, annotations_get, gets, mbind. simpl. rewrite Hm. simpl.
  unfold kwargs_update, modify, ret.
  destruct (masks !! id); [done|]. by destruct fr.
Qed.


(** X3. A function name that is none of the ten that [run] compares
    with is not an error: [run] returns, and the container is as it
    was.  (The stored mask of the id, when there is one, has still been
    put into [kwargs].) *)
Theorem run_ignores_unknown_function f id (fr : F) masks :
  annotations (self fr) !! "masks" = Some masks ->
  ~ In f ["blur"; "create_mask"; "detect_mask"; "enter_data";
          "detect_reference"; "select_channel"; "threshold"; "watershed";
          "morphology"; "detect_contours"] ->
  run core f id fr
  = Returns tt
      (mkFrame (self fr)
         (match masks !! id with
          | Some prev =>
              set_item "previous_annotation" (AAnn prev) (kwargs fr)
          | None => kwargs fr
          end)).
Proof. apply run_other_name. Qed.

(** X4. Without the kind ["masks"] in the store [run] raises [KeyError]
    before it looks at the function, and nothing has changed. *)
Theorem run_without_masks_raises f id (fr : F) :
  annotations (self fr) !! "masks" = None ->
  run core f id fr = Raises (Exn "KeyError" "masks") fr.
Proof.
  intros Hm. unfold run, mbind, annotations_get, gets, mbind. simpl.
  by rewrite Hm.
Qed.

(** X5. When the store has the four kinds that [run] writes to, a call
    that raises has not changed the container: every function calls its
    operation before it assigns, and only the operation can raise. *)
Theorem run_failure_keeps_container f id (fr fr' : F) ex :
  (forall kind, In kind ["masks"; "comments"; "references"; "contours"] ->
                annotations (self fr) !! kind <> None) ->
  run core f id fr = Raises ex fr' ->
  self fr' = self fr.
Proof.
  intros Hk H. destruct fr as [c kw]. simpl in *.
  destruct (annotations c !! "masks") as [masks|] eqn:Hm;
    [|by destruct (Hk "masks"); [simpl; tauto|]].
  destruct (annotations c !! "comments") as [comments|] eqn:Hc;
    [|by destruct (Hk "comments"); [simpl; tauto|]].
  destruct (annotations c !! "references") as [references|] eqn:Hr;
    [|by destruct (Hk "references"); [simpl; tauto|]].
  destruct (annotations c !! "contours") as [contours|] eqn:Hn;
    [|by destruct (Hk "contours"); [simpl; tauto|]].
  destruct (in_dec string_dec f
              ["blur"; "create_mask"; "detect_mask"; "enter_data";
               "detect_reference"; "select_channel"; "threshold";
               "watershed"; "morphology"; "detect_contours"]) as [Hin|Hout].
  2:{ erewrite run_other_name in H by (simpl; eassumption).
      discriminate H. }
  simpl in Hin.
  repeat (destruct Hin as [<-|Hin]); [..|done];
    unfold run, annotations_set, annotations_get, kwargs_update, on_self
      in H;
    unfold mbind, modify, gets, when, eval, ret, raise in H; simpl in H;
    rewrite ?Hm in H; simpl in H;
    destruct (masks !! id); simpl in H;
    repeat first
      [ progress
          (rewrite ?Hm, ?Hc, ?Hr, ?Hn, ?lookup_insert_ne in H by done;
           simpl in H)
      | match type of H with
        | context [match ?x with Ok _ => _ | Err _ => _ end] =>
            destruct x as [?|?] eqn:?; simpl in H
        | context [match ?x with Some _ => _ | None => _ end] =>
            destruct x as [?|] eqn:?; simpl in H
        | context [match ?x with inl _ => _ | inr _ => _ end] =>
            destruct x as [?|[? ?]] eqn:?; simpl in H
        | context [if ?x then _ else _] =>
            destruct x eqn:?; simpl in H
        end ];
    try discriminate H; by injection H as _ <-.
Qed.

(** X6. Of the functions that [settings._annotation_functions] lists,
    [run] compares with three; for each of the others it returns
    without calling anything, and the container is as it was. *)
Theorem run_knows_three_annotation_functions name ty id (fr : F) masks :
  get name Settings._annotation_functions = Some ty ->
  annotations (self fr) !! "masks" = Some masks ->
  In name ["create_mask"; "detect_mask"; "detect_reference"]
  \/ run core name id fr
     = Returns tt
         (mkFrame (self fr)
            (match masks !! id with
             | Some prev =>
                 set_item "previous_annotation" (AAnn prev) (kwargs fr)
             | None => kwargs fr
             end)).
Proof.
  intros H Hm. apply get_Some_In in H. simpl in H.
  repeat (destruct H as [H|H]; [injection H as <- <-|]); [..|done];
    first [ left; simpl; tauto
          | right; apply run_other_name; [exact Hm|];
            simpl; intuition discriminate ].
Qed.

End RunFrame.

Section Extends.
Import Py Main.
Context {St X : Type}.
Variable part : St -> list X.

Lemma keeps_extends {A} (m : M St A) : keeps part m -> extends part m.
Proof. intros H s. exists []. by rewrite app_nil_r. Qed.

Lemma extends_modify (f : St -> St) :
  (forall s, exists l, part (f s) = part s ++ l) -> extends part (modify f).
Proof. intros H s. apply H. Qed.

Lemma extends_bind {A B} (m : M St A) (k : A -> M St B) :
  extends part m -> (forall a, extends part (k a)) ->
  extends part (mbind m k).
Proof.
  intros Hm Hk s. unfold mbind. destruct (Hm s) as [l Hl].
  destruct (m s) as [a s1|e s1]; simpl in *; [|by exists l].
  destruct (Hk a s1) as [l' Hl']. exists (l ++ l').
  by rewrite Hl', Hl, app_assoc.
Qed.

Lemma extends_when b (m : M St unit) :
  extends part m -> extends part (when b m).
Proof. intros H. destruct b; [done|]. apply keeps_extends, keeps_ret. Qed.

Lemma extends_try_except {A} (body : M St A) handler :
  extends part body -> (forall ex, extends part (handler ex)) ->
  extends part (try_except body handler).
Proof.
  intros Hb Hh s. unfold try_except. destruct (Hb s) as [l Hl].
  destruct (body s) as [a s1|e s1]; simpl in *; [by exists l|].
  destruct (Hh e s1) as [l' Hl']. exists (l ++ l').
  by rewrite Hl', Hl, app_assoc.
Qed.

Lemma extends_for_each {A} (body : nat -> A -> M St ctl) :
  (forall i x, extends part (body i x)) ->
  forall xs i, extends part (for_each body i xs).
Proof.
  intros Hb xs. induction xs as [|x xs IH]; intros i; simpl.
  - apply keeps_extends, keeps_ret.
  - apply extends_bind; [done|].
    intros []; [done|apply keeps_extends, keeps_ret].
Qed.

End Extends.

(** Proves [extends part m]: a piece that keeps the part is left to
    [keeps_tac], the others are taken apart. *)
Ltac extends_tac :=
  first
    [ solve [apply keeps_extends; keeps_tac]
    | apply extends_bind; [extends_tac|intros ?; extends_tac]
    | apply extends_when; extends_tac
    | apply extends_try_except; [extends_tac|intros ?; extends_tac]
    | apply extends_for_each; intros ? ?; extends_tac
    | apply extends_modify; intros ?; eexists; reflexivity
    | match goal with
      | |- Py.extends _ (match ?x with _ => _ end) => destruct x; extends_tac
      end ].

(* ===================================================================== *)
(** * [Container.select_canvas] *)
(* ===================================================================== *)

Section CanvasFacts.
Import Py Utils.
Context {Image Annotation DataFrame : Type}.
Variable cv : Cv Image.

Local Abbreviation V := (View Image Annotation DataFrame).

Lemma select_canvas_keeps_rest canvas_ multi :
  keeps (fun v : V => set_canvas None (shown v))
    (select_canvas cv canvas_ multi).
Proof. unfold select_canvas, set_shown_canvas, say. keeps_tac. Qed.

Lemma select_canvas_extends_lines canvas_ multi :
  extends (lines (Image := Image) (Annotation := Annotation)
             (DataFrame := DataFrame))
    (select_canvas cv canvas_ multi).
Proof. unfold select_canvas, set_shown_canvas, say. extends_tac. Qed.

(** X7. [select_canvas] assigns the canvas and nothing else: whatever
    the selection and however the call ends, the working image, the
    original, the binary and the gray image and the annotations are as
    they were, and what had been printed is still there. *)
Theorem select_canvas_only_assigns_canvas canvas_ multi (v : V) :
  let v' := final (select_canvas cv canvas_ multi v) in
  image (shown v') = image (shown v)
  /\ image_copy (shown v') = image_copy (shown v)
  /\ image_bin (shown v') = image_bin (shown v)
  /\ image_gray (shown v') = image_gray (shown v)
  /\ annotations (shown v') = annotations (shown v)
  /\ exists printed, lines v' = lines v ++ printed.
Proof.
  intros v'. pose proof (select_canvas_keeps_rest canvas_ multi v) as H.
  simpl in H. fold v' in H.
  split; [exact (f_equal image H)|].
  split; [exact (f_equal image_copy H)|].
  split; [exact (f_equal image_bin H)|].
  split; [exact (f_equal image_gray H)|].
  split; [exact (f_equal annotations H)|].
  apply select_canvas_extends_lines.
Qed.

(** X8. The binary image as canvas before any segmentation: there is
    no binary image, the canvas becomes [None], and with [multi] (the
    default) the look at its shape raises [AttributeError]; without
    [multi] the call returns with the canvas [None]. *)
Theorem select_canvas_bin_without_binary_image multi (v : V) :
  image_bin (shown v) = None ->
  let v' := mkView (set_canvas None (shown v))
              (lines v ++ ["- binary image"]) in
  select_canvas cv "bin" multi v
  = if multi
    then Raises (Exn "AttributeError"
                   "'NoneType' object has no attribute 'shape'") v'
    else Returns tt v'.
Proof.
  intros Hb v'. subst v'.
  unfold select_canvas, set_shown_canvas, say, mbind, gets, modify, when,
    raise, ret.
  simpl. rewrite Hb. by destruct multi.
Qed.

(** X9. A selection that is none of the seven names is the selection
    ["raw"]: the call ends the same way with the same container; only
    the printed line differs. *)
Theorem select_canvas_invalid_is_raw canvas_ multi (v : V) :
  ~ In canvas_ ["mod"; "raw"; "bin"; "gray"; "green"; "red"; "blue"] ->
  match select_canvas cv canvas_ multi v, select_canvas cv "raw" multi v with
  | Returns _ a, Returns _ b =>
      shown a = shown b
      /\ lines a = lines v ++ ["- invalid selection - defaulting to raw image"]
      /\ lines b = lines v ++ ["- raw image"]
  | Raises e a, Raises e' b =>
      e = e' /\ shown a = shown b
      /\ lines a = lines v ++ ["- invalid selection - defaulting to raw image"]
      /\ lines b = lines v ++ ["- raw image"]
  | _, _ => False
  end.
Proof.
  intros Hf.
  assert (Hne : forall n, In n ["mod"; "raw"; "bin"; "gray"; "green"; "red";
                                "blue"] -> String.eqb canvas_ n = false).
  { intros n Hn. apply String.eqb_neq. intros ->. by apply Hf. }
  unfold select_canvas. rewrite !Hne by (simpl; tauto).
  unfold set_shown_canvas, say, mbind, gets, modify, when, eval, raise, ret.
  destruct multi; cbn; [|done].
  match goal with
  | |- context [if ?b then _ else _] => destruct b; cbn; [|done]
  end.
  by destruct (cvtColor_GRAY2BGR cv (image_copy (shown v))); cbn.
Qed.

End CanvasFacts.

(* ===================================================================== *)
(** * The pass: what a dry pass does not do, what no pass does *)
(* ===================================================================== *)

Section PassFrame.
Import Py Settings Utils Main Outline.
Context {Image Annotation DataFrame : Type}.
Variable flags : Flags.
Variable config_path : string.
Variable namespace : string -> res (string -> bool).
Variable gui : option Image -> res bool.
Variable now : string.

Local Abbreviation St := (State (Image := Image) (Annotation := Annotation)
                            (DataFrame := DataFrame)).
Local Abbreviation Run :=
  (string -> option (list (string * value)) -> option value
   -> option (gmap string Z)
   -> M (Env (Image := Image) (Annotation := Annotation)
             (DataFrame := DataFrame)) unit).

Lemma for_each_ext {S A} (f g : nat -> A -> M S ctl) :
  (forall i x s, f i x s = g i x s) ->
  forall xs i s, for_each f i xs s = for_each g i xs s.
Proof.
  intros H xs. induction xs as [|x xs IH]; intros i s; simpl; [done|].
  unfold mbind. rewrite H. destruct (g i x s) as [[] s1|]; [|done..].
  apply IH.
Qed.

Lemma do_step_dry (r1 r2 : Run) feedback_ i step (s : St) :
  do_step flags namespace r1 false feedback_ i step s
  = do_step flags namespace r2 false feedback_ i step s.
Proof.
  unfold do_step. destruct (is_str step); [done|].
  unfold mbind.
  destruct (eval (py_dict step) s) as [d s1|]; [|done].
  destruct (eval (first_key d) s1) as [sn s2|]; [|done].
  destruct (eval (first_value d) s2) as [ml s3|]; [|done].
  destruct (modify _ s3) as [[] s4|]; [|done].
  destruct (is_none ml); [done|].
  rewrite andb_false_r. simpl.
  destruct (eval (py_iter ml) s4) as [ms s5|]; [|done].
  by apply for_each_ext.
Qed.

Lemma keeps_when_false {S X} (part : S -> X) b (m : M S unit) :
  b = false -> keeps part (when b m).
Proof. intros ->. apply keeps_ret. Qed.

Lemma dry_loop_keeps (r : Run) feedback_ steps i :
  keeps (fun s : St => (container s, log s, pype_restart s, terminate s))
    (for_each (do_step flags namespace r false feedback_) i steps).
Proof.
  cbv beta iota delta
    [do_step do_method execute_method when bind_method check_method_exists
     annotation_params assign_method mutate_method_args rebind_method_args
     counter_get the_method_name the_method_args print].
  repeat first [ apply keeps_when_false; apply andb_false_r | keeps_step ].
Qed.

(** X10. In a pass with [execute=False] nothing is invoked: up to the end
    of the step loop the outcome is the same whatever [run] would do,
    and however the loop ends the container is the one the pass started
    with ([reset], unless the session is a dry run), and the log, the
    restart flag and the flag [terminate] are as they were. *)
Theorem dry_steps_invoke_nothing (r1 r2 : Run) feedback_ (s : St) :
  run_steps flags namespace r1 now false feedback_ s
  = run_steps flags namespace r2 now false feedback_ s
  /\ let s' := final (run_steps flags namespace r1 now false feedback_ s) in
     container s'
     = (if dry_run flags then container s else reset (container s))
     /\ log s' = log s
     /\ pype_restart s' = pype_restart s
     /\ terminate s' = terminate s.
Proof.
  split.
  { unfold run_steps, mbind.
    destruct (modify _ s) as [[] s1|]; [|done].
    destruct (when false _ s1) as [[] s2|]; [|done].
    destruct (when (negb (dry_run flags)) _ s2) as [[] s3|]; [|done].
    destruct (modify _ s3) as [[] s4|]; [|done].
    destruct (gets config s4) as [cfg s5|]; [|done].
    destruct (eval _ s5) as [sl s6|]; [|done].
    destruct (modify _ s6) as [[] s7|]; [|done].
    destruct (modify _ s7) as [[] s8|]; [|done].
    destruct (eval _ s8) as [steps s9|]; [|done].
    apply for_each_ext. intros. apply do_step_dry. }
  intros s'. subst s'. unfold run_steps.
  assert (K : forall cfg, keeps
            (fun s : St => (container s, log s, pype_restart s, terminate s))
            (step_list <- eval (getitem "processing_steps" cfg) ;;
             modify (set_config_updated cfg) ;;;
             modify (set_config_parsed_flattened []) ;;;
             steps <- eval (py_iter step_list) ;;
             for_each (do_step flags namespace r1 false feedback_) 0 steps)%py).
  { intros cfg. keeps_step; [keeps_step|]. keeps_step; [keeps_step|].
    keeps_step; [keeps_step|]. keeps_step; [keeps_step|].
    apply dry_loop_keeps. }
  destruct (dry_run flags); simpl negb.
  all: erewrite mbind_step by reflexivity.
  all: erewrite mbind_step by reflexivity.
  all: erewrite mbind_step by reflexivity.
  all: erewrite mbind_step by reflexivity.
  all: erewrite mbind_step by reflexivity.
  all: match goal with
       | |- context [final (?m ?s4)] =>
           specialize (K (config s4) s4); simpl in K;
           injection K as K1 K2 K3 K4
       end.
  all: simpl in *; by repeat apply conj.
Qed.

End PassFrame.

Section PassLog.
Import Py Settings Utils Main Outline.
Context {Image Annotation DataFrame : Type}.
Variable flags : Flags.
Variable config_path : string.
Variable namespace : string -> res (string -> bool).
Variable container_run :
  string -> option (list (string * value)) -> option value
  -> option (gmap string Z)
  -> M (Env (Image := Image) (Annotation := Annotation)
            (DataFrame := DataFrame)) unit.
Variable gui : option Image -> res bool.
Variable now : string.

Local Abbreviation St := (State (Image := Image) (Annotation := Annotation)
                            (DataFrame := DataFrame)).
Local Abbreviation iterate :=
  (_iterate flags config_path namespace container_run gui now).

Lemma iterate_extends_log execute visualize_ feedback_ :
  extends (log (Image := Image) (Annotation := Annotation)
             (DataFrame := DataFrame))
    (iterate execute visualize_ feedback_).
Proof.
  unfold _iterate, finish, update_config, final_visualization,
    run_steps, do_step, do_method, execute_method, run_method,
    annotation_params, check_method_exists, bind_method, autoselect_canvas,
    assign_method, mutate_method_args, rebind_method_args, counter_get,
    the_method_name, the_method_args, print.
  extends_tac.
Qed.

Lemma iterate_keeps_log_in_debug execute visualize_ feedback_ :
  debug flags = true ->
  keeps (log (Image := Image) (Annotation := Annotation)
           (DataFrame := DataFrame))
    (iterate execute visualize_ feedback_).
Proof.
  intros Hd.
  unfold _iterate, finish, update_config, final_visualization,
    run_steps, do_step, do_method, execute_method, run_method,
    annotation_params, check_method_exists, bind_method, autoselect_canvas,
    assign_method, mutate_method_args, rebind_method_args, counter_get,
    the_method_name, the_method_args, print.
  destruct (debug flags); [|discriminate Hd]. cbv beta iota.
  keeps_tac.
Qed.

(** X11. The log of the session only grows in a pass: however the pass
    ends, the log after it is the log before it with what the pass has
    caught appended; with [debug] on nothing is appended. *)
Theorem pass_only_appends_to_log execute visualize_ feedback_ (s : St) :
  exists caught,
    log (final (iterate execute visualize_ feedback_ s)) = log s ++ caught
    /\ (debug flags = true -> caught = []).
Proof.
  destruct (debug flags) eqn:Hd.
  - exists []. split; [|done]. rewrite app_nil_r.
    by apply iterate_keeps_log_in_debug.
  - destruct (iterate_extends_log execute visualize_ feedback_ s)
      as [caught H].
    exists caught. split; [exact H|discriminate].
Qed.

(** X12. A pass never changes the configuration it reads, however it
    ends: what it adds goes into the copy, [config_updated]. *)
Theorem pass_never_changes_config execute visualize_ feedback_ (s : St) :
  config (final (iterate execute visualize_ feedback_ s)) = config s.
Proof.
  revert s.
  change (keeps (config (Image := Image) (Annotation := Annotation)
                   (DataFrame := DataFrame))
            (iterate execute visualize_ feedback_)).
  unfold _iterate, finish, update_config, final_visualization,
    run_steps, do_step, do_method, execute_method, run_method,
    annotation_params, check_method_exists, bind_method, autoselect_canvas,
    assign_method, mutate_method_args, rebind_method_args, counter_get,
    the_method_name, the_method_args, print.
  keeps_tac.
Qed.

End PassLog.

Section PassBlocks.
Import Py Settings Utils Main Outline.
Context {Image Annotation DataFrame : Type}.
Variable flags : Flags.
Variable namespace : string -> res (string -> bool).
Variable container_run :
  string -> option (list (string * value)) -> option value
  -> option (gmap string Z)
  -> M (Env (Image := Image) (Annotation := Annotation)
            (DataFrame := DataFrame)) unit.
Variable now : string.

Local Abbreviation St := (State (Image := Image) (Annotation := Annotation)
                            (DataFrame := DataFrame)).
Local Abbreviation steps_of := (run_steps flags namespace container_run now).

#[local] Opaque _legacy_names _annotation_functions.

(** X13. In a pass that runs to the end of the step loop, an
    annotation-producing method is written into the updated
    configuration under the name it runs under (the current name, when
    the name of the configuration is a legacy one), with a control block
    whose [type] and [edit] are those of the configuration when it gives
    them, and otherwise the type of the function and the default of the
    current name. *)
Theorem pass_completes_control_block
    execute feedback_ (s s' : St) k sn m name args current fixed ty :
  steps_of execute feedback_ s = Returns Continue s' ->
  methods_named (config s) = true ->
  methods_of (config s) !! k = Some (sn, m) ->
  method_parts m = Some (name, args) ->
  resolve flags namespace sn name = Some (current, fixed) ->
  get current _annotation_functions = Some ty ->
  exists out rest,
    methods_of (config_updated s') !! k = Some (sn, out)
    /\ out = VMap [(current, VMap rest)]
    /\ entry_field "type" out
       = Some (match explicit "type" args with
               | Some v => v
               | None => VStr ty
               end)
    /\ entry_field "edit" out
       = Some (match explicit "edit" args with
               | Some v => v
               | None => default_edit current
               end).
Proof.
  intros H Hnamed Hk Hp Hr Hty.
  apply pass_flat in H; [|done].
  edestruct flat_out_lookup as (out & ck & ck' & Ho & He & _);
    [exact H|exact Hk|].
  pose proof He as He'.
  eapply entry_out_annotation in He'
    as (n & _ & _ & _ & Htype & Hedit & _); [|done..].
  unfold entry_out in He. rewrite Hp, Hr, Hty in He.
  destruct (ck !! ty); [|done].
  destruct (control_block args); [|done].
  destruct (completed_block _ _ _ _); [|done].
  injection He as <- _.
  eexists _, _. split; [exact Ho|]. split; [reflexivity|].
  split; [exact Htype|exact Hedit].
Qed.

End PassBlocks.

Section Tables.
Import Py Settings Main Outline.

(** X14. Of the five names for which [edit] defaults to ["overwrite"],
    three are annotation functions; the block that sets the default is
    entered for annotation functions only, so these three are the ones
    that get ["overwrite"]: [detect_shape] and [skeletonize] never do,
    and every other annotation function gets [False]. *)
Theorem overwrite_is_the_default_of_three name ty :
  get name _annotation_functions = Some ty ->
  (default_edit name = VStr "overwrite"
   <-> In name ["detect_contour"; "compute_shape_features";
                "compute_texture_features"])
  /\ (default_edit name = VBool false
      <-> ~ In name ["detect_contour"; "compute_shape_features";
                     "compute_texture_features"]).
Proof.
  intros H. apply get_Some_In in H. simpl in H.
  repeat (destruct H as [H|H]; [injection H as <- <-|]); [..|done];
    vm_compute; (split; split); intros; try tauto; try discriminate;
    intuition discriminate.
Qed.

(** X15. Fixing a legacy name once is enough: the name that a table of
    legacy names gives is not a legacy name of the same step with
    another current name. *)
Theorem legacy_fix_is_stable sn table old current :
  get sn _legacy_names = Some table ->
  get old table = Some current ->
  get current table = None \/ get current table = Some current.
Proof.
  intros Ht Ho. apply get_Some_In in Ht. simpl in Ht.
  repeat (destruct Ht as [Ht|Ht]; [injection Ht as <- <-|]); [..|done];
    apply get_Some_In in Ho; simpl in Ho;
    repeat (destruct Ho as [Ho|Ho]; [injection Ho as <- <-|]);
    try done; vm_compute; tauto.
Qed.

End Tables.

(* ===================================================================== *)
(** * Further statements at concrete sessions *)
(* ===================================================================== *)

Section MoreExamples.
Import Py Settings Utils Main Outline Glue Demo.

Ltac by_computing := vm_compute; reflexivity.

(** X3, an instance: [select_canvas], which the final visualization
    hands to [run]. *)
Lemma run_ignores_unknown_function_witness :
  run core_ok "select_canvas" None (mkFrame (container0 no_annotations) [])
  = Returns tt (mkFrame (container0 no_annotations) []).
Proof.
  pose proof (@run_ignores_unknown_function nat annotation unit core_ok
                "select_canvas" None
                (mkFrame (container0 no_annotations) []) ∅
                ltac:(by_computing)
                ltac:(simpl; intuition discriminate)) as H.
  vm_compute in H. vm_compute. exact H.
Defined.

(** X4, an instance: an empty store. *)
Lemma run_without_masks_raises_witness :
  run core_ok "blur" None (mkFrame (container0 no_kinds) [])
  = Raises (Exn "KeyError" "masks") (mkFrame (container0 no_kinds) []).
Proof.
  exact (@run_without_masks_raises nat annotation unit core_ok "blur" None
           (mkFrame (container0 no_kinds) []) ltac:(by_computing)).
Defined.

(** X5, an instance: [threshold] raises. *)
Lemma run_failure_keeps_container_witness :
  self (final (run core_failing "threshold" None
                 (mkFrame (container0 one_mask) [])))
  = container0 one_mask.
Proof.
  eapply (@run_failure_keeps_container nat annotation unit core_failing) with
    (f := "threshold") (id := None)
    (fr := mkFrame (container0 one_mask) [])
    (ex := Exn "ValueError" "bad input").
  - intros kind Hk. simpl in Hk.
    destruct Hk as [<-|[<-|[<-|[<-|[]]]]]; vm_compute; discriminate.
  - by_computing.
Defined.

(** X6, an instance: [write_comment]. *)
Lemma run_knows_three_annotation_functions_witness :
  run core_ok "write_comment" (Some "a")
    (mkFrame (container0 no_annotations) [])
  = Returns tt (mkFrame (container0 no_annotations) []).
Proof.
  destruct (@run_knows_three_annotation_functions nat annotation unit
              core_ok "write_comment" "comment" (Some "a")
              (mkFrame (container0 no_annotations) []) ∅
              ltac:(by_computing) ltac:(by_computing)) as [H|H].
  - exfalso. simpl in H. intuition discriminate.
  - vm_compute in H. vm_compute. exact H.
Defined.

(** X13, an instance: [detect_shape], a legacy name of [detect_mask]. *)
Lemma pass_completes_control_block_witness :
  exists s' out rest,
    steps_pass flags0 run_nothing false true (session config_legacy_shape)
      = Returns Continue s'
    /\ methods_of (config_updated s') !! 0 = Some ("preprocessing", out)
    /\ out = VMap [("detect_mask", VMap rest)]
    /\ entry_field "edit" out = Some (VBool false).
Proof.
  exists (final (steps_pass flags0 run_nothing false true
                   (session config_legacy_shape))).
  edestruct (pass_completes_control_block flags0 namespace0 run_nothing now0)
    with (execute := false) (feedback_ := true)
         (s := session config_legacy_shape)
         (s' := final (steps_pass flags0 run_nothing false true
                         (session config_legacy_shape)))
         (k := 0) (sn := "preprocessing") (m := VStr "detect_shape")
         (name := "detect_shape") (args := @nil (string * value))
         (current := "detect_mask") (fixed := true) (ty := "mask")
    as (out & rest & H1 & H2 & _ & H4); [by_computing..|].
  exists out, rest. split; [by_computing|]. split; [exact H1|].
  split; [exact H2|]. vm_compute in H4. exact H4.
Defined.

(** X14, an instance: [detect_skeleton]. *)
Lemma overwrite_is_the_default_of_three_witness :
  default_edit "detect_skeleton" = VBool false.
Proof.
  pose proof overwrite_is_the_default_of_three as H.
  specialize H with (name := "detect_skeleton") (ty := "line").
  apply (H ltac:(by_computing)).
  simpl. intuition discriminate.
Defined.

(** X15, an instance: [landmarks] of the step [measurement]. *)
Lemma legacy_fix_is_stable_witness :
  exists table,
    get "measurement" _legacy_names = Some table
    /\ get "landmarks" table = Some "set_landmark"
    /\ get "set_landmark" table = Some "set_landmark".
Proof.
  eexists. split; [by_computing|]. split; [by_computing|].
  edestruct legacy_fix_is_stable
    with (sn := "measurement") (old := "landmarks")
         (current := "set_landmark")
    as [H|H]; [by_computing..| |exact H].
  vm_compute in H. discriminate H.
Defined.

(** X8, an instance: the canvas ["bin"] on a fresh container. *)
Lemma select_canvas_bin_without_binary_image_witness :
  select_canvas cv_ok "bin" true view0
  = Raises (Exn "AttributeError" "'NoneType' object has no attribute 'shape'")
      (mkView (container0 no_annotations) ["- binary image"]).
Proof.
  pose proof (@select_canvas_bin_without_binary_image nat annotation unit cv_ok) as H.
  specialize H with (multi := true) (v := view0).
  specialize (H ltac:(by_computing)).
  vm_compute in H. vm_compute. exact H.
Defined.

(** X9, an instance: the selection ["binary"]. *)
Lemma select_canvas_invalid_is_raw_witness :
  shown (final (select_canvas cv_ok "binary" true view0))
  = shown (final (select_canvas cv_ok "raw" true view0)).
Proof.
  pose proof (@select_canvas_invalid_is_raw nat annotation unit cv_ok) as H.
  specialize H with (canvas_ := "binary") (multi := true) (v := view0).
  specialize (H ltac:(simpl; intuition discriminate)).
  vm_compute in H. vm_compute. destruct H as [H _]. exact H.
Defined.

End MoreExamples.

(* ===================================================================== *)
(** * [Pype._load_pype_config] *)
(* ===================================================================== *)

Section LoadConfigFacts.
Import Py Settings Utils Main Session.
Variable isfile isdir : string -> bool.
Variable basename dirname : string -> string.
Variable splitext_root : string -> string.
Variable join : string -> string -> string.
Variable _load_yaml : string -> res value.
Variable dir_path : res string.

Local Abbreviation load :=
  (_load_pype_config isfile isdir basename dirname splitext_root join
     _load_yaml dir_path).

(** X16. A [config_path] that is given and is not a file: the function
    means to raise [FileNotFoundError], but the message names
    [config_name], which only the branch for a missing [config_path]
    binds; what is raised is [UnboundLocalError], and nothing has been
    assigned. *)
Theorem given_config_path_not_a_file image_path tag p (l : Loaded) :
  isfile p = false ->
  load image_path tag (Some p) l = Raises (unbound "config_name") l
  /\ exn_class (unbound "config_name") = "UnboundLocalError".
Proof.
  intros Hf. split; [|reflexivity].
  unfold _load_pype_config, mbind, ret. simpl. by rewrite Hf.
Qed.

(** X17. Without a [config_path] the file is looked for in the
    directory of the container, under the name of the image (without
    its extension) followed by [_pype_config_<tag>.yaml]: when it is
    there the call is the call with that path, when it is not the call
    raises [FileNotFoundError] and nothing has been assigned. *)
Theorem default_config_path image_path tag d (l : Loaded) :
  isfile image_path = true ->
  dir_path = Ok d ->
  let name := (splitext_root (basename image_path) +:+ "_")
              +:+ "pype_config_" +:+ tag +:+ ".yaml" in
  (isfile (join d name) = true ->
     load image_path tag None l = load image_path tag (Some (join d name)) l)
  /\ (isfile (join d name) = false ->
        load image_path tag None l
        = Raises (Exn "FileNotFoundError"
                    (not_found_msg name (dirname image_path))) l).
Proof.
  intros Hi Hd name. unfold _load_pype_config, mbind, eval.
  rewrite Hi, Hd. unfold ret. cbv beta iota delta [fst snd]. fold name.
  split; intros Hp; by rewrite Hp.
Qed.

(** X18. A locked template: the configuration and its path have been
    assigned to the object when [AttributeError] is raised. *)
Theorem locked_template_is_assigned_then_refused
    image_path tag p kvs v (l : Loaded) :
  isfile p = true ->
  _load_yaml p = Ok (VMap kvs) ->
  get "template_locked" kvs = Some v ->
  py_eq v (VBool true) = true ->
  load image_path tag (Some p) l
  = Raises (Exn "AttributeError" locked_msg)
      (mkLoaded (Some (VMap kvs)) (Some p)).
Proof.
  intros Hf Hy Hk Hv.
  unfold _load_pype_config, mbind, ret, eval, modify, when, raise, py_in,
    getitem, mem.
  simpl. rewrite Hf, Hy. simpl. rewrite Hk. simpl. by rewrite Hv.
Qed.

(** X19. When the function returns, the object holds the configuration
    that [_load_yaml] gave for the path it holds, that path is a file,
    it is the given path when one was given, and the configuration, if
    a mapping, is not a locked template. *)
Theorem loaded_config_is_the_file image_path tag cp (l l' : Loaded) :
  load image_path tag cp l = Returns tt l' ->
  exists p cfg,
    loaded_config l' = Some cfg
    /\ loaded_config_path l' = Some p
    /\ isfile p = true
    /\ _load_yaml p = Ok cfg
    /\ (forall given, cp = Some given -> p = given)
    /\ (forall kvs v,
          cfg = VMap kvs -> get "template_locked" kvs = Some v ->
          py_eq v (VBool true) = false).
Proof.
  intros H. unfold _load_pype_config in H.
  apply mbind_returns in H as ([name p] & l1 & Hl & H). simpl in H.
  assert (l1 = l /\ forall given, cp = Some given -> p = given) as [-> Hcp].
  { destruct cp as [given|].
    - injection Hl as _ <- <-. split; [done|]. by intros ? [= ->].
    - apply mbind_returns in Hl as (prepend & l2 & Hpre & Hl).
      apply mbind_returns in Hl as (d & l3 & Hd & Hl).
      injection Hl as _ _ <-.
      apply eval_returns in Hd as [_ ->].
      split; [|done].
      destruct (isfile image_path); [by injection Hpre|].
      destruct (isdir image_path); [by injection Hpre|done]. }
  destruct (isfile p) eqn:Hf; [|by destruct name].
  apply mbind_returns in H as (cfg & l2 & Hy & H).
  apply eval_returns in Hy as [Hy ->].
  apply mbind_returns in H as ([] & l3 & Hm1 & H).
  apply modify_returns in Hm1 as ->.
  apply mbind_returns in H as ([] & l4 & Hm2 & H).
  apply modify_returns in Hm2 as ->.
  apply mbind_returns in H as (locked & l5 & Hin & H).
  apply eval_returns in Hin as [Hin ->].
  exists p, cfg.
  assert (Hl' : loaded_config l' = Some cfg /\ loaded_config_path l' = Some p).
  { destruct locked; simpl in H; [|by injection H as <-].
    apply mbind_returns in H as (v & l6 & Hg & H).
    apply eval_returns in Hg as [_ ->].
    destruct (py_eq v (VBool true)); simpl in H; [done|].
    by injection H as <-. }
  destruct Hl' as [Hc Hp].
  split; [done|]. split; [done|]. split; [done|]. split; [done|].
  split; [done|].
  intros kvs v -> Hk. simpl in Hin. injection Hin as <-.
  unfold mem in H. rewrite Hk in H. simpl in H.
  apply mbind_returns in H as (v' & l6 & Hg & H).
  apply eval_returns in Hg as [Hg ->]. simpl in Hg. rewrite Hk in Hg.
  injection Hg as <-.
  by destruct (py_eq v (VBool true)).
Qed.

End LoadConfigFacts.

(* ===================================================================== *)
(** * The loop of [Pype.__init__] *)
(* ===================================================================== *)

Section LoopFacts.
Import Py Settings Utils Main Session.
Context {Image Annotation DataFrame : Type}.
Variable flags : Flags.
Variable config_path : string.
Variable namespace : string -> res (string -> bool).
Variable container_run :
  string -> option (list (string * value)) -> option value
  -> option (gmap string Z)
  -> M (Env (Image := Image) (Annotation := Annotation)
            (DataFrame := DataFrame)) unit.
Variable gui : option Image -> res bool.
Variable now : string.
Variable content : nat -> value.

Local Abbreviation St := (State (Image := Image) (Annotation := Annotation)
                            (DataFrame := DataFrame)).
Local Abbreviation Ss := (Session (Image := Image) (Annotation := Annotation)
                            (DataFrame := DataFrame)).
Local Abbreviation iterate :=
  (_iterate flags config_path namespace container_run gui now).
Local Abbreviation steps_of := (run_steps flags namespace container_run now).
Local Abbreviation body :=
  (loop_body flags config_path namespace container_run gui now content).
Local Abbreviation loop :=
  (pype_loop flags config_path namespace container_run gui now content).
Local Abbreviation session :=
  (pype_session flags config_path namespace container_run gui now content).

Lemma loop_without_visualize fuel (ss : Ss) :
  visualize flags = false ->
  loop (S fuel) ss
  = (on_pype (modify (set_pype_restart false)) ;;;
     on_pype (iterate true false (feedback flags)) ;;;
     ret true)%py ss.
Proof.
  intros Hv. simpl. unfold loop_body. rewrite Hv, andb_false_r.
  unfold mbind, ret.
  destruct (on_pype (modify _) ss) as [[] s1|]; [|done].
  by destruct (on_pype (iterate true false (feedback flags)) s1).
Qed.

(** X20. Without [visualize] the loop makes one pass and is left: with
    the restart flag lowered first, the pass runs in execute mode, and
    whatever turns are allowed beyond the first are not taken. *)
Theorem session_without_visualize_makes_one_pass fuel (ss : Ss) :
  visualize flags = false ->
  loop (S fuel) ss
  = (on_pype (modify (set_pype_restart false)) ;;;
     on_pype (iterate true false (feedback flags)) ;;;
     ret true)%py ss.
Proof. apply loop_without_visualize. Qed.

(** X21. With [feedback] and [visualize], a turn that finds the content
    of the file monitor empty makes no pass: the restart flag is lowered,
    a line is printed, the monitor is stopped and another is started,
    and the loop goes on; container, configuration and log are as they
    were. *)
Theorem empty_content_makes_no_pass (ss : Ss) :
  feedback flags = true ->
  visualize flags = true ->
  truthy (content (reads ss)) = false ->
  body ss
  = Returns Again
      (mkSession
         (set_stdout (stdout (pype ss)
                      ++ ["- STILL UPDATING CONFIG (no content)"])
            (set_pype_restart false (pype ss)))
         (S (reads ss)) (S (monitors_started ss)) (S (monitors_stopped ss))
         (saves ss)).
Proof.
  intros Hf Hv Hc. unfold loop_body. rewrite Hf, Hv. simpl.
  unfold mbind, on_pype, read_content, modify, print, modify,
    stop_monitor, _start_file_monitor, modify, ret. simpl.
  by rewrite Hc.
Qed.

Lemma run_steps_keeps_terminate execute feedback_ :
  keeps (terminate (Image := Image) (Annotation := Annotation)
           (DataFrame := DataFrame))
    (steps_of execute feedback_).
Proof.
  unfold run_steps, do_step, do_method, execute_method, run_method,
    annotation_params, check_method_exists, bind_method, autoselect_canvas,
    assign_method, mutate_method_args, rebind_method_args, counter_get,
    the_method_name, the_method_args, print.
  keeps_tac.
Qed.


(** The session up to the pass, without [visualize]. *)
Lemma session_without_visualize fuel (ss : Ss) :
  visualize flags = false ->
  session (S fuel) ss
  = (left <- (on_pype (iterate true false (feedback flags)) ;;; ret true) ;;
     if left : bool
     then (autosave_results flags ;;; ret (Some tt))
     else ret None)%py
      (mkSession (set_pype_restart false (set_log [] (pype ss)))
         (reads ss) (monitors_started ss) (monitors_stopped ss) (saves ss)).
Proof.
  intros Hv. unfold pype_session. rewrite Hv, andb_false_r.
  erewrite mbind_step by reflexivity.
  erewrite mbind_step by reflexivity.
  unfold mbind at 1. rewrite loop_without_visualize by done.
  unfold mbind at 2. simpl. reflexivity.
Qed.

(** X22. Without [visualize], a pass that a method ends by raising the
    restart flag ends the session all the same, and nothing is saved,
    with [autosave] or without: the pass has returned before it could
    set [terminate]. *)
Theorem restarted_session_saves_nothing fuel (ss : Ss) p1 :
  visualize flags = false ->
  terminate (pype ss) = false ->
  steps_of true (feedback flags)
    (set_pype_restart false (set_log [] (pype ss))) = Returns Return p1 ->
  exists ss',
    session (S fuel) ss = Returns (Some tt) ss'
    /\ pype ss' = p1
    /\ pype_restart p1 = true
    /\ saves ss' = saves ss.
Proof.
  intros Hv Ht H.
  assert (Ht1 : terminate p1 = false).
  { rewrite <- Ht.
    change (terminate (pype ss))
      with (terminate (set_pype_restart false (set_log [] (pype ss)))).
    eapply keeps_returns; [apply run_steps_keeps_terminate|exact H]. }
  assert (Hr : pype_restart p1 = true)
    by (eapply run_steps_return_with_restart; exact H).
  rewrite session_without_visualize by done.
  unfold mbind, on_pype, _iterate, mbind. simpl. rewrite H. simpl.
  unfold autosave_results, mbind, gets, when. simpl. rewrite Ht1.
  rewrite andb_false_r. simpl.
  eexists. split; [reflexivity|]. by repeat split.
Qed.


End LoopFacts.

Section SessionExamples.
Import Py Settings Utils Main Outline Glue Session Demo.

Ltac by_evaluating := vm_compute; reflexivity.

(** X16, an instance: a path that is not in the directory. *)
Lemma given_config_path_not_a_file_witness :
  exists ex,
    load0 "img/a.jpg" "v1" (Some "img/other.yaml") nothing_loaded
      = Raises ex nothing_loaded
    /\ exn_class ex = "UnboundLocalError".
Proof.
  eexists.
  exact (given_config_path_not_a_file isfile0 isdir0 basename0 dirname0
           splitext_root0 join0 load_yaml0 (Ok "img") "img/a.jpg" "v1"
           "img/other.yaml" nothing_loaded ltac:(by_evaluating)).
Defined.

(** X17, an instance: the image [img/a.jpg] and the tag [v1]. *)
Lemma default_config_path_witness :
  load0 "img/a.jpg" "v1" None nothing_loaded
  = load0 "img/a.jpg" "v1" (Some "img/a_pype_config_v1.yaml") nothing_loaded.
Proof.
  pose proof (default_config_path isfile0 isdir0 basename0 dirname0
                splitext_root0 join0 load_yaml0 (dir_path := Ok "img")
                "img/a.jpg" "v1" (d := "img") nothing_loaded
                ltac:(by_evaluating) eq_refl) as [H _].
  specialize (H ltac:(by_evaluating)).
  vm_compute in H. vm_compute. exact H.
Defined.

(** X18, an instance: the locked template. *)
Lemma locked_template_is_assigned_then_refused_witness :
  exists l,
    load0 "img/a.jpg" "v1" (Some "template.yaml") nothing_loaded
      = Raises (Exn "AttributeError" locked_msg) l
    /\ loaded_config_path l = Some "template.yaml".
Proof.
  eexists. split.
  - exact (locked_template_is_assigned_then_refused isfile0 isdir0 basename0
             dirname0 splitext_root0 join0 load_yaml0 (Ok "img")
             "img/a.jpg" "v1" "template.yaml"
             (kvs := [("template_locked", VBool true);
                      ("processing_steps", VSeq [])])
             (v := VBool true) nothing_loaded
             ltac:(by_evaluating) ltac:(by_evaluating) ltac:(by_evaluating)
             ltac:(by_evaluating)).
  - reflexivity.
Defined.

(** X19, an instance: the configuration beside the image. *)
Lemma loaded_config_is_the_file_witness :
  exists p,
    loaded_config_path
      (final (load0 "img/a.jpg" "v1" None nothing_loaded)) = Some p
    /\ isfile0 p = true
    /\ load_yaml0 p
       = Ok (config_masks 1).
Proof.
  destruct (loaded_config_is_the_file isfile0 isdir0 basename0 dirname0
              splitext_root0 join0 load_yaml0 (Ok "img")
              "img/a.jpg" "v1" None nothing_loaded
              (l' := final (load0 "img/a.jpg" "v1" None nothing_loaded))
              ltac:(by_evaluating))
    as (p & cfg & Hc & Hp & Hf & Hy & _).
  exists p. split; [exact Hp|]. split; [exact Hf|].
  rewrite Hy. f_equal. vm_compute in Hc. by injection Hc as <-.
Defined.

(** X20, an instance: five turns allowed, one taken. *)
Lemma session_without_visualize_makes_one_pass_witness :
  pype_loop flags_batch config_path0 namespace0 run_nothing gui_end now0
    content_none 5 (pype0 threshold_config)
  = pype_loop flags_batch config_path0 namespace0 run_nothing gui_end now0
      content_none 1 (pype0 threshold_config).
Proof.
  rewrite (session_without_visualize_makes_one_pass flags_batch config_path0
             namespace0 run_nothing gui_end now0 content_none 4
             (pype0 threshold_config) eq_refl).
  rewrite (session_without_visualize_makes_one_pass flags_batch config_path0
             namespace0 run_nothing gui_end now0 content_none 0
             (pype0 threshold_config) eq_refl).
  reflexivity.
Defined.

(** X21, an instance: the monitor has nothing yet. *)
Lemma empty_content_makes_no_pass_witness :
  exists ss',
    loop_body flags0 config_path0 namespace0 run_nothing gui_end now0
      content_none (pype0 threshold_config) = Returns Again ss'
    /\ reads ss' = 1
    /\ monitors_started ss' = 1
    /\ log (pype ss') = [].
Proof.
  eexists. split.
  - exact (empty_content_makes_no_pass flags0 config_path0 namespace0
             run_nothing gui_end now0 content_none (pype0 threshold_config)
             eq_refl eq_refl eq_refl).
  - by repeat apply conj.
Defined.

(** X22, an instance: [threshold] raises the restart flag. *)
Lemma restarted_session_saves_nothing_witness :
  exists ss',
    pype_session flags_batch config_path0 namespace0
      (run_restarting "threshold") gui_end now0 content_none 1
      (pype0 config_export) = Returns (Some tt) ss'
    /\ pype_restart (pype ss') = true
    /\ saves ss' = [].
Proof.
  edestruct (restarted_session_saves_nothing flags_batch config_path0
               namespace0 (run_restarting "threshold") gui_end now0
               content_none 0 (pype0 config_export)
               (p1 := final (steps_pass flags_batch
                               (run_restarting "threshold") true false
                               (set_pype_restart false
                                  (set_log [] (session config_export))))))
    as (ss' & H1 & H2 & H3 & H4); [by_evaluating..|].
  exists ss'. split; [exact H1|]. rewrite H2. split; [exact H3|exact H4].
Defined.


End SessionExamples.
